(** * amplify_deployment_script: a shallow embedding and its properties

    The script [scripts/amplify_deployment_script.py] resolves a per-user
    configuration, selects an app, reconciles the branch that receives the
    deployment, packs a build directory and drives the remote deployment.

    The development follows the script function by function.  Everything
    outside the script (the filesystem, the console, the Amplify service
    reached through boto3, the upload sink reached through requests, git)
    is a field of an explicit [World] that the functions thread through. *)

From Stdlib Require Import List String Ascii ZArith Lia Bool Arith DecimalString.
Set Warnings "-register-all".
From Stdlib.Strings Require Byte.
Import ListNotations.

Local Open Scope list_scope.
Local Open Scope string_scope.

(** ** Python strings *)

Module PyStr.

(** [s.startswith(p)] *)
Definition startswith (s p : string) : bool := String.prefix p s.

(** [s.endswith(x)]: the last [len(x)] characters of [s] are [x]. *)
Definition endswith (s x : string) : bool :=
  let n := String.length s in
  let m := String.length x in
  if (m <=? n)%nat then String.eqb (String.substring (n - m) m s) x else false.

(** A [string] stands for a Python [str] whose characters are the code
    points below 256, one [ascii] each.  [lower] and [is_space] follow
    [str.lower] and [str.isspace] on that range: the capital letters are
    [A]-[Z] and U+00C0-U+00DE without the multiplication sign U+00D7. *)
Definition lower_ascii (c : ascii) : ascii :=
  let n := nat_of_ascii c in
  if ((65 <=? n) && (n <=? 90))%nat
     || ((192 <=? n) && (n <=? 222) && negb (n =? 215))%nat
  then ascii_of_nat (n + 32) else c.

(** [s.lower()] *)
Fixpoint lower (s : string) : string :=
  match s with
  | EmptyString => EmptyString
  | String c s' => String (lower_ascii c) (lower s')
  end.

(** The characters [str.isspace] accepts, which [str.strip] removes: tab
    to carriage return, the separators U+001C-U+001F, the space, the next
    line U+0085 and the no-break space U+00A0. *)
Definition is_space (c : ascii) : bool :=
  let n := nat_of_ascii c in
  (((9 <=? n) && (n <=? 13)) || ((28 <=? n) && (n <=? 32))
   || (n =? 133) || (n =? 160))%nat.

Fixpoint lstrip (s : string) : string :=
  match s with
  | EmptyString => EmptyString
  | String c s' => if is_space c then lstrip s' else s
  end.

Definition rev (s : string) : string :=
  string_of_list_ascii (List.rev (list_ascii_of_string s)).

Definition rstrip (s : string) : string := rev (lstrip (rev s)).

(** [s.strip()] *)
Definition strip (s : string) : string := lstrip (rstrip s).

(** [s.split(sep)] for a one-character separator: never the empty list. *)
Fixpoint split (sep : ascii) (s : string) : list string :=
  match s with
  | EmptyString => [EmptyString]
  | String c s' =>
      if Ascii.eqb c sep then EmptyString :: split sep s'
      else match split sep s' with
           | [] => [String c EmptyString]
           | w :: ws => String c w :: ws
           end
  end.

(** [sep.join(parts)] *)
Fixpoint join (sep : string) (parts : list string) : string :=
  match parts with
  | [] => EmptyString
  | [p] => p
  | p :: ps => p ++ sep ++ join sep ps
  end.


(** Truth value of a string: empty is false. *)
Definition truthy (s : string) : bool := negb (String.eqb s "").

(** Truth value of an optional string, [None] and [''] being false. *)
Definition truthy_opt (o : option string) : bool :=
  match o with Some s => truthy s | None => false end.

(** [repr] of a list of plain strings, as [print] shows a list. *)
Definition repr_list (l : list string) : string :=
  "[" ++ join ", " (map (fun s => "'" ++ s ++ "'") l) ++ "]".

End PyStr.

(** ** Python dictionaries

    A [dict] keeps insertion order; it is an association list whose keys
    are pairwise distinct ([dict_wf]).  [dict_get] is [d.get(k)]. *)

Section Dict.
Context {V : Type}.

Definition dict := list (string * V).

Fixpoint dict_get (d : dict) (k : string) : option V :=
  match d with
  | [] => None
  | (k', v) :: d' => if String.eqb k' k then Some v else dict_get d' k
  end.

Definition dict_keys (d : dict) : list string := map fst d.
Definition dict_values (d : dict) : list V := map snd d.

(** [d[k] = v]: an existing key keeps its place, a new one goes last. *)
Fixpoint dict_set (d : dict) (k : string) (v : V) : dict :=
  match d with
  | [] => [(k, v)]
  | (k', v') :: d' =>
      if String.eqb k' k then (k', v) :: d' else (k', v') :: dict_set d' k v
  end.

Definition dict_wf (d : dict) : Prop := NoDup (dict_keys d).
End Dict.
Arguments dict V : clear implicits.

(** ** Paths and the filesystem

    A [path] is the list of components of a normalised absolute path, the
    form [os.path.abspath] computes.  The filesystem is a tree of regular
    files and directories; a directory lists its entries in the order
    [os.listdir] reports them. *)

Definition bytes := list Byte.byte.
Definition path := list string.

Module OsPath.

Definition components (s : string) : list string := PyStr.split "/" s.

(** [normpath]: drop [''] and ['.'], let ['..'] remove the last component. *)
Fixpoint resolve (base : path) (parts : list string) : path :=
  match parts with
  | [] => base
  | c :: rest =>
      if String.eqb c "" || String.eqb c "." then resolve base rest
      else if String.eqb c ".." then resolve (removelast base) rest
      else resolve (base ++ [c])%list rest
  end.

(** [os.path.abspath(p)] in a process whose working directory is [cwd]. *)
Definition abspath (cwd p : string) : path :=
  if PyStr.startswith p "/" then resolve [] (components p)
  else resolve (resolve [] (components cwd)) (components p).

Definition to_string (p : path) : string := "/" ++ PyStr.join "/" p.

(** [os.path.join(a, b)] on strings. *)
Definition join (a b : string) : string :=
  if PyStr.startswith b "/" then b
  else if String.eqb a "" || PyStr.endswith a "/" then a ++ b
  else a ++ "/" ++ b.

(** [os.path.relpath(p, start)] on resolved paths: skip the common
    prefix, climb out of what is left of [start], descend into [p]. *)
Fixpoint relpath_list (p start : path) : list string :=
  match p, start with
  | x :: p', y :: start' =>
      if String.eqb x y then relpath_list p' start'
      else (repeat ".." (List.length start) ++ p)%list
  | _, _ => (repeat ".." (List.length start) ++ p)%list
  end.

Definition relpath (p start : path) : string :=
  match relpath_list p start with
  | [] => "."
  | l => PyStr.join "/" l
  end.

Fixpoint path_eqb (p q : path) : bool :=
  match p, q with
  | [], [] => true
  | x :: p', y :: q' => String.eqb x y && path_eqb p' q'
  | _, _ => false
  end.

End OsPath.

Inductive node : Type :=
| File (content : bytes)
| Dir (entries : list (string * node)).

Definition is_dir (n : node) : bool :=
  match n with Dir _ => true | File _ => false end.

Fixpoint node_at (n : node) (p : path) : option node :=
  match p with
  | [] => Some n
  | c :: p' =>
      match n with
      | Dir es =>
          match dict_get es c with
          | Some child => node_at child p'
          | None => None
          end
      | File _ => None
      end
  end.

(** The content of the regular file at [p], if there is one. *)
Definition file_at (n : node) (p : path) : option bytes :=
  match node_at n p with
  | Some (File c) => Some c
  | _ => None
  end.

(** [os.path.isdir] *)
Definition isdir (root : node) (p : path) : bool :=
  match node_at root p with
  | Some n => is_dir n
  | None => false
  end.

(** [os.listdir]: the names of all entries, files and directories alike. *)
Definition listdir (root : node) (p : path) : option (list string) :=
  match node_at root p with
  | Some (Dir es) => Some (dict_keys es)
  | _ => None
  end.

(** How the system resolves a path name: one component after the other
    from [here], each one looked up in a directory; [..] leads to the
    parent, [.] and an empty component stay in place.  The name leads
    nowhere as soon as a component is sought in what is no directory.
    There are no symbolic links. *)
Fixpoint locate_from (root : node) (here : path) (parts : list string)
  : option path :=
  match parts with
  | [] => Some here
  | c :: rest =>
      if isdir root here then
        if String.eqb c "" || String.eqb c "." then locate_from root here rest
        else if String.eqb c ".." then locate_from root (removelast here) rest
        else locate_from root (here ++ [c])%list rest
      else None
  end.

(** The place a path name leads to in a process whose working directory
    is [cwd]; the place itself need not exist.  The empty name is none. *)
Definition locate (root : node) (cwd p : string) : option path :=
  if String.eqb p "" then None
  else if PyStr.startswith p "/" then locate_from root [] (OsPath.components p)
  else locate_from root (OsPath.resolve [] (OsPath.components cwd)) (OsPath.components p).

(** A regular file is written at [p]: created last in its directory, or
    replaced where it is.  Nothing is written where the directory of [p]
    is missing or [p] is a directory. *)
Fixpoint write_file (p : path) (content : bytes) (n : node) : node :=
  match p, n with
  | name :: rest, Dir es =>
      match rest, dict_get es name with
      | [], Some (Dir _) => n
      | [], _ => Dir (dict_set es name (File content))
      | _ :: _, Some child => Dir (dict_set es name (write_file rest content child))
      | _ :: _, None => n
      end
  | _, _ => n
  end.

Definition dirnames (es : list (string * node)) : list string :=
  dict_keys (filter (fun e => is_dir (snd e)) es).

Definition filenames (es : list (string * node)) : list string :=
  dict_keys (filter (fun e => negb (is_dir (snd e))) es).

(** [os.walk(top)], top-down: the triple of a directory, then the walks of
    its subdirectories in listing order.  Walking what is not a directory
    yields nothing. *)
Fixpoint walk (root : path) (n : node) {struct n}
  : list (path * list string * list string) :=
  match n with
  | File _ => []
  | Dir es =>
      (root, dirnames es, filenames es) ::
      (fix subdirs (l : list (string * node)) :=
         match l with
         | [] => []
         | (name, child) :: l' =>
             (walk (root ++ [name]) child ++ subdirs l')%list
         end) es
  end.


Fixpoint distinct (l : list string) : bool :=
  match l with
  | [] => true
  | x :: l' => negb (existsb (String.eqb x) l') && distinct l'
  end.


(** ** Archives

    A zip archive is the sequence of its members: entry name and bytes
    (the script stores members uncompressed). *)

Definition archive := list (string * bytes).

(** ** Configuration

    [config.yaml] maps a username to that user's settings: a credential
    profile and the apps, each app a dictionary of strings with the keys
    [app_id], [repo_root], [build_directory] and [default_branch]. *)

Definition AppInfo := dict string.

Record Config := mkConfig {
  AWS_PROFILE : option string;
  apps : option (dict AppInfo)
}.

(** The empty dictionary [{}]. *)
Definition empty_config : Config := mkConfig None None.

(** Truth value of a configuration: only [{}] is false. *)
Definition config_truthy (c : Config) : bool :=
  match AWS_PROFILE c, apps c with
  | None, None => false
  | _, _ => true
  end.

Definition AllConfig := dict Config.

(** What [yaml.safe_load] makes of a configuration file. *)
Inductive yaml_doc :=
| Malformed (msg : string)
| Document (all_config : AllConfig).

(** ** Exceptions and outcomes *)

Inductive exn :=
| ValueError (msg : string)
| FileNotFoundError (file : string)
| YAMLError (msg : string)
| ClientError (code msg : string)
| BotoCoreError (msg : string)
| RequestException (msg : string)
| EOFError
| KeyError (key : string)
| TypeError (msg : string)
| InvalidGitRepositoryError
| NoSuchPathError.

(** [str(e)] *)
Definition exn_str (e : exn) : string :=
  match e with
  | ValueError msg => msg
  | FileNotFoundError file => "No such file or directory: '" ++ file ++ "'"
  | YAMLError msg => msg
  | ClientError code msg => "An error occurred (" ++ code ++ "): " ++ msg
  | BotoCoreError msg => msg
  | RequestException msg => msg
  | EOFError => "EOF when reading a line"
  | KeyError key => "'" ++ key ++ "'"
  | TypeError msg => msg
  | InvalidGitRepositoryError => "InvalidGitRepositoryError"
  | NoSuchPathError => "NoSuchPathError"
  end.

(** [client.exceptions.NotFoundException]: the [ClientError] whose error
    code is [NotFoundException]. *)
Definition is_NotFoundException (e : exn) : bool :=
  match e with
  | ClientError code _ => String.eqb code "NotFoundException"
  | _ => false
  end.

Definition is_ClientError (e : exn) : bool :=
  match e with ClientError _ _ => true | _ => false end.

(** How a piece of the script ends: it returns, it leaves through
    [sys.exit] ([SystemExit], which [except Exception] lets through), or it
    raises an exception. *)
Inductive outcome (A : Type) :=
| Ret (a : A)
| Exit (status : Z)
| Raise (e : exn).
Arguments Ret {A} a.
Arguments Exit {A} status.
Arguments Raise {A} e.

(** The status the process ends with; an uncaught exception prints a
    traceback and ends the interpreter with status 1. *)
Definition exit_status {A} (o : outcome A) : Z :=
  match o with
  | Ret _ => 0
  | Exit status => status
  | Raise _ => 1
  end.

(** ** The world around the script *)

Inductive git_state :=
| NotARepository
| NoSuchPath
| DetachedHead
| OnBranch (name : string).

Inductive put_reply :=
| Status (code : Z)
| TransportFailure (msg : string).

Inductive remote_call :=
| GetBranch (appId branchName : string)
| CreateBranch (appId branchName : string)
| ListBranches (appId : string)
| CreateDeployment (appId branchName : string)
| StartDeployment (appId branchName jobId : string)
| HttpPut (url : string) (reply : put_reply).

(** What the process only reads. *)
Record Host := mkHost {
  passwd_name : option string;          (* [pwd.getpwuid(os.getuid()).pw_name], [None]: no entry *)
  cwd : string;                         (* [os.getcwd()] *)
  script_dir : string;                  (* directory of the script file *)
  config_files : list (path * yaml_doc);
  fs : node;                            (* the tree below [/] when the process starts *)
  git : git_state;
  on_disk : archive -> bytes            (* what a reader finds in an archive file with these members *)
}.

(** What the process reads and changes.  [faults] and [put_replies] script
    the environment: each Amplify call consumes one element of [faults]
    and fails with it when it is an error; each upload consumes one
    element of [put_replies].  [calls] records every remote call made and
    how it ended. *)
Record World := mkWorld {
  host : Host;
  environ : dict string;
  zips : dict archive;                  (* archive files, by the name they were opened with *)
  stdin : list string;
  stdout : list string;
  remote_branches : list (string * string);   (* (appId, branchName) *)
  jobs : nat;                           (* deployment slots issued so far *)
  faults : list (option exn);
  put_replies : list put_reply;
  calls : list (remote_call * option exn)
}.

Definition set_environ (w : World) (e : dict string) : World :=
  mkWorld (host w) e (zips w) (stdin w) (stdout w) (remote_branches w)
          (jobs w) (faults w) (put_replies w) (calls w).
Definition set_zips (w : World) (z : dict archive) : World :=
  mkWorld (host w) (environ w) z (stdin w) (stdout w) (remote_branches w)
          (jobs w) (faults w) (put_replies w) (calls w).
Definition set_stdin (w : World) (l : list string) : World :=
  mkWorld (host w) (environ w) (zips w) l (stdout w) (remote_branches w)
          (jobs w) (faults w) (put_replies w) (calls w).
Definition set_stdout (w : World) (l : list string) : World :=
  mkWorld (host w) (environ w) (zips w) (stdin w) l (remote_branches w)
          (jobs w) (faults w) (put_replies w) (calls w).
Definition set_remote_branches (w : World) (b : list (string * string)) : World :=
  mkWorld (host w) (environ w) (zips w) (stdin w) (stdout w) b
          (jobs w) (faults w) (put_replies w) (calls w).
Definition set_jobs (w : World) (n : nat) : World :=
  mkWorld (host w) (environ w) (zips w) (stdin w) (stdout w) (remote_branches w)
          n (faults w) (put_replies w) (calls w).
Definition set_faults (w : World) (f : list (option exn)) : World :=
  mkWorld (host w) (environ w) (zips w) (stdin w) (stdout w) (remote_branches w)
          (jobs w) f (put_replies w) (calls w).
Definition set_put_replies (w : World) (r : list put_reply) : World :=
  mkWorld (host w) (environ w) (zips w) (stdin w) (stdout w) (remote_branches w)
          (jobs w) (faults w) r (calls w).
Definition set_calls (w : World) (c : list (remote_call * option exn)) : World :=
  mkWorld (host w) (environ w) (zips w) (stdin w) (stdout w) (remote_branches w)
          (jobs w) (faults w) (put_replies w) c.

(** The place the name of a file leads to.  The script makes no
    directory, so names lead where they led when the process started. *)
Definition place (w : World) (name : string) : option path :=
  locate (fs (host w)) (cwd (host w)) name.

(** The tree the process sees: the tree of the host and, written over
    it, the archive files, each at the place of its name. *)
Definition seen_fs (w : World) : node :=
  fold_left
    (fun t z => match place w (fst z) with
                | Some q => write_file q (on_disk (host w) (snd z)) t
                | None => t
                end)
    (zips w) (fs (host w)).

(** ** The monad of the script: state and outcomes *)

Definition M (A : Type) : Type := World -> outcome A * World.

Definition ret {A} (a : A) : M A := fun w => (Ret a, w).

Definition bind {A B} (m : M A) (k : A -> M B) : M B :=
  fun w =>
    match m w with
    | (Ret a, w') => k a w'
    | (Exit status, w') => (Exit status, w')
    | (Raise e, w') => (Raise e, w')
    end.

Declare Scope py_scope.
Delimit Scope py_scope with py.
Notation "x <- m ;; k" := (bind m (fun x => k))
  (at level 61, m at next level, right associativity) : py_scope.
Notation "m ;; k" := (bind m (fun _ => k))
  (at level 61, right associativity) : py_scope.
Local Open Scope py_scope.

Definition raise {A} (e : exn) : M A := fun w => (Raise e, w).

(** [sys.exit(status)] *)
Definition sys_exit {A} (status : Z) : M A := fun w => (Exit status, w).

(** [try: m  except E as e: handler(e)], [catches] telling which
    exceptions the clause takes.  [SystemExit] passes through. *)
Definition try_except {A} (m : M A) (catches : exn -> bool) (handler : exn -> M A)
  : M A :=
  fun w =>
    match m w with
    | (Raise e, w') => if catches e then handler e w' else (Raise e, w')
    | r => r
    end.

Definition print (line : string) : M unit :=
  fun w => (Ret tt, set_stdout w (stdout w ++ [line])%list).

(** [input(prompt)]: show the prompt, read a line; [EOFError] at the end
    of the input. *)
Definition input (prompt : string) : M string :=
  fun w =>
    let w1 := set_stdout w (stdout w ++ [prompt])%list in
    match stdin w1 with
    | [] => (Raise EOFError, w1)
    | line :: rest => (Ret line, set_stdin w1 rest)
    end.

Definition os_getenv (name : string) : M (option string) :=
  fun w => (Ret (dict_get (environ w) name), w).

Definition os_getcwd : M string := fun w => (Ret (cwd (host w)), w).

Fixpoint for_each {A} (l : list A) (body : A -> M unit) : M unit :=
  match l with
  | [] => ret tt
  | x :: l' => body x ;; for_each l' body
  end.

(** ** The collaborators: Amplify through boto3, the upload sink, git *)

(** Note a remote call and how it ended. *)
Definition record_call (c : remote_call) (r : option exn) (w : World) : World :=
  set_calls w (calls w ++ [(c, r)])%list.

Module Amplify.

Definition has_branch (w : World) (appId branchName : string) : bool :=
  existsb (fun b => String.eqb (fst b) appId && String.eqb (snd b) branchName)
          (remote_branches w).

Definition branches_of (w : World) (appId : string) : list string :=
  map snd (filter (fun b => String.eqb (fst b) appId) (remote_branches w)).

Definition next_fault (w : World) : option exn :=
  match faults w with
  | [] => None
  | f :: _ => f
  end.

Definition consume_fault (w : World) : World := set_faults w (tl (faults w)).

(** One call of the client: the scripted fault, if any, else what the
    service answers in its present state. *)
Definition call {A} (c : remote_call) (serve : World -> (A + exn) * World) : M A :=
  fun w =>
    let w1 := consume_fault w in
    match next_fault w with
    | Some e => (Raise e, record_call c (Some e) w1)
    | None =>
        match serve w1 with
        | (inl a, w2) => (Ret a, record_call c None w2)
        | (inr e, w2) => (Raise e, record_call c (Some e) w2)
        end
    end.

Definition not_found (what : string) : exn :=
  ClientError "NotFoundException" (what ++ " not found").

(** [client.get_branch(appId=..., branchName=...)] *)
Definition get_branch (appId branchName : string) : M unit :=
  call (GetBranch appId branchName)
    (fun w => if has_branch w appId branchName then (inl tt, w)
              else (inr (not_found branchName), w)).

(** [client.create_branch(appId=..., branchName=...)] *)
Definition create_branch (appId branchName : string) : M unit :=
  call (CreateBranch appId branchName)
    (fun w => if has_branch w appId branchName
              then (inr (ClientError "BadRequestException" "branch already exists"), w)
              else (inl tt, set_remote_branches w
                              (remote_branches w ++ [(appId, branchName)])%list)).

(** [client.list_branches(appId=...)['branches']], as branch names. *)
Definition list_branches (appId : string) : M (list string) :=
  call (ListBranches appId) (fun w => (inl (branches_of w appId), w)).

Definition job_name (n : nat) : string :=
  DecimalString.NilEmpty.string_of_uint (Nat.to_uint n).

(** [client.create_deployment]: the job id and the upload URL of a new
    deployment slot, as the pair [(jobId, zipUploadUrl)]. *)
Definition create_deployment (appId branchName : string) : M (string * string) :=
  call (CreateDeployment appId branchName)
    (fun w => if has_branch w appId branchName
              then let n := S (jobs w) in
                   (inl (job_name n, "https://upload/" ++ appId ++ "/" ++ job_name n),
                    set_jobs w n)
              else (inr (not_found branchName), w)).

(** [client.start_deployment] *)
Definition start_deployment (appId branchName jobId : string) : M unit :=
  call (StartDeployment appId branchName jobId) (fun w => (inl tt, w)).

End Amplify.

Module Requests.

(** [requests.put(url, data=f)]: the status code of the response, or a
    transport failure ([RequestException]). *)
Definition put (url : string) (data : archive) : M Z :=
  fun w =>
    let (reply, w1) :=
      match put_replies w with
      | [] => (Status 200, w)
      | r :: rest => (r, set_put_replies w rest)
      end in
    match reply with
    | Status code => (Ret code, record_call (HttpPut url reply) None w1)
    | TransportFailure msg =>
        let e := RequestException msg in
        (Raise e, record_call (HttpPut url reply) (Some e) w1)
    end.

(** [response.raise_for_status()]: [HTTPError], a [RequestException],
    on a 4xx or 5xx status and on nothing else. *)
Definition raise_for_status (url : string) (code : Z) : M unit :=
  if ((400 <=? code) && (code <? 600))%Z
  then raise (RequestException ("HTTP error for url: " ++ url))
  else ret tt.

End Requests.

(** ** The script *)

(** [getpass.getuser()]: the first non-empty of four environment
    variables, else the password database. *)
Definition getpass_getuser : M (option string) :=
  fun w =>
    let env name := PyStr.truthy_opt (dict_get (environ w) name) in
    if env "LOGNAME" then (Ret (dict_get (environ w) "LOGNAME"), w)
    else if env "USER" then (Ret (dict_get (environ w) "USER"), w)
    else if env "LNAME" then (Ret (dict_get (environ w) "LNAME"), w)
    else if env "USERNAME" then (Ret (dict_get (environ w) "USERNAME"), w)
    else match passwd_name (host w) with
         | Some n => (Ret (Some n), w)
         | None => (Raise (KeyError "getpwuid(): uid not found"), w)
         end.

(** [pwd.getpwuid(os.getuid()).pw_name] *)
Definition pwd_name : M (option string) :=
  fun w =>
    match passwd_name (host w) with
    | Some n => (Ret (Some n), w)
    | None => (Raise (KeyError "getpwuid(): uid not found"), w)
    end.

(** The loop of [get_username]: the first method that yields a non-empty
    name other than [root]; a method that raises is skipped. *)
Fixpoint first_username (methods : list (M (option string))) : M string :=
  match methods with
  | [] => ret "default_user"
  | method :: rest =>
      fun w =>
        match method w with
        | (Ret (Some username), w') =>
            if PyStr.truthy username && negb (String.eqb username "root")
            then (Ret username, w')
            else first_username rest w'
        | (_, w') => first_username rest w'
        end
  end.

Definition get_username : M string :=
  first_username
    [ os_getenv "USER";
      os_getenv "USERNAME";
      getpass_getuser;
      pwd_name;
      ret (Some "default_user") ].

(** [open(config_file)] followed by [yaml.safe_load]. *)
Definition open_yaml (config_file : string) : M AllConfig :=
  fun w =>
    let p := OsPath.abspath (cwd (host w)) config_file in
    match find (fun f => OsPath.path_eqb (fst f) p) (config_files (host w)) with
    | None => (Raise (FileNotFoundError config_file), w)
    | Some (_, Malformed msg) => (Raise (YAMLError msg), w)
    | Some (_, Document all_config) => (Ret all_config, w)
    end.

(** [next(iter(all_config.values()), {})] *)
Definition first_value (all_config : AllConfig) : Config :=
  match dict_values all_config with
  | c :: _ => c
  | [] => empty_config
  end.

Definition fallback_warning (username : string) : string :=
  "Warning: No configuration found for user '" ++ username ++
  "'. Using default configuration.".

(** The statements both attempts of [load_config] run once the file is
    loaded (lines 40-51 and 58-66); [shown] is the path they print. *)
Definition select_user_config (all_config : AllConfig) (shown : string) : M Config :=
  username <- get_username ;;
  print ("Detected username: " ++ username) ;;
  print ("Available users in config: " ++ PyStr.repr_list (dict_keys all_config)) ;;
  let config := match dict_get all_config username with
                | Some c => c
                | None => empty_config
                end in
  config <- (if negb (config_truthy config)
             then print (fallback_warning username) ;;
                  ret (first_value all_config)
             else ret config) ;;
  print ("Loaded config for user '" ++ username ++ "' from: " ++ shown) ;;
  ret config.

Definition is_FileNotFoundError (e : exn) : bool :=
  match e with FileNotFoundError _ => true | _ => false end.

Definition is_YAMLError (e : exn) : bool :=
  match e with YAMLError _ => true | _ => false end.

Definition load_config (config_file : string) : M Config :=
  try_except
    (all_config <- open_yaml config_file ;;
     current_dir <- os_getcwd ;;
     select_user_config all_config
       (OsPath.to_string (OsPath.abspath current_dir config_file)))
    (fun e => is_FileNotFoundError e || is_YAMLError e)
    (fun e =>
       if is_FileNotFoundError e then
         fun w =>
           let script_dir := script_dir (host w) in
           let config_path := OsPath.join script_dir config_file in
           try_except
             (all_config <- open_yaml config_path ;;
              select_user_config all_config config_path)
             is_FileNotFoundError
             (fun _ =>
                print "Config file not found in current directory or script directory." ;;
                current_dir <- os_getcwd ;;
                print ("Looked in: " ++ current_dir ++ " and " ++ script_dir) ;;
                ret empty_config)
             w
       else
         print ("Error parsing config file: " ++ exn_str e) ;;
         sys_exit 1).

Definition set_aws_profile (config : Config) : M unit :=
  let aws_profile := AWS_PROFILE config in
  if PyStr.truthy_opt aws_profile
  then fun w =>
         let p := match aws_profile with Some p => p | None => "" end in
         print ("Set AWS_PROFILE to: " ++ p)
               (set_environ w (dict_set (environ w) "AWS_PROFILE" p))
  else print "Warning: AWS_PROFILE not found in config. Using default AWS credentials.".

Inductive Action := ActDeploy | ActListBranches | ActListApps.

(** The namespace [parse_arguments] returns. *)
Record Args := mkArgs {
  action : Action;
  app : option string;
  branch : option string;
  config : string
}.

Definition not_a_directory_msg (directory : string) : string :=
  "'" ++ directory ++ "' is not a valid directory".

Definition no_html_msg (directory : string) : string :=
  "No HTML files found in '" ++ directory ++ "'".

(** [os.path.isdir]: false as well where the name leads nowhere. *)
Definition os_path_isdir (p : string) : M bool :=
  fun w => (Ret match place w p with
                | Some q => isdir (seen_fs w) q
                | None => false
                end, w).

(** [os.listdir] *)
Definition os_listdir (p : string) : M (list string) :=
  fun w =>
    match place w p with
    | Some q =>
        match listdir (seen_fs w) q with
        | Some names => (Ret names, w)
        | None => (Raise (FileNotFoundError p), w)
        end
    | None => (Raise (FileNotFoundError p), w)
    end.

Definition validate_html_directory (directory : string) : M unit :=
  is_directory <- os_path_isdir directory ;;
  if negb is_directory
  then raise (ValueError (not_a_directory_msg directory))
  else
    names <- os_listdir directory ;;
    let html_files := filter (fun f => PyStr.endswith f ".html") names in
    match html_files with
    | [] => raise (ValueError (no_html_msg directory))
    | _ :: _ => ret tt
    end.

(** [ZipFile(zip_path, 'w')]: the archive file is created, or emptied.
    From here on it is a file of the tree the process sees. *)
Definition zip_open (zip_path : string) : M unit :=
  fun w => (Ret tt, set_zips w (dict_set (zips w) zip_path [])).

(** [zipf.write(file_path, arcname=...)]: read the file as it is on disk
    now, append the member. *)
Definition zip_write (zip_path : string) (file_path : path) (arcname : string)
  : M unit :=
  fun w =>
    match file_at (seen_fs w) file_path with
    | None => (Raise (FileNotFoundError (OsPath.to_string file_path)), w)
    | Some content =>
        let members := match dict_get (zips w) zip_path with
                       | Some a => a
                       | None => []
                       end in
        (Ret tt, set_zips w (dict_set (zips w) zip_path
                               (members ++ [(arcname, content)])%list))
    end.

(** [os.walk(top)]: nothing where [top] leads to no directory. *)
Definition os_walk (top : string) (w : World)
  : list (path * list string * list string) :=
  match place w top with
  | Some t => match node_at (seen_fs w) t with
              | Some n => walk t n
              | None => []
              end
  | None => []
  end.

(** The archive is opened before the walk starts, so the walk meets it
    when it lies in the directory that is packed.  [os.path.relpath]
    compares the normalised paths. *)
Definition zip_directory (folder_path zip_path : string) : M unit :=
  zip_open zip_path ;;
  fun w =>
    let top := OsPath.abspath (cwd (host w)) folder_path in
    for_each (os_walk folder_path w)
      (fun '(root, _, files) =>
         for_each files
           (fun file =>
              let file_path := (root ++ [file])%list in
              zip_write zip_path file_path (OsPath.relpath file_path top)))
      w.

(** [open(file_path, 'rb')] on an archive file. *)
Definition open_zip (file_path : string) : M archive :=
  fun w =>
    match dict_get (zips w) file_path with
    | Some a => (Ret a, w)
    | None => (Raise (FileNotFoundError file_path), w)
    end.

Definition is_RequestException (e : exn) : bool :=
  match e with RequestException _ => true | _ => false end.

Definition upload_file_to_url (file_path url : string) : M Z :=
  try_except
    (f <- open_zip file_path ;;
     response <- Requests.put url f ;;
     Requests.raise_for_status url response ;;
     ret response)
    is_RequestException
    (fun e => print ("Error uploading file: " ++ exn_str e) ;;
              sys_exit 1).

Definition create_deployment (app_id branch_id : string) : M (string * string) :=
  try_except
    (Amplify.create_deployment app_id branch_id)
    is_ClientError
    (fun e => print ("Error creating deployment: " ++ exn_str e) ;;
              sys_exit 1).

Definition start_deployment (app_id branch_id job_id : string) : M unit :=
  try_except
    (Amplify.start_deployment app_id branch_id job_id)
    is_ClientError
    (fun e => print ("Error starting deployment: " ++ exn_str e) ;;
              sys_exit 1).

Definition list_branches (app_id : string) : M (list string) :=
  try_except
    (Amplify.list_branches app_id)
    is_ClientError
    (fun e => print ("Error listing branches: " ++ exn_str e) ;;
              sys_exit 1).

Definition config_apps (config : Config) : dict AppInfo :=
  match apps config with Some a => a | None => [] end.

(** The loop of [get_app_info]: the name of the first app whose
    [repo_root] is non-empty and a string prefix of [current_dir]. *)
Fixpoint find_app (current_dir : string) (items : dict AppInfo) : option string :=
  match items with
  | [] => None
  | (name, info) :: rest =>
      let repo_root := match dict_get info "repo_root" with
                       | Some r => r
                       | None => ""
                       end in
      if PyStr.truthy repo_root && PyStr.startswith current_dir repo_root
      then Some name
      else find_app current_dir rest
  end.

Definition get_app_info (config : Config) (app_name : option string)
  : M (string * AppInfo) :=
  current_dir <- os_getcwd ;;
  let app_name :=
    if negb (PyStr.truthy_opt app_name)
    then match find_app current_dir (config_apps config) with
         | Some name => Some name
         | None => app_name
         end
    else app_name in
  match app_name with
  | Some name =>
      if negb (PyStr.truthy name)
      then print "Error: No app specified and couldn't determine app from current directory." ;;
           sys_exit 1
      else
        match dict_get (config_apps config) name with
        | Some ((_ :: _) as app_info) => ret (name, app_info)
        | _ => print ("Error: App '" ++ name ++ "' not found in config.") ;;
               sys_exit 1
        end
  | None =>
      print "Error: No app specified and couldn't determine app from current directory." ;;
      sys_exit 1
  end.

(** [os.remove] on an archive file. *)
Definition os_remove (file : string) : M unit :=
  fun w =>
    match dict_get (zips w) file with
    | Some _ =>
        (Ret tt, set_zips w (filter (fun z => negb (String.eqb (fst z) file)) (zips w)))
    | None => (Raise (FileNotFoundError file), w)
    end.

Definition deploy (app_id branch_id directory : string) : M unit :=
  try_except
    (validate_html_directory directory ;;
     let zip_file_name := "artifacts.zip" in
     zip_directory directory zip_file_name ;;
     print ("Creating deployment for app " ++ app_id ++ ", branch " ++ branch_id) ;;
     deployment <- create_deployment app_id branch_id ;;
     let upload_url := snd deployment in
     let job_id := fst deployment in
     print ("Created job: " ++ job_id) ;;
     print ("Uploading artifacts to URL: " ++ upload_url) ;;
     upload_file_to_url zip_file_name upload_url ;;
     print ("Starting deployment for job: " ++ job_id) ;;
     start_deployment app_id branch_id job_id ;;
     print ("Started deployment: " ++ job_id) ;;
     os_remove zip_file_name ;;
     print ("Deployment process completed for job: " ++ job_id))
    (fun _ => true)
    (fun e => print ("Error during deployment: " ++ exn_str e) ;;
              sys_exit 1).

Definition get_current_git_branch : M (option string) :=
  try_except
    (fun w =>
       match git (host w) with
       | NotARepository => (Raise InvalidGitRepositoryError, w)
       | NoSuchPath => (Raise NoSuchPathError, w)
       | DetachedHead => (Raise (TypeError "HEAD is a detached symbolic reference"), w)
       | OnBranch name => (Ret (Some name), w)
       end)
    (fun e => match e with
              | InvalidGitRepositoryError | NoSuchPathError => true
              | _ => false
              end)
    (fun _ => print "Warning: Not in a Git repository." ;;
              ret None).

Definition branch_exists (app_id branch_name : string) : M bool :=
  try_except
    (Amplify.get_branch app_id branch_name ;;
     ret true)
    is_NotFoundException
    (fun _ => ret false).

Definition create_branch (app_id branch_name : string) : M bool :=
  try_except
    (Amplify.create_branch app_id branch_name ;;
     print ("Created new branch '" ++ branch_name ++ "' in Amplify app.") ;;
     ret true)
    is_ClientError
    (fun e => print ("Error creating branch: " ++ exn_str e) ;;
              ret false).

(** The [while True] loop of [get_deployment_branch].  Every round reads
    at least one line, and [input] raises [EOFError] when there is none, so
    [fuel] rounds are all the loop can make once [fuel] exceeds the number
    of lines left ([operator_choice_fuel]). *)
Fixpoint operator_choice (fuel : nat) (app_id : string) : M string :=
  match fuel with
  | O => raise EOFError
  | S fuel' =>
      line <- input "Enter the name of the branch you want to deploy to: " ;;
      let branch_name := PyStr.strip line in
      found <- branch_exists app_id branch_name ;;
      if found then ret branch_name
      else
        answer <- input ("Branch '" ++ branch_name ++
                         "' does not exist. Do you want to create it? (y/n): ") ;;
        let create := PyStr.strip (PyStr.lower answer) in
        if String.eqb create "y"
        then created <- create_branch app_id branch_name ;;
             if created then ret branch_name
             else operator_choice fuel' app_id
        else operator_choice fuel' app_id
  end.

(** Lines 246-259: list the branches, then let the operator choose. *)
Definition try_operator_choice (app_id : string) : M string :=
  print "No valid branch found. Available branches:" ;;
  branches <- list_branches app_id ;;
  for_each branches (fun b => print ("- " ++ b)) ;;
  fun w => operator_choice (S (List.length (stdin w))) app_id w.

(** Lines 236-244: the branch git reports; [None] stands for falling
    through to line 246. *)
Definition try_version_control (app_id : string) (git_branch : option string)
  : M (option string) :=
  match git_branch with
  | Some g =>
      if PyStr.truthy g then
        found <- branch_exists app_id g ;;
        if found then ret (Some g)
        else
          print ("Branch '" ++ g ++ "' does not exist in Amplify app.") ;;
          answer <- input ("Do you want to create '" ++ g ++
                           "' branch in Amplify? (y/n): ") ;;
          let create := PyStr.strip (PyStr.lower answer) in
          if String.eqb create "y"
          then created <- create_branch app_id g ;;
               if created then ret (Some g) else ret None
          else ret None
      else ret None
  | None => ret None
  end.

(** Lines 230-234: the configured branch; [None] stands for falling
    through to line 236. *)
Definition try_configured (app_id : string) (config_branch : option string)
  : M (option string) :=
  match config_branch with
  | Some c =>
      if PyStr.truthy c then
        found <- branch_exists app_id c ;;
        if found then ret (Some c)
        else
          print ("Warning: Configured branch '" ++ c ++
                 "' does not exist in Amplify app.") ;;
          ret None
      else ret None
  | None => ret None
  end.

Definition get_deployment_branch (app_id : string)
           (config_branch git_branch : option string) : M string :=
  r <- try_configured app_id config_branch ;;
  match r with
  | Some b => ret b
  | None =>
      r <- try_version_control app_id git_branch ;;
      match r with
      | Some b => ret b
      | None => try_operator_choice app_id
      end
  end.

Definition or_default (o : option string) (d : string) : string :=
  match o with Some s => s | None => d end.

(** [print] of an optional string: [None] shows as [None]. *)
Definition show_opt (o : option string) : string := or_default o "None".

(** Lines 294-305 of [main]: the [deploy] action, the app being selected. *)
Definition deploy_action (args : Args) (app_name app_id : string)
           (app_info : AppInfo) : M unit :=
  let build_directory := dict_get app_info "build_directory" in
  let config_branch :=
    if PyStr.truthy_opt (branch args) then branch args
    else dict_get app_info "default_branch" in
  git_branch <- get_current_git_branch ;;
  branch_id <- get_deployment_branch app_id config_branch git_branch ;;
  if negb (PyStr.truthy branch_id) || negb (PyStr.truthy_opt build_directory)
  then print "Error: Branch ID and build directory are required for deployment." ;;
       sys_exit 1
  else
    let directory := or_default build_directory "" in
    print ("Deploying " ++ app_name ++ " (ID: " ++ app_id ++ ") branch '" ++
           branch_id ++ "' from " ++ directory) ;;
    deploy app_id branch_id directory ;;
    print "Deployment action completed.".

(** [main] from line 264 on: [args] is the namespace [parse_arguments]
    returned on line 263.  On a command line that argparse refuses the
    process has left with status 2 before any of this runs. *)
Definition main (args : Args) : M unit :=
  config <- load_config (config args) ;;
  current_dir <- os_getcwd ;;
  print ("Current working directory: " ++ current_dir) ;;
  (fun w => print ("Script location: " ++ script_dir (host w)) w) ;;
  set_aws_profile config ;;
  match action args with
  | ActListApps =>
      print "Available apps:" ;;
      for_each (config_apps config)
        (fun '(app_name, app_info) =>
           print ("- " ++ app_name) ;;
           print ("  Repo root: " ++
                  or_default (dict_get app_info "repo_root") "Not specified") ;;
           print ("  Build directory: " ++
                  or_default (dict_get app_info "build_directory") "Not specified"))
  | act =>
      selected <- get_app_info config (app args) ;;
      let app_name := fst selected in
      let app_info := snd selected in
      match dict_get app_info "app_id" with
      | None => raise (KeyError "app_id")
      | Some app_id =>
          print ("Selected app: " ++ app_name ++ " (ID: " ++ app_id ++ ")") ;;
          print ("Repo root: " ++ show_opt (dict_get app_info "repo_root")) ;;
          print ("Build directory: " ++ show_opt (dict_get app_info "build_directory")) ;;
          match act with
          | ActListBranches =>
              branches <- list_branches app_id ;;
              print ("Available branches for " ++ app_name ++ ":") ;;
              for_each branches (fun b => print ("- " ++ b))
          | _ => deploy_action args app_name app_id app_info
          end
      end
  end.

(** ** Notions the properties are stated with *)

(** The entries of a directory listing that [validate_html_directory]
    counts: names ending in [.html], whatever the entry is. *)
Definition html_entries (es : list (string * node)) : list string :=
  filter (fun f => PyStr.endswith f ".html") (dict_keys es).

(** The regular files of a directory that carry the [.html] extension. *)
Definition html_files (es : list (string * node)) : list string :=
  dict_keys (filter (fun e => negb (is_dir (snd e)) && PyStr.endswith (fst e) ".html") es).

Fixpoint list_prefix (p q : path) : bool :=
  match p, q with
  | [], _ => true
  | x :: p', y :: q' => String.eqb x y && list_prefix p' q'
  | _ :: _, [] => false
  end.

(** [repo_root] is [current_dir] or one of its parent directories: a
    prefix component by component. *)
Definition path_prefix (repo_root current_dir : string) : bool :=
  list_prefix (OsPath.resolve [] (OsPath.components repo_root))
              (OsPath.resolve [] (OsPath.components current_dir)).

(** The entries of the directory a name denotes, as the process sees
    them; [None] where the name denotes no directory. *)
Definition directory_at (w : World) (directory : string)
  : option (list (string * node)) :=
  match place w directory with
  | Some q => match node_at (seen_fs w) q with
              | Some (Dir es) => Some es
              | _ => None
              end
  | None => None
  end.


(** The calls a run added to the record. *)
Definition new_calls (before after : World) : list (remote_call * option exn) :=
  skipn (List.length (calls before)) (calls after).

Definition is_StartDeployment (c : remote_call) : bool :=
  match c with StartDeployment _ _ _ => true | _ => false end.

(** A computation that leaves the world as it found it. *)
Definition reads_only {A} (m : M A) : Prop := forall w, snd (m w) = w.

(** ** Unpacking an archive

    The extraction the round-trip law speaks of, as [ZipFile.extractall]
    does it: a member name is cut at [/], empty, [.] and [..] parts are
    dropped, missing directories are made and the file is written over
    whatever had its name. *)

Definition member_path (arcname : string) : path :=
  filter (fun x => negb (String.eqb x "" || String.eqb x "." || String.eqb x ".."))
         (PyStr.split "/" arcname).

(** Replace the entry [name] by [f] of it, or add [f None] at the end. *)
Fixpoint update_entry (name : string) (f : option node -> node)
         (es : list (string * node)) : list (string * node) :=
  match es with
  | [] => [(name, f None)]
  | (k, v) :: es' =>
      if String.eqb k name then (k, f (Some v)) :: es'
      else (k, v) :: update_entry name f es'
  end.

Fixpoint put_file (p : path) (content : bytes) (n : option node) : node :=
  match p with
  | [] => File content
  | name :: rest =>
      let es := match n with
                | Some (Dir es) => es
                | _ => []
                end in
      Dir (update_entry name (put_file rest content) es)
  end.

Definition extract (dest : node) (member : string * bytes) : node :=
  match member_path (fst member) with
  | [] => dest
  | p => put_file p (snd member) (Some dest)
  end.

(** Extraction into an empty directory. *)
Definition unpack (a : archive) : node := fold_left extract a (Dir []).

(** ** Example worlds *)

Module Example.

Definition site_info : AppInfo :=
  [("app_id", "app123"); ("repo_root", "/home/alice/site");
   ("build_directory", "dist"); ("default_branch", "main")].

Definition alice : Config := mkConfig (Some "alice-profile") (Some [("site", site_info)]).

Definition all_config : AllConfig := [("alice", alice); ("bob", empty_config)].

Definition index_html : bytes := [Byte.x3c; Byte.x68; Byte.x31; Byte.x3e].
Definition site_css : bytes := [Byte.x61; Byte.x7b; Byte.x7d].

Definition dist : node :=
  Dir [("index.html", File index_html);
       ("css", Dir [("site.css", File site_css)])].

Definition tree : node :=
  Dir [("home", Dir [("alice", Dir [("site", Dir [("dist", dist)])])])].

(** Small archives are written through a buffer: until the archive is
    closed a reader finds its file empty. *)
Definition unflushed (members : archive) : bytes := [].

Definition a_host : Host :=
  mkHost (Some "alice") "/home/alice/site" "/opt/tool"
         [(["home"; "alice"; "site"; "config.yaml"], Document all_config)]
         tree (OnBranch "feature-x") unflushed.

(** Alice in her project; the app has the branch [main]. *)
Definition world : World :=
  mkWorld a_host [("USER", "alice")] [] [] [] [("app123", "main")] 0 [] [] [].

Definition with_user (w : World) (u : string) : World :=
  set_environ w [("USER", u)].


Definition with_cwd (w : World) (d : string) : World :=
  mkWorld (mkHost (passwd_name (host w)) d (script_dir (host w))
                  (config_files (host w)) (fs (host w)) (git (host w))
                  (on_disk (host w)))
          (environ w) (zips w) (stdin w) (stdout w) (remote_branches w)
          (jobs w) (faults w) (put_replies w) (calls w).



(** One app, rooted at [/srv/app]. *)
Definition srv_info : AppInfo := [("app_id", "a1"); ("repo_root", "/srv/app")].
Definition srv_config : Config := mkConfig None (Some [("app", srv_info)]).

Definition deploy_args : Args := mkArgs ActDeploy None None "config.yaml".

End Example.

(** ** What [load_config] prints *)

(** The configuration file [load_config] ends up reading, and the path it
    shows for it: the file as given or, when that is missing, the file of
    that name next to the script. *)
Definition config_found (config_file : string) (w : World)
           (all_config : AllConfig) (shown : string) : Prop :=
  (open_yaml config_file w = (Ret all_config, w) /\
   shown = OsPath.to_string (OsPath.abspath (cwd (host w)) config_file))
  \/
  (open_yaml config_file w = (Raise (FileNotFoundError config_file), w) /\
   open_yaml (OsPath.join (script_dir (host w)) config_file) w = (Ret all_config, w) /\
   shown = OsPath.join (script_dir (host w)) config_file).

Definition matched_lines (username : string) (all_config : AllConfig)
           (shown : string) : list string :=
  [ "Detected username: " ++ username;
    "Available users in config: " ++ PyStr.repr_list (dict_keys all_config);
    "Loaded config for user '" ++ username ++ "' from: " ++ shown ].

Definition fallback_lines (username : string) (all_config : AllConfig)
           (shown : string) : list string :=
  [ "Detected username: " ++ username;
    "Available users in config: " ++ PyStr.repr_list (dict_keys all_config);
    fallback_warning username;
    "Loaded config for user '" ++ username ++ "' from: " ++ shown ].

(** ** What branch reconciliation guarantees *)

(** The branch [name] of [app_id] exists remotely in [w], and the last
    remote call before [w] was the [getBranch] that found it or the
    [createBranch] that made it. *)
Definition exists_at_return (app_id name : string) (w : World) : Prop :=
  Amplify.has_branch w app_id name = true /\
  exists earlier,
    calls w = (earlier ++ [(GetBranch app_id name, None)])%list \/
    calls w = (earlier ++ [(CreateBranch app_id name, None)])%list.

(** The world after a [getBranch] that found the branch. *)
Definition after_get_branch (app_id name : string) (w : World) : World :=
  record_call (GetBranch app_id name) None (Amplify.consume_fault w).

(** ** Frames: what a computation leaves alone *)

(** [m] takes every world to one related to it by [R]. *)
Definition stable {A} (R : World -> World -> Prop) (m : M A) : Prop :=
  forall w, R w (snd (m w)).

(** [m] leaves, when it leaves through [sys.exit], with status 1. *)
Definition exits_with_1 {A} (m : M A) : Prop :=
  forall w s, fst (m w) = Exit s -> s = 1%Z.

Definition is_branch_call (c : remote_call) : bool :=
  match c with
  | GetBranch _ _ | CreateBranch _ _ | ListBranches _ => true
  | _ => false
  end.

(** What branch reconciliation can do to the world: talk on the console,
    use up scripted faults, add remote branches, and make branch calls.
    Archive files, deployment slots and uploads are out of its reach. *)
Definition reconciled (w w' : World) : Prop :=
  host w' = host w /\ environ w' = environ w /\ zips w' = zips w /\
  jobs w' = jobs w /\ put_replies w' = put_replies w /\
  exists new, calls w' = (calls w ++ new)%list /\
              forallb (fun c => is_branch_call (fst c)) new = true.

Definition same_stdin (w w' : World) : Prop := stdin w' = stdin w.

Module Example2.

(** An app without [build_directory], whose git branch is not remote. *)
Definition bare_info : AppInfo :=
  [("app_id", "app123"); ("repo_root", "/home/alice/site")].

Definition bare_config : AllConfig :=
  [("alice", mkConfig (Some "alice-profile") (Some [("site", bare_info)]))].

Definition bare_host : Host :=
  mkHost (Some "alice") "/home/alice/site" "/opt/tool"
         [(["home"; "alice"; "site"; "config.yaml"], Document bare_config)]
         Example.tree (OnBranch "feature-x") Example.unflushed.

(** The operator agrees to create the branch. *)
Definition bare_world : World :=
  mkWorld bare_host [("USER", "alice")] [] ["y"] [] [("app123", "main")] 0 [] [] [].

End Example2.

(** ** Failed steps of a deployment *)

(** A remote step that failed: the call raised, or the upload was
    answered with a status [raise_for_status] rejects (4xx, 5xx). *)
Definition call_failed (c : remote_call * option exn) : bool :=
  match c with
  | (_, Some _) => true
  | (HttpPut _ (Status code), None) => ((400 <=? code) && (code <? 600))%Z
  | (_, None) => false
  end.

(** The reading of a failed upload as any answer outside 200-299. *)
Definition upload_not_2xx (c : remote_call * option exn) : bool :=
  match c with
  | (HttpPut _ (Status code), None) => negb ((200 <=? code) && (code <? 300))%Z
  | (HttpPut _ (TransportFailure _), _) => true
  | _ => false
  end.

Definition artifact_on_disk (w : World) : Prop :=
  dict_get (zips w) "artifacts.zip" <> None.

(** The world in which [deploy] calls [createDeployment]: the archive is
    packed and the first progress line printed (lines 178-180). *)
Definition before_create_deployment (app_id branch_id directory : string)
           (w : World) : World :=
  snd (bind (zip_directory directory "artifacts.zip")
         (fun _ => print ("Creating deployment for app " ++ app_id ++
                          ", branch " ++ branch_id)) w).

(** The last line on the output is an error diagnostic. *)
Definition error_shown (w : World) : Prop :=
  exists earlier line,
    stdout w = (earlier ++ [line])%list /\ PyStr.startswith line "Error" = true.

(** [m] never leaves through [sys.exit]. *)
Definition never_exits {A} (m : M A) : Prop :=
  forall w s, fst (m w) <> Exit s.

(** What packing can do to the world: write archive files. *)
Definition packed (w w' : World) : Prop :=
  calls w' = calls w /\
  (artifact_on_disk w -> artifact_on_disk w').

Module Example3.

(** No branch is remote yet; the first [createBranch] is refused, the
    operator asks again and the second goes through. *)
Definition retry_world : World :=
  mkWorld Example.a_host [("USER", "alice")] []
          ["y"; "feature-x"; "y"] [] [] 0
          [None; None; Some (ClientError "LimitExceededException" "too many branches")]
          [] [].

(** The upload sink answers 304. *)
Definition not_modified_world : World :=
  mkWorld Example.a_host [("USER", "alice")] [] [] [] [("app123", "main")] 0
          [] [Status 304] [].

(** The upload sink answers 403. *)
Definition forbidden_world : World :=
  mkWorld Example.a_host [("USER", "alice")] [] [] [] [("app123", "main")] 0
          [] [Status 403] [].

(** The service refuses the next call. *)
Definition throttled_world : World :=
  mkWorld Example.a_host [("USER", "alice")] [] [] [] [("app123", "main")] 0
          [Some (ClientError "ThrottlingException" "slow down")] [] [].

(** Git is on [feature-x], which is not remote; the operator agrees to
    create it and the service refuses. *)
Definition refused_world : World :=
  mkWorld Example.a_host [("USER", "alice")] [] ["y"] [] [] 0
          [None; Some (ClientError "ThrottlingException" "slow down")] [] [].

End Example3.

(** The world after [lines] were shown and the input went down to [rest]. *)
Definition asked (w : World) (lines rest : list string) : World :=
  set_stdin (set_stdout w (stdout w ++ lines)%list) rest.

(** The world after a diagnostic [line] for the exception [e]. *)
Definition diagnosed (w : World) (line : string) (e : exn) : World :=
  set_stdout w (stdout w ++ [(line ++ exn_str e)%string])%list.

(** The remote steps [deploy] made and how far it got: nothing remote
    (validation or packing failed); a refused [createDeployment]; a failed
    upload; a refused [startDeployment]; or all three steps done. *)
Inductive deploy_steps (app_id branch_id : string)
  : list (remote_call * option exn) -> bool -> Prop :=
| steps_none :
    deploy_steps app_id branch_id [] false
| steps_slot_refused e :
    deploy_steps app_id branch_id
      [(CreateDeployment app_id branch_id, Some e)] false
| steps_upload_failed url reply res :
    call_failed (HttpPut url reply, res) = true ->
    deploy_steps app_id branch_id
      [(CreateDeployment app_id branch_id, None); (HttpPut url reply, res)] false
| steps_start_refused url reply job_id e :
    call_failed (HttpPut url reply, None) = false ->
    deploy_steps app_id branch_id
      [(CreateDeployment app_id branch_id, None); (HttpPut url reply, None);
       (StartDeployment app_id branch_id job_id, Some e)] false
| steps_all url reply job_id :
    call_failed (HttpPut url reply, None) = false ->
    deploy_steps app_id branch_id
      [(CreateDeployment app_id branch_id, None); (HttpPut url reply, None);
       (StartDeployment app_id branch_id job_id, None)] true.

(** ** The files of a directory tree *)











(** Writing one file into an extraction directory. *)
Definition put (dest : node) (pc : path * bytes) : node :=
  put_file (fst pc) (snd pc) (Some dest).

(** ** The test of the scan in [get_app_info] *)

Definition repo_root_of (info : AppInfo) : string :=
  match dict_get info "repo_root" with
  | Some r => r
  | None => ""
  end.

(** [repo_root and current_dir.startswith(repo_root)] *)
Definition app_matches (current_dir : string) (info : AppInfo) : bool :=
  PyStr.truthy (repo_root_of info) && PyStr.startswith current_dir (repo_root_of info).

Definition no_app_line : string :=
  "Error: No app specified and couldn't determine app from current directory.".

(** ** Notions for the remaining functions *)

(** A name [get_username] accepts from a probe: present, not empty and
    not [root]. *)
Definition valid_user (o : option string) : bool :=
  match o with
  | Some u => PyStr.truthy u && negb (String.eqb u "root")
  | None => false
  end.

Definition is_CreateBranch (c : remote_call) : bool :=
  match c with CreateBranch _ _ => true | _ => false end.



(** The operator's line is not a yes: [line.lower().strip() != 'y']. *)
Definition not_yes (line : string) : Prop :=
  String.eqb (PyStr.strip (PyStr.lower line)) "y" = false.

(** No branch was created from [w] to [w']: the remote branches are the
    same and the record grew by calls other than [createBranch]. *)
Definition nothing_created (w w' : World) : Prop :=
  remote_branches w' = remote_branches w /\
  exists new, calls w' = (calls w ++ new)%list /\
              forallb (fun c => negb (is_CreateBranch (fst c))) new = true.

(** Only the console output differs between [w] and [w']. *)
Definition console_only (w w' : World) : Prop :=
  w' = set_stdout w (stdout w').

(** Only the console output and the process environment differ. *)
Definition local_only (w w' : World) : Prop :=
  w' = set_environ (set_stdout w (stdout w')) (environ w').

(** The world after the lines [main] prints once the configuration is
    loaded and after [set_aws_profile] (lines 266-269). *)
Definition after_banner (config : Config) (w : World) : World :=
  snd (bind (print ("Current working directory: " ++ cwd (host w)))
         (fun _ => bind (print ("Script location: " ++ script_dir (host w)))
                     (fun _ => set_aws_profile config)) w).

(** The lines [list-apps] prints for one app. *)
Definition app_lines (entry : string * AppInfo) : list string :=
  [ "- " ++ fst entry;
    "  Repo root: " ++ or_default (dict_get (snd entry) "repo_root") "Not specified";
    "  Build directory: " ++
      or_default (dict_get (snd entry) "build_directory") "Not specified" ].

Module Example4.

(** The configuration file is there but is not valid YAML. *)
Definition malformed_host : Host :=
  mkHost (Some "alice") "/home/alice/site" "/opt/tool"
         [(["home"; "alice"; "site"; "config.yaml"], Malformed "mapping values are not allowed here")]
         Example.tree (OnBranch "main") Example.unflushed.

Definition malformed_world : World :=
  mkWorld malformed_host [("USER", "alice")] [] [] [] [] 0 [] [] [].

(** No file in the working directory; the one beside the script is not
    valid YAML. *)
Definition malformed_beside_script_host : Host :=
  mkHost (Some "alice") "/home/alice/site" "/opt/tool"
         [(["opt"; "tool"; "config.yaml"], Malformed "mapping values are not allowed here")]
         Example.tree (OnBranch "main") Example.unflushed.

Definition malformed_beside_script_world : World :=
  mkWorld malformed_beside_script_host [("USER", "alice")] [] [] [] [] 0 [] [] [].

(** No configuration file anywhere. *)
Definition no_config_host : Host :=
  mkHost (Some "alice") "/home/alice/site" "/opt/tool" [] Example.tree (OnBranch "main")
         Example.unflushed.

Definition no_config_world : World :=
  mkWorld no_config_host [("USER", "alice")] [] [] [] [] 0 [] [] [].

(** A process of the superuser: every probe answers [root]. *)
Definition root_host : Host :=
  mkHost (Some "root") "/root" "/opt/tool" [] Example.tree NotARepository
         Example.unflushed.

Definition root_world : World :=
  mkWorld root_host [("USER", "root"); ("LOGNAME", "root")] [] [] [] [] 0 [] [] [].

(** An app entry without [app_id]. *)
Definition anonymous_info : AppInfo :=
  [("repo_root", "/home/alice/site"); ("build_directory", "dist")].

Definition anonymous_config : Config :=
  mkConfig (Some "alice-profile") (Some [("site", anonymous_info)]).

Definition anonymous_host : Host :=
  mkHost (Some "alice") "/home/alice/site" "/opt/tool"
         [(["home"; "alice"; "site"; "config.yaml"],
           Document [("alice", anonymous_config)])]
         Example.tree (OnBranch "main") Example.unflushed.

Definition anonymous_world : World :=
  mkWorld anonymous_host [("USER", "alice")] [] [] [] [("app123", "main")] 0 [] [] [].

Definition list_apps_args : Args := mkArgs ActListApps None None "config.yaml".
Definition list_branches_args : Args := mkArgs ActListBranches None None "config.yaml".

(** The empty entry of [bob] is declared first. *)
Definition bob_first : AllConfig := [("bob", empty_config); ("alice", Example.alice)].

Definition bob_first_host : Host :=
  mkHost (Some "bob") "/home/alice/site" "/opt/tool"
         [(["home"; "alice"; "site"; "config.yaml"], Document bob_first)]
         Example.tree (OnBranch "main") Example.unflushed.

Definition bob_first_world : World :=
  mkWorld bob_first_host [("USER", "bob")] [] [] [] [("app123", "main")] 0 [] [] [].

(** Alice inside her build directory; [image] is what a reader finds in
    an archive file. *)
Definition inside_host (image : archive -> bytes) : Host :=
  mkHost (Some "alice") "/home/alice/site/dist" "/opt/tool"
         (config_files Example.a_host) Example.tree (OnBranch "main") image.

Definition inside_world (image : archive -> bytes) : World :=
  mkWorld (inside_host image) [("USER", "alice")] [] [] [] [("app123", "main")] 0 [] [] [].

(** The checkout is on a commit, not on a branch. *)
Definition detached_host : Host :=
  mkHost (passwd_name Example.a_host) (cwd Example.a_host)
         (script_dir Example.a_host) (config_files Example.a_host)
         (fs Example.a_host) DetachedHead (on_disk Example.a_host).

Definition detached_world : World :=
  mkWorld detached_host (environ Example.world) [] [] [] [("app123", "main")] 0 [] [] [].

End Example4.

(** As long as no line of the input is a yes, none is left that is one
    and no branch is created. *)
Definition unconsented (w w' : World) : Prop :=
  Forall not_yes (stdin w) ->
  Forall not_yes (stdin w') /\ nothing_created w w'.

(** The world after a [getBranch] that did not find the branch. *)
Definition after_branch_missing (app_id name : string) (w : World) : World :=
  record_call (GetBranch app_id name) (Some (Amplify.not_found name))
              (Amplify.consume_fault w).

(** Absent or empty: what the script takes for no branch name. *)
Definition no_name (o : option string) : Prop := PyStr.truthy_opt o = false.

(** * Properties *)

(** ** Worlds and the monad *)

Lemma set_stdout_twice (w : World) (l l' : list string) :
  set_stdout (set_stdout w l) l' = set_stdout w l'.
Proof. reflexivity. Qed.

Lemma print_eq (line : string) (w : World) :
  print line w = (Ret tt, set_stdout w (stdout w ++ [line])%list).
Proof. reflexivity. Qed.

Lemma bind_ret_l {A B} (m : M A) (k : A -> M B) (w w' : World) (a : A) :
  m w = (Ret a, w') -> bind m k w = k a w'.
Proof. intros H. unfold bind. now rewrite H. Qed.

Lemma bind_exit {A B} (m : M A) (k : A -> M B) (w w' : World) (s : Z) :
  m w = (Exit s, w') -> bind m k w = (Exit s, w').
Proof. intros H. unfold bind. now rewrite H. Qed.

Lemma bind_raise {A B} (m : M A) (k : A -> M B) (w w' : World) (e : exn) :
  m w = (Raise e, w') -> bind m k w = (Raise e, w').
Proof. intros H. unfold bind. now rewrite H. Qed.

Lemma try_except_ret {A} (m : M A) c h (w w' : World) (a : A) :
  m w = (Ret a, w') -> try_except m c h w = (Ret a, w').
Proof. intros H. unfold try_except. now rewrite H. Qed.

Lemma try_except_exit {A} (m : M A) c h (w w' : World) (s : Z) :
  m w = (Exit s, w') -> try_except m c h w = (Exit s, w').
Proof. intros H. unfold try_except. now rewrite H. Qed.

Lemma try_except_raise {A} (m : M A) c h (w w' : World) (e : exn) :
  m w = (Raise e, w') ->
  try_except m c h w = if c e then h e w' else (Raise e, w').
Proof. intros H. unfold try_except. now rewrite H. Qed.

(** ** Dictionaries *)

Lemma dict_get_set_same {V} (d : dict V) k v : dict_get (dict_set d k v) k = Some v.
Proof.
  induction d as [|[k' v'] d IH]; simpl.
  - now rewrite String.eqb_refl.
  - destruct (k' =? k) eqn:E; simpl; now rewrite E.
Qed.

Lemma dict_get_set_other {V} (d : dict V) k v other :
  (k =? other)%string = false ->
  dict_get (dict_set d k v) other = dict_get d other.
Proof.
  intros HN. induction d as [|[k' v'] d IH]; simpl.
  - now rewrite HN.
  - destruct (k' =? k)%string eqn:E; simpl.
    + apply String.eqb_eq in E. subst k'. now rewrite HN.
    + now rewrite IH.
Qed.


Lemma distinct_get {V} (es : dict V) name v :
  distinct (dict_keys es) = true -> In (name, v) es -> dict_get es name = Some v.
Proof.
  induction es as [|[k x] es IH]; simpl; [intros _ []|].
  intros HD [HI | HI].
  - injection HI as -> ->. now rewrite String.eqb_refl.
  - apply andb_prop in HD as [HN HD].
    destruct (k =? name)%string eqn:E.
    + apply String.eqb_eq in E. subst k. exfalso.
      apply negb_true_iff in HN. apply (in_map fst) in HI. simpl in HI.
      assert (HX : existsb (String.eqb name) (dict_keys es) = true).
      { apply existsb_exists. exists name. split; [exact HI | apply String.eqb_refl]. }
      congruence.
    + now apply IH.
Qed.

(** ** [get_username] *)

Lemma first_username_total (methods : list (M (option string))) :
  Forall reads_only methods ->
  forall w, exists u, first_username methods w = (Ret u, w).
Proof.
  induction 1 as [|m ms Hm _ IH]; intros w; simpl.
  - now exists "default_user".
  - specialize (Hm w). destruct (m w) as [o w'] eqn:E. simpl in Hm. subst w'.
    destruct o as [[u|] | s | e]; try apply IH.
    destruct (PyStr.truthy u && negb (u =? "root")); [now exists u | apply IH].
Qed.

Lemma get_username_total (w : World) :
  exists u, get_username w = (Ret u, w).
Proof.
  apply first_username_total.
  repeat constructor; intros w0; try reflexivity.
  - unfold getpass_getuser.
    repeat match goal with
           | |- context [if ?b then _ else _] => destruct b
           end; try reflexivity.
    now destruct (passwd_name (host w0)).
  - unfold pwd_name. now destruct (passwd_name (host w0)).
Qed.

(** ** [load_config] *)

Lemma select_user_config_matched all_config shown w username c :
  get_username w = (Ret username, w) ->
  dict_get all_config username = Some c ->
  config_truthy c = true ->
  select_user_config all_config shown w =
    (Ret c, set_stdout w (stdout w ++ matched_lines username all_config shown)%list).
Proof.
  intros HU HG HT. unfold select_user_config.
  rewrite (bind_ret_l _ _ _ _ _ HU).
  unfold bind at 1. rewrite print_eq.
  unfold bind at 1. rewrite print_eq.
  rewrite HG, HT. simpl negb. cbv iota.
  unfold bind, ret, print, matched_lines. simpl.
  rewrite <- !app_assoc. reflexivity.
Qed.

Lemma select_user_config_fallback all_config shown w username :
  get_username w = (Ret username, w) ->
  (dict_get all_config username = None \/
   exists c, dict_get all_config username = Some c /\ config_truthy c = false) ->
  select_user_config all_config shown w =
    (Ret (first_value all_config),
     set_stdout w (stdout w ++ fallback_lines username all_config shown)%list).
Proof.
  intros HU HG. unfold select_user_config.
  rewrite (bind_ret_l _ _ _ _ _ HU).
  unfold bind at 1. rewrite print_eq.
  unfold bind at 1. rewrite print_eq.
  assert (HF : config_truthy match dict_get all_config username with
                             | Some c => c
                             | None => empty_config
                             end = false).
  { destruct HG as [-> | (c & -> & Hc)]; [reflexivity | exact Hc]. }
  rewrite HF. simpl negb. cbv iota.
  unfold bind, ret, print, fallback_lines. simpl.
  rewrite <- !app_assoc. reflexivity.
Qed.

Lemma load_config_found config_file w all_config shown :
  config_found config_file w all_config shown ->
  load_config config_file w = select_user_config all_config shown w.
Proof.
  intros [[HO ->] | (HO1 & HO2 & ->)]; unfold load_config.
  - unfold try_except. rewrite (bind_ret_l _ _ _ _ _ HO).
    unfold bind at 1. unfold os_getcwd at 1.
    destruct (select_user_config _ _ w) as [[c | s | e] w'] eqn:E; try reflexivity.
    exfalso.
    destruct (get_username_total w) as [u HU].
    destruct (config_truthy match dict_get all_config u with
                            | Some c => c | None => empty_config end) eqn:HT.
    + destruct (dict_get all_config u) as [c|] eqn:HG; [|discriminate].
      rewrite (select_user_config_matched _ _ _ _ _ HU HG HT) in E. discriminate.
    + rewrite (select_user_config_fallback _ _ _ u HU) in E; [discriminate|].
      destruct (dict_get all_config u) as [c|]; [right; now exists c | now left].
  - unfold try_except at 1. rewrite (bind_raise _ _ _ _ _ HO1). simpl.
    unfold try_except. rewrite (bind_ret_l _ _ _ _ _ HO2).
    destruct (select_user_config _ _ w) as [[c | s | e] w'] eqn:E; try reflexivity.
    exfalso.
    destruct (get_username_total w) as [u HU].
    destruct (config_truthy match dict_get all_config u with
                            | Some c => c | None => empty_config end) eqn:HT.
    + destruct (dict_get all_config u) as [c|] eqn:HG; [|discriminate].
      rewrite (select_user_config_matched _ _ _ _ _ HU HG HT) in E. discriminate.
    + rewrite (select_user_config_fallback _ _ _ u HU) in E; [discriminate|].
      destruct (dict_get all_config u) as [c|]; [right; now exists c | now left].
Qed.

(** ** The tree the process sees *)

Section SeenTree.
Local Open Scope list_scope.










End SeenTree.

(** C9, amended.  A username that is a key of the mapping but maps to the
    empty configuration is treated as a missing one: [load_config] prints
    the fallback warning and returns the first declared entry, the very
    lines and value [select_user_config_fallback] gives for an absent
    name.  That first entry may be the user's own empty one. *)
Theorem load_config_empty_entry_falls_back
        (w : World) (config_file shown username : string)
        (all_config : AllConfig) (c : Config) :
  config_found config_file w all_config shown ->
  get_username w = (Ret username, w) ->
  dict_get all_config username = Some c ->
  config_truthy c = false ->
  load_config config_file w =
    (Ret (first_value all_config),
     set_stdout w (stdout w ++ fallback_lines username all_config shown)%list).
Proof.
  intros HF HU HG HC.
  rewrite (load_config_found _ _ _ _ HF).
  apply select_user_config_fallback; [exact HU | right; now exists c].
Qed.

Lemma load_config_empty_entry_falls_back_witness :
  load_config "config.yaml" (Example.with_user Example.world "bob") =
    (Ret Example.alice,
     set_stdout (Example.with_user Example.world "bob")
       (fallback_lines "bob" Example.all_config "/home/alice/site/config.yaml")).
Proof.
  apply (load_config_empty_entry_falls_back
           (Example.with_user Example.world "bob") "config.yaml"
           "/home/alice/site/config.yaml" "bob" Example.all_config empty_config).
  - left. split; reflexivity.
  - reflexivity.
  - reflexivity.
  - reflexivity.
Defined.

(** C9, as stated, fails where the empty entry is the first one declared:
    [bob] is a key of the mapping, his entry is empty and comes first, and
    [load_config], after the fallback warning, returns that very entry. *)
Lemma load_config_empty_entry_returned_when_first :
  let w := Example4.bob_first_world in
  let shown := "/home/alice/site/config.yaml" in
  config_found "config.yaml" w Example4.bob_first shown /\
  get_username w = (Ret "bob", w) /\
  exists c,
    dict_get Example4.bob_first "bob" = Some c /\
    config_truthy c = false /\
    load_config "config.yaml" w =
      (Ret c, set_stdout w (fallback_lines "bob" Example4.bob_first shown)).
Proof.
  cbv zeta. split; [left; split; reflexivity|]. split; [reflexivity|].
  exists empty_config. repeat split.
Qed.

(** C7, as stated, fails: [bob] is a key of the mapping, yet [load_config]
    returns the entry of [alice], because the entry of [bob] is empty. *)
Lemma load_config_present_key_not_returned :
  let w := Example.with_user Example.world "bob" in
  config_found "config.yaml" w Example.all_config "/home/alice/site/config.yaml" /\
  get_username w = (Ret "bob", w) /\
  dict_get Example.all_config "bob" = Some empty_config /\
  fst (load_config "config.yaml" w) = Ret Example.alice /\
  Example.alice <> empty_config.
Proof.
  cbv zeta. split; [left; split; reflexivity|].
  repeat split; try reflexivity. discriminate.
Qed.

Lemma fallback_warning_not_matched username all_config shown :
  ~ In (fallback_warning username) (matched_lines username all_config shown).
Proof.
  unfold fallback_warning, matched_lines. simpl.
  intros [H | [H | [H | []]]]; discriminate H.
Qed.

(** C7, amended.  For a username whose entry is present and not empty,
    [load_config] returns that entry and prints no warning; for a username
    absent from the mapping it prints the fallback warning and returns the
    first declared entry (the empty configuration when the mapping has no
    entry).  The warning line on the output is what tells the two apart;
    the returned value carries no mark. *)
Theorem load_config_resolution
        (w : World) (config_file shown username : string) (all_config : AllConfig) :
  config_found config_file w all_config shown ->
  get_username w = (Ret username, w) ->
  (forall c, dict_get all_config username = Some c -> config_truthy c = true ->
     load_config config_file w =
       (Ret c, set_stdout w (stdout w ++ matched_lines username all_config shown)%list)) /\
  (dict_get all_config username = None ->
     load_config config_file w =
       (Ret (first_value all_config),
        set_stdout w (stdout w ++ fallback_lines username all_config shown)%list)) /\
  (forall k c rest, all_config = (k, c) :: rest -> first_value all_config = c) /\
  In (fallback_warning username) (fallback_lines username all_config shown) /\
  ~ In (fallback_warning username) (matched_lines username all_config shown).
Proof.
  intros HF HU. rewrite (load_config_found _ _ _ _ HF). repeat split.
  - intros c HG HT. now apply select_user_config_matched.
  - intros HG. apply select_user_config_fallback; [exact HU | now left].
  - intros k c rest ->. reflexivity.
  - unfold fallback_lines. simpl. auto.
  - apply fallback_warning_not_matched.
Qed.

Lemma load_config_resolution_witness :
  (forall c, dict_get Example.all_config "alice" = Some c -> config_truthy c = true ->
     load_config "config.yaml" Example.world =
       (Ret c, set_stdout Example.world
                 (stdout Example.world ++
                  matched_lines "alice" Example.all_config
                                "/home/alice/site/config.yaml")%list)) /\
  (dict_get Example.all_config "alice" = None ->
     load_config "config.yaml" Example.world =
       (Ret (first_value Example.all_config),
        set_stdout Example.world
          (stdout Example.world ++
           fallback_lines "alice" Example.all_config
                          "/home/alice/site/config.yaml")%list)) /\
  (forall k c rest, Example.all_config = (k, c) :: rest ->
     first_value Example.all_config = c) /\
  In (fallback_warning "alice")
     (fallback_lines "alice" Example.all_config "/home/alice/site/config.yaml") /\
  ~ In (fallback_warning "alice")
       (matched_lines "alice" Example.all_config "/home/alice/site/config.yaml").
Proof.
  apply (load_config_resolution Example.world "config.yaml"
           "/home/alice/site/config.yaml" "alice" Example.all_config).
  - left. split; reflexivity.
  - reflexivity.
Defined.

(** ** [validate_html_directory] *)



(** [validate_html_directory] by what the directory is seen to hold. *)
Lemma validate_html_directory_eq directory w :
  validate_html_directory directory w =
    match directory_at w directory with
    | None => (Raise (ValueError (not_a_directory_msg directory)), w)
    | Some es =>
        match html_entries es with
        | [] => (Raise (ValueError (no_html_msg directory)), w)
        | _ :: _ => (Ret tt, w)
        end
    end.
Proof.
  unfold validate_html_directory, bind, os_path_isdir, os_listdir, directory_at,
    isdir, listdir, raise, ret, html_entries.
  destruct (place w directory) as [q|] eqn:EP; [|reflexivity].
  destruct (node_at (seen_fs w) q) as [[c | es] |] eqn:EN;
    repeat (progress (simpl; rewrite ?EP, ?EN)); try reflexivity.
  now destruct (filter _ (dict_keys es)).
Qed.



(** A name is resolved as the system does it, not normalised first: the
    empty name and a name through a missing directory denote nothing. *)
Example validate_html_directory_unresolved_names :
  validate_html_directory "" Example.world =
    (Raise (ValueError (not_a_directory_msg "")), Example.world) /\
  validate_html_directory "missing/../dist" Example.world =
    (Raise (ValueError (not_a_directory_msg "missing/../dist")), Example.world) /\
  validate_html_directory "./dist/" Example.world = (Ret tt, Example.world).
Proof. repeat split. Qed.

(** ** [get_app_info] *)

(** C5, the failing input.  From [/srv/app2], with one app rooted at
    [/srv/app] and no app named, [get_app_info] selects that app:
    [/srv/app] is a prefix of the text [/srv/app2], although it is not the
    directory or a parent of it. *)
Theorem get_app_info_textual_prefix :
  let w := Example.with_cwd Example.world "/srv/app2" in
  path_prefix "/srv/app" "/srv/app2" = false /\
  PyStr.startswith "/srv/app2" "/srv/app" = true /\
  get_app_info Example.srv_config None w = (Ret ("app", Example.srv_info), w).
Proof. cbv zeta. repeat split; reflexivity. Qed.

(** What [get_app_info] does on every input.  The scan returns the first
    entry, in the order of the mapping, whose [repo_root] is not empty
    and is a prefix of the text of the working directory. *)
Lemma find_app_first current_dir items name :
  find_app current_dir items = Some name ->
  exists before info after,
    items = (before ++ (name, info) :: after)%list /\
    app_matches current_dir info = true /\
    Forall (fun e => app_matches current_dir (snd e) = false) before.
Proof.
  induction items as [|[k info] items IH]; simpl; [discriminate|].
  fold (repo_root_of info). fold (app_matches current_dir info).
  destruct (app_matches current_dir info) eqn:E.
  - intros H. injection H as ->. exists [], info, items. now repeat split.
  - intros H. destruct (IH H) as (before & i & after & -> & HM & HB).
    exists ((k, info) :: before), i, after. repeat split; [exact HM|].
    now constructor.
Qed.

Lemma find_app_none current_dir items :
  find_app current_dir items = None <->
  Forall (fun e => app_matches current_dir (snd e) = false) items.
Proof.
  induction items as [|[k info] items IH]; simpl; [split; [constructor | reflexivity]|].
  fold (repo_root_of info). fold (app_matches current_dir info).
  destruct (app_matches current_dir info) eqn:E; split.
  - discriminate.
  - intros H. inversion H; subst. simpl in *. congruence.
  - intros H. constructor; [exact E | now apply IH].
  - intros H. inversion H; subst. now apply IH.
Qed.

(** A name given on the command line is looked up directly; an unknown
    name, or one with an empty entry, ends the process. *)
Lemma get_app_info_explicit config name w :
  PyStr.truthy name = true ->
  get_app_info config (Some name) w =
    match dict_get (config_apps config) name with
    | Some ((_ :: _) as app_info) => (Ret (name, app_info), w)
    | _ => (Exit 1, set_stdout w
                      (stdout w ++ [("Error: App '" ++ name ++ "' not found in config.")%string])%list)
    end.
Proof.
  intros HT. unfold get_app_info, bind, os_getcwd. simpl.
  repeat (rewrite HT; simpl).
  now destruct (dict_get (config_apps config) name) as [[|? ?]|].
Qed.

(** Without a name and without a matching entry the process ends. *)
Lemma get_app_info_no_match config w :
  find_app (cwd (host w)) (config_apps config) = None ->
  get_app_info config None w =
    (Exit 1, set_stdout w (stdout w ++ [no_app_line])%list).
Proof.
  intros HF. unfold get_app_info, bind, os_getcwd. simpl. now rewrite HF.
Qed.

(** Without a name, the first matching entry of a mapping with distinct,
    non-empty keys is selected. *)
Lemma get_app_info_scanned config w before name info after :
  config_apps config = (before ++ (name, info) :: after)%list ->
  distinct (dict_keys (config_apps config)) = true ->
  PyStr.truthy name = true ->
  app_matches (cwd (host w)) info = true ->
  Forall (fun e => app_matches (cwd (host w)) (snd e) = false) before ->
  get_app_info config None w = (Ret (name, info), w).
Proof.
  intros HA HD HT HM HB.
  assert (HF : find_app (cwd (host w)) (config_apps config) = Some name).
  { rewrite HA. clear HA HD. induction HB as [|[k i] l Hx HB IH]; simpl.
    - fold (repo_root_of info). fold (app_matches (cwd (host w)) info). now rewrite HM.
    - fold (repo_root_of i). fold (app_matches (cwd (host w)) i).
      simpl in Hx. now rewrite Hx. }
  assert (HG : dict_get (config_apps config) name = Some info).
  { apply distinct_get; [exact HD|]. rewrite HA. apply in_or_app. right. now left. }
  unfold get_app_info, bind, os_getcwd. simpl. rewrite HF, HT, HG. simpl.
  destruct info as [|e info]; [discriminate HM | reflexivity].
Qed.

(** ** Inversion of sequences *)

Lemma bind_inv_ret {A B} (m : M A) (k : A -> M B) w b w' :
  bind m k w = (Ret b, w') ->
  exists a w1, m w = (Ret a, w1) /\ k a w1 = (Ret b, w').
Proof.
  unfold bind. destruct (m w) as [[a | s | e] w1]; intros H; try discriminate H.
  now exists a, w1.
Qed.

Lemma try_except_inv_ret {A} (m : M A) c h w a w' :
  try_except m c h w = (Ret a, w') ->
  m w = (Ret a, w') \/
  exists e w1, m w = (Raise e, w1) /\ c e = true /\ h e w1 = (Ret a, w').
Proof.
  unfold try_except. destruct (m w) as [[a0 | s | e] w1]; intros H; try discriminate H.
  - now left.
  - right. exists e, w1. destruct (c e); [auto | discriminate H].
Qed.

(** ** The Amplify client *)

Lemma get_branch_eq app_id name w :
  Amplify.get_branch app_id name w =
    match Amplify.next_fault w with
    | Some e =>
        (Raise e, record_call (GetBranch app_id name) (Some e) (Amplify.consume_fault w))
    | None =>
        if Amplify.has_branch w app_id name
        then (Ret tt, after_get_branch app_id name w)
        else (Raise (Amplify.not_found name),
              record_call (GetBranch app_id name) (Some (Amplify.not_found name))
                             (Amplify.consume_fault w))
    end.
Proof.
  unfold Amplify.get_branch, Amplify.call, after_get_branch.
  destruct (Amplify.next_fault w); [reflexivity|].
  change (Amplify.has_branch (Amplify.consume_fault w) app_id name)
    with (Amplify.has_branch w app_id name).
  now destruct (Amplify.has_branch w app_id name).
Qed.

Lemma has_branch_added w app_id name :
  Amplify.has_branch
    (set_remote_branches w (remote_branches w ++ [(app_id, name)])%list) app_id name = true.
Proof.
  unfold Amplify.has_branch. simpl. rewrite existsb_app. simpl.
  rewrite !String.eqb_refl. simpl. now rewrite orb_true_r.
Qed.

(** [branch_exists] answers [True] only for a branch the service has, and
    then its [getBranch] is the last call made. *)
Lemma branch_exists_true app_id name w w' :
  branch_exists app_id name w = (Ret true, w') ->
  Amplify.has_branch w app_id name = true /\ w' = after_get_branch app_id name w.
Proof.
  unfold branch_exists, try_except, bind. rewrite get_branch_eq.
  destruct (Amplify.next_fault w) as [e|].
  - destruct (is_NotFoundException e); intros H; discriminate H.
  - destruct (Amplify.has_branch w app_id name); simpl.
    + intros H. injection H as <-. auto.
    + intros H. discriminate H.
Qed.

Lemma after_get_branch_exists app_id name w :
  Amplify.has_branch w app_id name = true ->
  exists_at_return app_id name (after_get_branch app_id name w).
Proof.
  intros H. split; [exact H|]. exists (calls w). now left.
Qed.

(** [create_branch] answers [True] only when the service made the branch,
    and then its [createBranch] is the last call made. *)
Lemma create_branch_true app_id name w w' :
  create_branch app_id name w = (Ret true, w') ->
  exists_at_return app_id name w'.
Proof.
  unfold create_branch, try_except, bind, Amplify.create_branch, Amplify.call.
  destruct (Amplify.next_fault w) as [e|].
  - destruct (is_ClientError e); simpl; intros H; discriminate H.
  - change (Amplify.has_branch (Amplify.consume_fault w) app_id name)
      with (Amplify.has_branch w app_id name).
    destruct (Amplify.has_branch w app_id name) eqn:E; simpl.
    + intros H. discriminate H.
    + intros H. injection H as <-. split.
      * apply (has_branch_added w).
      * exists (calls w). now right.
Qed.

(** ** [get_deployment_branch] *)

Lemma try_configured_some app_id config_branch w b w' :
  try_configured app_id config_branch w = (Ret (Some b), w') ->
  exists_at_return app_id b w'.
Proof.
  unfold try_configured. destruct config_branch as [c|]; [|discriminate].
  destruct (PyStr.truthy c); [|discriminate].
  intros H. apply bind_inv_ret in H as (found & w1 & H1 & H2).
  destruct found.
  - injection H2 as <- <-. apply branch_exists_true in H1 as [H1 ->].
    now apply after_get_branch_exists.
  - apply bind_inv_ret in H2 as (? & ? & _ & H2). discriminate H2.
Qed.

Lemma try_version_control_some app_id git_branch w b w' :
  try_version_control app_id git_branch w = (Ret (Some b), w') ->
  exists_at_return app_id b w'.
Proof.
  unfold try_version_control. destruct git_branch as [g|]; [|discriminate].
  destruct (PyStr.truthy g); [|discriminate].
  intros H. apply bind_inv_ret in H as (found & w1 & H1 & H2).
  destruct found.
  - injection H2 as <- <-. apply branch_exists_true in H1 as [H1 ->].
    now apply after_get_branch_exists.
  - apply bind_inv_ret in H2 as (? & w2 & _ & H2).
    apply bind_inv_ret in H2 as (answer & w3 & _ & H2).
    destruct (PyStr.strip (PyStr.lower answer) =? "y"); [|discriminate H2].
    apply bind_inv_ret in H2 as (created & w4 & H3 & H4).
    destruct created; [|discriminate H4].
    injection H4 as <- <-. now apply create_branch_true in H3.
Qed.

Lemma operator_choice_ret fuel app_id :
  forall w name w',
    operator_choice fuel app_id w = (Ret name, w') ->
    exists_at_return app_id name w'.
Proof.
  induction fuel as [|fuel IH]; intros w name w' H; [discriminate H|].
  simpl in H.
  apply bind_inv_ret in H as (line & w1 & _ & H).
  apply bind_inv_ret in H as (found & w2 & H1 & H).
  destruct found.
  - injection H as <- <-. apply branch_exists_true in H1 as [H1 ->].
    now apply after_get_branch_exists.
  - apply bind_inv_ret in H as (answer & w3 & _ & H).
    destruct (PyStr.strip (PyStr.lower answer) =? "y"); [|now apply IH in H].
    apply bind_inv_ret in H as (created & w4 & H3 & H4).
    destruct created; [|now apply IH in H4].
    injection H4 as <- <-. now apply create_branch_true in H3.
Qed.

(** C1.  Whatever the configured branch, the branch git reports and the
    lines the operator types, a name [get_deployment_branch] returns is a
    branch the service has at that moment, and the last remote call was
    the [getBranch] that confirmed it or the [createBranch] that made it. *)
Theorem get_deployment_branch_exists_at_return
        (app_id : string) (config_branch git_branch : option string)
        (w w' : World) (name : string) :
  get_deployment_branch app_id config_branch git_branch w = (Ret name, w') ->
  exists_at_return app_id name w'.
Proof.
  unfold get_deployment_branch. intros H.
  apply bind_inv_ret in H as ([b|] & w1 & H1 & H).
  - injection H as <- <-. now apply try_configured_some in H1.
  - apply bind_inv_ret in H as ([b|] & w2 & H2 & H).
    + injection H as <- <-. now apply try_version_control_some in H2.
    + unfold try_operator_choice in H.
      apply bind_inv_ret in H as (? & w3 & _ & H).
      apply bind_inv_ret in H as (? & w4 & _ & H).
      apply bind_inv_ret in H as (? & w5 & _ & H).
      now apply operator_choice_ret in H.
Qed.

Lemma get_deployment_branch_exists_at_return_witness :
  exists_at_return "app123" "feature-x"
    (snd (get_deployment_branch "app123" None (Some "feature-x")
            (set_stdin Example.world ["Y "]))).
Proof.
  apply (get_deployment_branch_exists_at_return
           "app123" None (Some "feature-x") (set_stdin Example.world ["Y "])).
  reflexivity.
Defined.

(** ** Frame rules *)

Section Frames.
Variable R : World -> World -> Prop.
Hypothesis R_refl : forall w, R w w.
Hypothesis R_trans : forall w1 w2 w3, R w1 w2 -> R w2 w3 -> R w1 w3.

Lemma stable_ret {A} (a : A) : stable R (ret a).
Proof. intros w. apply R_refl. Qed.

Lemma stable_raise {A} (e : exn) : stable R (@raise A e).
Proof. intros w. apply R_refl. Qed.

Lemma stable_sys_exit {A} (s : Z) : stable R (@sys_exit A s).
Proof. intros w. apply R_refl. Qed.

Lemma stable_bind {A B} (m : M A) (k : A -> M B) :
  stable R m -> (forall a, stable R (k a)) -> stable R (bind m k).
Proof.
  intros Hm Hk w. unfold bind. specialize (Hm w).
  destruct (m w) as [[a | s | e] w1]; simpl in *; try exact Hm.
  eapply R_trans; [exact Hm | apply Hk].
Qed.

Lemma stable_try_except {A} (m : M A) c (h : exn -> M A) :
  stable R m -> (forall e, stable R (h e)) -> stable R (try_except m c h).
Proof.
  intros Hm Hh w. unfold try_except. specialize (Hm w).
  destruct (m w) as [[a | s | e] w1]; simpl in *; try exact Hm.
  destruct (c e); simpl; [|exact Hm].
  eapply R_trans; [exact Hm | apply Hh].
Qed.

Lemma stable_for_each {A} (l : list A) (body : A -> M unit) :
  (forall a, stable R (body a)) -> stable R (for_each l body).
Proof.
  intros Hb. induction l as [|x l IH]; simpl.
  - apply stable_ret.
  - apply stable_bind; [apply Hb | intros _; exact IH].
Qed.

Lemma stable_if {A} (b : bool) (m1 m2 : M A) :
  stable R m1 -> stable R m2 -> stable R (if b then m1 else m2).
Proof. now destruct b. Qed.
End Frames.

Lemma exits_with_1_bind {A B} (m : M A) (k : A -> M B) :
  exits_with_1 m -> (forall a, exits_with_1 (k a)) -> exits_with_1 (bind m k).
Proof.
  intros Hm Hk w s. unfold bind. specialize (Hm w).
  destruct (m w) as [[a | s0 | e] w1]; simpl in *.
  - apply Hk.
  - intros H. injection H as <-. now apply Hm.
  - discriminate.
Qed.

Lemma exits_with_1_try_except {A} (m : M A) c (h : exn -> M A) :
  exits_with_1 m -> (forall e, exits_with_1 (h e)) -> exits_with_1 (try_except m c h).
Proof.
  intros Hm Hh w s. unfold try_except. specialize (Hm w).
  destruct (m w) as [[a | s0 | e] w1]; simpl in *; try discriminate.
  - intros H. injection H as <-. now apply Hm.
  - destruct (c e); [apply Hh | discriminate].
Qed.

Lemma exits_with_1_ret {A} (a : A) : exits_with_1 (ret a).
Proof. intros w s H. discriminate H. Qed.

Lemma exits_with_1_print line : exits_with_1 (print line).
Proof. intros w s H. discriminate H. Qed.

Lemma exits_with_1_input prompt : exits_with_1 (input prompt).
Proof. intros w s. unfold input. simpl. destruct (stdin w); discriminate. Qed.

Lemma exits_with_1_sys_exit {A} : exits_with_1 (@sys_exit A 1).
Proof. intros w s H. now injection H as <-. Qed.

Lemma exits_with_1_call {A} c (serve : World -> (A + exn) * World) :
  exits_with_1 (Amplify.call c serve).
Proof.
  intros w s. unfold Amplify.call.
  destruct (Amplify.next_fault w); [discriminate|].
  destruct (serve _) as [[a | e] w2]; discriminate.
Qed.

Lemma exits_with_1_for_each {A} (l : list A) (body : A -> M unit) :
  (forall a, exits_with_1 (body a)) -> exits_with_1 (for_each l body).
Proof.
  intros Hb. induction l as [|x l IH]; simpl.
  - apply exits_with_1_ret.
  - apply exits_with_1_bind; [apply Hb | intros _; exact IH].
Qed.

(** ** Reconciliation and the rest of the world *)

Lemma reconciled_refl w : reconciled w w.
Proof.
  repeat split. exists []. now rewrite app_nil_r.
Qed.

Lemma reconciled_trans w1 w2 w3 :
  reconciled w1 w2 -> reconciled w2 w3 -> reconciled w1 w3.
Proof.
  intros (H1 & H2 & H3 & H4 & H5 & n1 & H6 & H7) (G1 & G2 & G3 & G4 & G5 & n2 & G6 & G7).
  repeat split; try congruence.
  exists (n1 ++ n2)%list. split.
  - rewrite G6, H6. now rewrite app_assoc.
  - rewrite forallb_app, H7, G7. reflexivity.
Qed.

Lemma reconciled_print line : stable reconciled (print line).
Proof. intros w. simpl. apply (reconciled_refl w). Qed.

Lemma reconciled_input prompt : stable reconciled (input prompt).
Proof.
  intros w. unfold input. simpl.
  destruct (stdin w); simpl; apply (reconciled_refl w).
Qed.

Lemma reconciled_call {A} c (serve : World -> (A + exn) * World) :
  is_branch_call c = true ->
  (forall w, reconciled w (snd (serve w))) ->
  stable reconciled (Amplify.call c serve).
Proof.
  intros Hc Hs w. unfold Amplify.call.
  assert (Hrec : forall r w0, reconciled w w0 -> reconciled w (record_call c r w0)).
  { intros r w0 (H1 & H2 & H3 & H4 & H5 & n & H6 & H7).
    repeat split; simpl; try assumption.
    exists (n ++ [(c, r)])%list. split.
    - rewrite H6. now rewrite app_assoc.
    - rewrite forallb_app, H7. simpl. now rewrite Hc. }
  assert (Hcf : reconciled w (Amplify.consume_fault w)) by apply (reconciled_refl w).
  destruct (Amplify.next_fault w); simpl; [now apply Hrec|].
  specialize (Hs (Amplify.consume_fault w)).
  destruct (serve _) as [[a | e] w2]; simpl in *; apply Hrec;
    eapply reconciled_trans; eauto.
Qed.

Ltac frame_steps refl trans :=
  repeat first
    [ apply (stable_bind _ trans); [|intros ?]
    | apply (stable_try_except _ trans); [|intros ?]
    | apply (stable_for_each _ refl trans); intros ?
    | apply (stable_ret _ refl)
    | apply (stable_raise _ refl)
    | apply (stable_sys_exit _ refl)
    | apply stable_if ].

Lemma reconciled_branch_exists app_id name : stable reconciled (branch_exists app_id name).
Proof.
  unfold branch_exists. frame_steps reconciled_refl reconciled_trans.
  apply reconciled_call; [reflexivity|].
  intros w. destruct (Amplify.has_branch _ _ _); apply reconciled_refl.
Qed.

Lemma reconciled_create_branch app_id name : stable reconciled (create_branch app_id name).
Proof.
  unfold create_branch. frame_steps reconciled_refl reconciled_trans.
  - apply reconciled_call; [reflexivity|].
    intros w. destruct (Amplify.has_branch _ _ _); simpl; apply (reconciled_refl w).
  - apply reconciled_print.
  - apply reconciled_print.
Qed.

Lemma reconciled_list_branches app_id : stable reconciled (list_branches app_id).
Proof.
  unfold list_branches. frame_steps reconciled_refl reconciled_trans.
  - apply reconciled_call; [reflexivity|]. intros w. apply reconciled_refl.
  - apply reconciled_print.
Qed.

Lemma reconciled_operator_choice fuel app_id :
  stable reconciled (operator_choice fuel app_id).
Proof.
  induction fuel as [|fuel IH]; simpl.
  - apply (stable_raise _ reconciled_refl).
  - apply (stable_bind _ reconciled_trans); [apply reconciled_input | intros line].
    apply (stable_bind _ reconciled_trans); [apply reconciled_branch_exists | intros found].
    destruct found; [apply (stable_ret _ reconciled_refl)|].
    apply (stable_bind _ reconciled_trans); [apply reconciled_input | intros answer].
    destruct (_ =? "y"); [|exact IH].
    apply (stable_bind _ reconciled_trans); [apply reconciled_create_branch | intros created].
    destruct created; [apply (stable_ret _ reconciled_refl) | exact IH].
Qed.

Lemma reconciled_get_deployment_branch app_id config_branch git_branch :
  stable reconciled (get_deployment_branch app_id config_branch git_branch).
Proof.
  unfold get_deployment_branch.
  apply (stable_bind _ reconciled_trans).
  { unfold try_configured. destruct config_branch as [c|];
      [|apply (stable_ret _ reconciled_refl)].
    destruct (PyStr.truthy c); [|apply (stable_ret _ reconciled_refl)].
    apply (stable_bind _ reconciled_trans); [apply reconciled_branch_exists | intros found].
    destruct found; [apply (stable_ret _ reconciled_refl)|].
    apply (stable_bind _ reconciled_trans); [apply reconciled_print | intros _].
    apply (stable_ret _ reconciled_refl). }
  intros [b|]; [apply (stable_ret _ reconciled_refl)|].
  apply (stable_bind _ reconciled_trans).
  { unfold try_version_control. destruct git_branch as [g|];
      [|apply (stable_ret _ reconciled_refl)].
    destruct (PyStr.truthy g); [|apply (stable_ret _ reconciled_refl)].
    apply (stable_bind _ reconciled_trans); [apply reconciled_branch_exists | intros found].
    destruct found; [apply (stable_ret _ reconciled_refl)|].
    apply (stable_bind _ reconciled_trans); [apply reconciled_print | intros _].
    apply (stable_bind _ reconciled_trans); [apply reconciled_input | intros answer].
    destruct (_ =? "y"); [|apply (stable_ret _ reconciled_refl)].
    apply (stable_bind _ reconciled_trans); [apply reconciled_create_branch | intros created].
    destruct created; apply (stable_ret _ reconciled_refl). }
  intros [b|]; [apply (stable_ret _ reconciled_refl)|].
  unfold try_operator_choice.
  apply (stable_bind _ reconciled_trans); [apply reconciled_print | intros _].
  apply (stable_bind _ reconciled_trans); [apply reconciled_list_branches | intros branches].
  apply (stable_bind _ reconciled_trans).
  { apply (stable_for_each _ reconciled_refl reconciled_trans).
    intros b. apply reconciled_print. }
  intros _ w. apply reconciled_operator_choice.
Qed.

(** ** A configured branch that exists *)

Lemma get_deployment_branch_configured app_id c git_branch w :
  PyStr.truthy c = true ->
  Amplify.has_branch w app_id c = true ->
  Amplify.next_fault w = None ->
  get_deployment_branch app_id (Some c) git_branch w =
    (Ret c, after_get_branch app_id c w).
Proof.
  intros HT HB HF.
  unfold get_deployment_branch, try_configured. rewrite HT.
  unfold bind, branch_exists, try_except, bind.
  rewrite get_branch_eq, HF, HB. reflexivity.
Qed.

(** C8.  With a configured branch that the service has, two runs that
    differ only in the branch git reports and in what the operator would
    type both return the configured branch; neither reads a line of
    input, each makes the one [getBranch] call and no [createBranch], and
    the two final worlds agree on everything but the unread input. *)
Theorem configured_branch_resolution_independent
        (app_id c : string) (git1 git2 : option string)
        (input1 input2 : list string) (w : World) :
  PyStr.truthy c = true ->
  Amplify.has_branch w app_id c = true ->
  Amplify.next_fault w = None ->
  let r1 := get_deployment_branch app_id (Some c) git1 (set_stdin w input1) in
  let r2 := get_deployment_branch app_id (Some c) git2 (set_stdin w input2) in
  fst r1 = Ret c /\ fst r2 = Ret c /\
  stdin (snd r1) = input1 /\ stdin (snd r2) = input2 /\
  new_calls (set_stdin w input1) (snd r1) = [(GetBranch app_id c, None)] /\
  new_calls (set_stdin w input2) (snd r2) = [(GetBranch app_id c, None)] /\
  set_stdin (snd r1) [] = set_stdin (snd r2) [].
Proof.
  intros HT HB HF. cbv zeta.
  rewrite !get_deployment_branch_configured by assumption.
  unfold new_calls. simpl.
  rewrite skipn_app, skipn_all, Nat.sub_diag. simpl.
  repeat split; reflexivity.
Qed.

Lemma configured_branch_resolution_independent_witness :
  let r1 := get_deployment_branch "app123" (Some "main") (Some "feature-x")
              (set_stdin Example.world ["y"]) in
  let r2 := get_deployment_branch "app123" (Some "main") None
              (set_stdin Example.world ["n"; "other"]) in
  fst r1 = Ret "main" /\ fst r2 = Ret "main" /\
  stdin (snd r1) = ["y"] /\ stdin (snd r2) = ["n"; "other"] /\
  new_calls (set_stdin Example.world ["y"]) (snd r1) = [(GetBranch "app123" "main", None)] /\
  new_calls (set_stdin Example.world ["n"; "other"]) (snd r2)
    = [(GetBranch "app123" "main", None)] /\
  set_stdin (snd r1) [] = set_stdin (snd r2) [].
Proof.
  apply (configured_branch_resolution_independent
           "app123" "main" (Some "feature-x") None ["y"] ["n"; "other"] Example.world);
    reflexivity.
Defined.

(** ** The [deploy] action without a build directory *)

Lemma exits_with_1_get_deployment_branch app_id config_branch git_branch :
  exits_with_1 (get_deployment_branch app_id config_branch git_branch).
Proof.
  assert (HB : forall a b, exits_with_1 (branch_exists a b)).
  { intros a b. unfold branch_exists.
    apply exits_with_1_try_except; [|intros e; apply exits_with_1_ret].
    apply exits_with_1_bind; [apply exits_with_1_call | intros _; apply exits_with_1_ret]. }
  assert (HC : forall a b, exits_with_1 (create_branch a b)).
  { intros a b. unfold create_branch.
    apply exits_with_1_try_except.
    - apply exits_with_1_bind; [apply exits_with_1_call | intros _].
      apply exits_with_1_bind; [apply exits_with_1_print | intros _; apply exits_with_1_ret].
    - intros e. apply exits_with_1_bind;
        [apply exits_with_1_print | intros _; apply exits_with_1_ret]. }
  assert (HO : forall fuel, exits_with_1 (operator_choice fuel app_id)).
  { induction fuel as [|fuel IH]; simpl; [intros w s H; discriminate H|].
    apply exits_with_1_bind; [apply exits_with_1_input | intros line].
    apply exits_with_1_bind; [apply HB | intros found].
    destruct found; [apply exits_with_1_ret|].
    apply exits_with_1_bind; [apply exits_with_1_input | intros answer].
    destruct (_ =? "y"); [|exact IH].
    apply exits_with_1_bind; [apply HC | intros created].
    destruct created; [apply exits_with_1_ret | exact IH]. }
  unfold get_deployment_branch.
  apply exits_with_1_bind.
  { unfold try_configured. destruct config_branch as [c|]; [|apply exits_with_1_ret].
    destruct (PyStr.truthy c); [|apply exits_with_1_ret].
    apply exits_with_1_bind; [apply HB | intros found].
    destruct found; [apply exits_with_1_ret|].
    apply exits_with_1_bind; [apply exits_with_1_print | intros _; apply exits_with_1_ret]. }
  intros [b|]; [apply exits_with_1_ret|].
  apply exits_with_1_bind.
  { unfold try_version_control. destruct git_branch as [g|]; [|apply exits_with_1_ret].
    destruct (PyStr.truthy g); [|apply exits_with_1_ret].
    apply exits_with_1_bind; [apply HB | intros found].
    destruct found; [apply exits_with_1_ret|].
    apply exits_with_1_bind; [apply exits_with_1_print | intros _].
    apply exits_with_1_bind; [apply exits_with_1_input | intros answer].
    destruct (_ =? "y"); [|apply exits_with_1_ret].
    apply exits_with_1_bind; [apply HC | intros created].
    destruct created; apply exits_with_1_ret. }
  intros [b|]; [apply exits_with_1_ret|].
  unfold try_operator_choice.
  apply exits_with_1_bind; [apply exits_with_1_print | intros _].
  apply exits_with_1_bind.
  { unfold list_branches. apply exits_with_1_try_except; [apply exits_with_1_call|].
    intros e. apply exits_with_1_bind; [apply exits_with_1_print | intros _].
    apply exits_with_1_sys_exit. }
  intros branches.
  apply exits_with_1_bind.
  { apply exits_with_1_for_each. intros b. apply exits_with_1_print. }
  intros _ w. apply HO.
Qed.

Lemma reconciled_get_current_git_branch : stable reconciled get_current_git_branch.
Proof.
  unfold get_current_git_branch.
  apply (stable_try_except _ reconciled_trans).
  - intros w. destruct (git (host w)); apply reconciled_refl.
  - intros e. apply (stable_bind _ reconciled_trans);
      [apply reconciled_print | intros _; apply (stable_ret _ reconciled_refl)].
Qed.

Lemma exits_with_1_get_current_git_branch : exits_with_1 get_current_git_branch.
Proof.
  unfold get_current_git_branch. apply exits_with_1_try_except.
  - intros w s. destruct (git (host w)); discriminate.
  - intros e. apply exits_with_1_bind;
      [apply exits_with_1_print | intros _; apply exits_with_1_ret].
Qed.

(** The branch [deploy_action] asks reconciliation to prefer. *)
Lemma deploy_action_without_build_directory_eq args app_name app_id app_info w :
  PyStr.truthy_opt (dict_get app_info "build_directory") = false ->
  deploy_action args app_name app_id app_info w =
    bind get_current_git_branch
      (fun git_branch =>
         bind (get_deployment_branch app_id
                 (if PyStr.truthy_opt (branch args) then branch args
                  else dict_get app_info "default_branch") git_branch)
           (fun _ =>
              bind (print "Error: Branch ID and build directory are required for deployment.")
                   (fun _ => sys_exit 1))) w.
Proof.
  intros HB. unfold deploy_action. rewrite HB. simpl negb. 
  unfold bind. destruct (get_current_git_branch w) as [[g | s | e] w1]; try reflexivity.
  destruct (get_deployment_branch _ _ _ w1) as [[b | s | e] w2]; try reflexivity.
  now rewrite orb_true_r.
Qed.

(** C10.  In the [deploy] action the branch is reconciled before the
    build directory is looked at.  For an app entry without
    [build_directory] the action never returns normally: it ends with
    status 1, having touched no archive file and made no remote call other
    than branch calls; when reconciliation returns a branch, the world at
    the exit is the one reconciliation left, plus the error line.  The
    last conjunct is a run of [main] in which the operator has the branch
    [feature-x] created and the process then exits with status 1. *)
Theorem reconciliation_precedes_build_directory_check :
  (forall args app_name app_id app_info w,
      PyStr.truthy_opt (dict_get app_info "build_directory") = false ->
      let r := deploy_action args app_name app_id app_info w in
      exit_status (fst r) = 1%Z /\
      (forall u, fst r <> Ret u) /\
      reconciled w (snd r) /\
      (forall git_branch w1 branch_id w2,
          get_current_git_branch w = (Ret git_branch, w1) ->
          get_deployment_branch app_id
            (if PyStr.truthy_opt (branch args) then branch args
             else dict_get app_info "default_branch") git_branch w1
          = (Ret branch_id, w2) ->
          r = (Exit 1, set_stdout w2
                 (stdout w2 ++
                  ["Error: Branch ID and build directory are required for deployment."])%list)))
  /\
  (let r := main Example.deploy_args Example2.bare_world in
   fst r = Exit 1 /\
   Amplify.has_branch Example2.bare_world "app123" "feature-x" = false /\
   Amplify.has_branch (snd r) "app123" "feature-x" = true /\
   calls (snd r) = [(GetBranch "app123" "feature-x", Some (Amplify.not_found "feature-x"));
                    (CreateBranch "app123" "feature-x", None)] /\
   zips (snd r) = []).
Proof.
  split.
  - intros args app_name app_id app_info w HB. cbv zeta.
    rewrite (deploy_action_without_build_directory_eq _ _ _ _ _ HB).
    pose proof (reconciled_get_current_git_branch w) as HG.
    pose proof (exits_with_1_get_current_git_branch w) as EG.
    destruct (get_current_git_branch w) as [[g | s | e] w1] eqn:EQG; simpl in HG, EG.
    + rewrite (bind_ret_l _ _ _ _ _ EQG).
      pose proof (reconciled_get_deployment_branch app_id
                    (if PyStr.truthy_opt (branch args) then branch args
                     else dict_get app_info "default_branch") g w1) as HD.
      pose proof (exits_with_1_get_deployment_branch app_id
                    (if PyStr.truthy_opt (branch args) then branch args
                     else dict_get app_info "default_branch") g w1) as ED.
      destruct (get_deployment_branch _ _ _ w1) as [[b | s | e] w2] eqn:EQD;
        simpl in HD, ED.
      * rewrite (bind_ret_l _ _ _ _ _ EQD).
        split; [reflexivity | split; [discriminate | split]].
        -- eapply reconciled_trans; [exact HG|].
           eapply reconciled_trans; [exact HD|]. apply reconciled_print.
        -- intros g' w1' b' w2' H1 H2. injection H1 as <- <-.
           rewrite EQD in H2. injection H2 as <- <-. reflexivity.
      * rewrite (bind_exit _ _ _ _ _ EQD).
        split; [now apply ED | split; [discriminate | split]].
        -- eapply reconciled_trans; eassumption.
        -- intros g' w1' b' w2' H1 H2. injection H1 as <- <-.
           rewrite EQD in H2. discriminate H2.
      * rewrite (bind_raise _ _ _ _ _ EQD).
        split; [reflexivity | split; [discriminate | split]].
        -- eapply reconciled_trans; eassumption.
        -- intros g' w1' b' w2' H1 H2. injection H1 as <- <-.
           rewrite EQD in H2. discriminate H2.
    + rewrite (bind_exit _ _ _ _ _ EQG).
      split; [now apply EG | split; [discriminate | split]].
      * exact HG.
      * intros g' w1' b' w2' H1. discriminate H1.
    + rewrite (bind_raise _ _ _ _ _ EQG).
      split; [reflexivity | split; [discriminate | split]].
      * exact HG.
      * intros g' w1' b' w2' H1. discriminate H1.
  - vm_compute. repeat split; reflexivity.
Qed.

Lemma reconciliation_precedes_build_directory_check_witness :
  let r := deploy_action Example.deploy_args "site" "app123" Example2.bare_info
             Example2.bare_world in
  exit_status (fst r) = 1%Z /\ reconciled Example2.bare_world (snd r).
Proof.
  destruct reconciliation_precedes_build_directory_check as [H _].
  destruct (H Example.deploy_args "site" "app123" Example2.bare_info
              Example2.bare_world eq_refl) as (H1 & _ & H3 & _).
  split; [exact H1 | exact H3].
Defined.

(** ** The operator's loop and its fuel *)

Lemma same_stdin_refl w : same_stdin w w.
Proof. reflexivity. Qed.

Lemma same_stdin_trans w1 w2 w3 : same_stdin w1 w2 -> same_stdin w2 w3 -> same_stdin w1 w3.
Proof. unfold same_stdin. congruence. Qed.

Lemma same_stdin_call {A} c (serve : World -> (A + exn) * World) :
  (forall w, same_stdin w (snd (serve w))) ->
  stable same_stdin (Amplify.call c serve).
Proof.
  intros Hs w. unfold Amplify.call.
  destruct (Amplify.next_fault w); [reflexivity|].
  specialize (Hs (Amplify.consume_fault w)).
  destruct (serve _) as [[a | e] w2]; exact Hs.
Qed.

Lemma same_stdin_branch_exists app_id name : stable same_stdin (branch_exists app_id name).
Proof.
  unfold branch_exists. frame_steps same_stdin_refl same_stdin_trans.
  apply same_stdin_call. intros w. now destruct (Amplify.has_branch _ _ _).
Qed.

Lemma same_stdin_create_branch app_id name : stable same_stdin (create_branch app_id name).
Proof.
  unfold create_branch. frame_steps same_stdin_refl same_stdin_trans.
  - apply same_stdin_call. intros w. now destruct (Amplify.has_branch _ _ _).
  - intros w. reflexivity.
  - intros w. reflexivity.
Qed.

Lemma input_line prompt w line rest :
  stdin w = line :: rest ->
  input prompt w = (Ret line, asked w [prompt] rest).
Proof. intros H. unfold input. simpl. now rewrite H. Qed.

Lemma input_eof prompt w :
  stdin w = [] ->
  input prompt w = (Raise EOFError, set_stdout w (stdout w ++ [prompt])%list).
Proof. intros H. unfold input. simpl. now rewrite H. Qed.

(** The loop does not depend on its fuel once the fuel exceeds the number
    of input lines left: the [EOFError] of the model is always the one
    [input] raises at the end of the input. *)
Lemma operator_choice_fuel app_id :
  forall fuel1 fuel2 w,
    List.length (stdin w) < fuel1 -> List.length (stdin w) < fuel2 ->
    operator_choice fuel1 app_id w = operator_choice fuel2 app_id w.
Proof.
  induction fuel1 as [|fuel1 IH]; intros fuel2 w H1 H2; [lia|].
  destruct fuel2 as [|fuel2]; [lia|].
  simpl operator_choice.
  destruct (stdin w) as [|line rest] eqn:ES.
  { now do 2 rewrite (bind_raise _ _ _ _ _ (input_eof _ w ES)). }
  simpl in H1, H2.
  do 2 rewrite (bind_ret_l _ _ _ _ _ (input_line _ w line rest ES)).
  set (w1 := asked w _ rest).
  pose proof (same_stdin_branch_exists app_id (PyStr.strip line) w1) as HB.
  destruct (branch_exists app_id (PyStr.strip line) w1) as [[[|] | s | e] w2] eqn:EB;
    simpl in HB.
  - now do 2 rewrite (bind_ret_l _ _ _ _ _ EB).
  - do 2 rewrite (bind_ret_l _ _ _ _ _ EB).
    unfold same_stdin in HB. simpl in HB.
    destruct rest as [|answer rest'].
    { now do 2 rewrite (bind_raise _ _ _ _ _ (input_eof _ w2 HB)). }
    simpl in H1, H2.
    do 2 rewrite (bind_ret_l _ _ _ _ _ (input_line _ w2 answer rest' HB)).
    set (w3 := asked w2 _ rest').
    destruct (PyStr.strip (PyStr.lower answer) =? "y").
    + pose proof (same_stdin_create_branch app_id (PyStr.strip line) w3) as HC.
      destruct (create_branch app_id (PyStr.strip line) w3) as [[[|] | s | e] w4] eqn:EC;
        simpl in HC.
      * now do 2 rewrite (bind_ret_l _ _ _ _ _ EC).
      * do 2 rewrite (bind_ret_l _ _ _ _ _ EC).
        unfold same_stdin in HC. simpl in HC.
        apply IH; rewrite HC; lia.
      * now do 2 rewrite (bind_exit _ _ _ _ _ EC).
      * now do 2 rewrite (bind_raise _ _ _ _ _ EC).
    + apply IH; simpl; lia.
  - now do 2 rewrite (bind_exit _ _ _ _ _ EB).
  - now do 2 rewrite (bind_raise _ _ _ _ _ EB).
Qed.

(** ** Service errors *)

(** Every client call adds one entry to the record. *)
Lemma call_once {A} c (serve : World -> (A + exn) * World) w :
  (forall w0, calls (snd (serve w0)) = calls w0) ->
  exists r, calls (snd (Amplify.call c serve w)) = (calls w ++ [(c, r)])%list.
Proof.
  intros Hs. unfold Amplify.call.
  destruct (Amplify.next_fault w) as [e|]; simpl; [now exists (Some e)|].
  specialize (Hs (Amplify.consume_fault w)).
  destruct (serve _) as [[a | e] w2]; simpl in *; rewrite Hs;
    [now exists None | now exists (Some e)].
Qed.

Lemma new_calls_app w w' l :
  calls w' = (calls w ++ l)%list -> new_calls w w' = l.
Proof.
  intros H. unfold new_calls. rewrite H, skipn_app, skipn_all, Nat.sub_diag.
  reflexivity.
Qed.

(** A wrapper around one client call changes the record as the call did. *)
Lemma wrapper_once {A} (m : M A) c h (w : World) call_entry :
  (exists r, calls (snd (m w)) = (calls w ++ [(call_entry, r)])%list) ->
  (forall e w0, calls (snd (h e w0)) = calls w0) ->
  exists r, new_calls w (snd (try_except m c h w)) = [(call_entry, r)].
Proof.
  intros [r Hm] Hh. exists r. apply new_calls_app.
  unfold try_except. destruct (m w) as [[a | s | e] w1]; simpl in *; try exact Hm.
  destruct (c e); simpl; [|exact Hm]. now rewrite Hh.
Qed.

(** C3, as stated, fails for [createBranch]: the service refuses the first
    [createBranch] with a [ClientError], the script goes on, the operator
    asks for the same branch again, [createBranch] is called a second time
    and the process ends with status 0. *)
Lemma create_branch_error_not_fatal :
  let r := main Example.deploy_args Example3.retry_world in
  fst r = Ret tt /\
  exit_status (fst r) = 0%Z /\
  calls (snd r) =
    [(GetBranch "app123" "main", Some (Amplify.not_found "main"));
     (GetBranch "app123" "feature-x", Some (Amplify.not_found "feature-x"));
     (CreateBranch "app123" "feature-x",
      Some (ClientError "LimitExceededException" "too many branches"));
     (ListBranches "app123", None);
     (GetBranch "app123" "feature-x", Some (Amplify.not_found "feature-x"));
     (CreateBranch "app123" "feature-x", None);
     (CreateDeployment "app123" "feature-x", None);
     (HttpPut "https://upload/app123/1" (Status 200), None);
     (StartDeployment "app123" "feature-x" "1", None)].
Proof. vm_compute. repeat split; reflexivity. Qed.

(** C3, amended.  A [ClientError] from [createDeployment],
    [startDeployment] or [listBranches] ends the process at once: the
    diagnostic is printed and the script leaves with status 1.  A
    [ClientError] from [getBranch] other than [NotFoundException] is caught
    nowhere: it leaves [branch_exists] and [get_deployment_branch] as an
    uncaught exception, which ends the process with status 1.  A
    [ClientError] from [createBranch] is not fatal: the diagnostic is
    printed, [create_branch] answers [False] and reconciliation goes on to
    the operator's choice.  None of the five wrappers repeats its call:
    each adds one entry to the record. *)
Theorem service_errors_by_operation
        (app_id name job_id code msg : string) (w w1 : World) :
  let e := ClientError code msg in
  (Amplify.create_deployment app_id name w = (Raise e, w1) ->
     create_deployment app_id name w
       = (Exit 1, diagnosed w1 "Error creating deployment: " e)) /\
  (Amplify.start_deployment app_id name job_id w = (Raise e, w1) ->
     start_deployment app_id name job_id w
       = (Exit 1, diagnosed w1 "Error starting deployment: " e)) /\
  (Amplify.list_branches app_id w = (Raise e, w1) ->
     list_branches app_id w = (Exit 1, diagnosed w1 "Error listing branches: " e)) /\
  (Amplify.get_branch app_id name w = (Raise e, w1) -> code <> "NotFoundException" ->
     branch_exists app_id name w = (Raise e, w1) /\
     exit_status (fst (branch_exists app_id name w)) = 1%Z /\
     (PyStr.truthy name = true ->
      forall git_branch,
        get_deployment_branch app_id (Some name) git_branch w = (Raise e, w1))) /\
  (Amplify.create_branch app_id name w = (Raise e, w1) ->
     create_branch app_id name w
       = (Ret false, diagnosed w1 "Error creating branch: " e) /\
     (forall w0 wa answer rest,
         PyStr.truthy name = true ->
         branch_exists app_id name w0 = (Ret false, wa) ->
         stdin wa = answer :: rest ->
         PyStr.strip (PyStr.lower answer) = "y" ->
         w = asked wa ["Branch '" ++ name ++ "' does not exist in Amplify app.";
                       "Do you want to create '" ++ name ++ "' branch in Amplify? (y/n): "]
                   rest ->
         get_deployment_branch app_id None (Some name) w0
           = try_operator_choice app_id (diagnosed w1 "Error creating branch: " e))) /\
  (exists r, new_calls w (snd (create_deployment app_id name w))
             = [(CreateDeployment app_id name, r)]) /\
  (exists r, new_calls w (snd (start_deployment app_id name job_id w))
             = [(StartDeployment app_id name job_id, r)]) /\
  (exists r, new_calls w (snd (list_branches app_id w)) = [(ListBranches app_id, r)]) /\
  (exists r, new_calls w (snd (branch_exists app_id name w)) = [(GetBranch app_id name, r)]) /\
  (exists r, new_calls w (snd (create_branch app_id name w))
             = [(CreateBranch app_id name, r)]).
Proof.
  cbv zeta.
  split; [|split; [|split; [|split; [|split; [|split; [|split; [|split; [|split]]]]]]]].
  - intros H. unfold create_deployment. now rewrite (try_except_raise _ _ _ _ _ _ H).
  - intros H. unfold start_deployment. now rewrite (try_except_raise _ _ _ _ _ _ H).
  - intros H. unfold list_branches. now rewrite (try_except_raise _ _ _ _ _ _ H).
  - intros H Hc.
    assert (HB : branch_exists app_id name w = (Raise (ClientError code msg), w1)).
    { unfold branch_exists.
      rewrite (try_except_raise _ _ _ _ w1 (ClientError code msg)).
      - simpl. apply String.eqb_neq in Hc. now rewrite Hc.
      - now apply bind_raise. }
    split; [exact HB | split; [now rewrite HB|]].
    intros HT git_branch. unfold get_deployment_branch, try_configured. rewrite HT.
    apply bind_raise. now apply bind_raise.
  - intros H.
    assert (HC : create_branch app_id name w
                 = (Ret false, diagnosed w1 "Error creating branch: " (ClientError code msg))).
    { unfold create_branch.
      rewrite (try_except_raise _ _ _ _ w1 (ClientError code msg)); [reflexivity|].
      now apply bind_raise. }
    split; [exact HC|].
    intros w0 wa answer rest HT HB HS HY Hw.
    unfold get_deployment_branch.
    unfold try_configured at 1. unfold bind at 1, ret at 1.
    unfold try_version_control. rewrite HT.
    unfold bind at 1. unfold bind at 1. rewrite HB.
    unfold bind at 1. rewrite print_eq.
    unfold bind at 1. unfold input at 1. simpl stdin. rewrite HS.
    rewrite HY, String.eqb_refl. unfold bind at 1. cbv beta iota.
    match goal with |- context [create_branch app_id name ?x] => replace x with w end.
    + now rewrite HC.
    + rewrite Hw. unfold asked. simpl. rewrite <- app_assoc. reflexivity.
  - unfold create_deployment. apply wrapper_once.
    + apply call_once. intros w0. simpl.
      now destruct (Amplify.has_branch w0 app_id name).
    + intros e0 w0. reflexivity.
  - unfold start_deployment. apply wrapper_once.
    + apply call_once. intros w0. reflexivity.
    + intros e0 w0. reflexivity.
  - unfold list_branches. apply wrapper_once.
    + apply call_once. intros w0. reflexivity.
    + intros e0 w0. reflexivity.
  - unfold branch_exists. apply wrapper_once.
    + destruct (call_once (GetBranch app_id name)
                  (fun w2 => if Amplify.has_branch w2 app_id name
                             then (inl tt, w2)
                             else (inr (Amplify.not_found name), w2)) w) as [r Hr].
      { intros w0. now destruct (Amplify.has_branch w0 app_id name). }
      exists r. rewrite <- Hr. unfold bind, Amplify.get_branch.
      now destruct (Amplify.call _ _ w) as [[a | s | e0] w2].
    + intros e0 w0. reflexivity.
  - unfold create_branch. apply wrapper_once.
    + destruct (call_once (CreateBranch app_id name)
                  (fun w2 => if Amplify.has_branch w2 app_id name
                             then (inr (ClientError "BadRequestException"
                                                    "branch already exists"), w2)
                             else (inl tt, set_remote_branches w2
                                     (remote_branches w2 ++ [(app_id, name)])%list)) w)
        as [r Hr].
      { intros w0. now destruct (Amplify.has_branch w0 app_id name). }
      exists r. rewrite <- Hr. unfold bind, Amplify.create_branch.
      now destruct (Amplify.call _ _ w) as [[a | s | e0] w2].
    + intros e0 w0. reflexivity.
Qed.

Lemma service_errors_by_operation_witness :
  let e := ClientError "ThrottlingException" "slow down" in
  let w := Example3.throttled_world in
  let w0 := Example3.refused_world in
  let wa := snd (branch_exists "app123" "feature-x" w0) in
  let wb := asked wa ["Branch 'feature-x' does not exist in Amplify app.";
                      "Do you want to create 'feature-x' branch in Amplify? (y/n): "] [] in
  create_deployment "app123" "main" w
    = (Exit 1, diagnosed (snd (Amplify.create_deployment "app123" "main" w))
                         "Error creating deployment: " e) /\
  start_deployment "app123" "main" "1" w
    = (Exit 1, diagnosed (snd (Amplify.start_deployment "app123" "main" "1" w))
                         "Error starting deployment: " e) /\
  list_branches "app123" w
    = (Exit 1, diagnosed (snd (Amplify.list_branches "app123" w))
                         "Error listing branches: " e) /\
  get_deployment_branch "app123" (Some "main") None w
    = (Raise e, snd (Amplify.get_branch "app123" "main" w)) /\
  get_deployment_branch "app123" None (Some "feature-x") w0
    = try_operator_choice "app123"
        (diagnosed (snd (Amplify.create_branch "app123" "feature-x" wb))
                   "Error creating branch: " e).
Proof.
  cbv zeta.
  split; [|split; [|split; [|split]]].
  - apply (service_errors_by_operation "app123" "main" "1" "ThrottlingException"
             "slow down" Example3.throttled_world). reflexivity.
  - apply (service_errors_by_operation "app123" "main" "1" "ThrottlingException"
             "slow down" Example3.throttled_world). reflexivity.
  - apply (service_errors_by_operation "app123" "main" "1" "ThrottlingException"
             "slow down" Example3.throttled_world). reflexivity.
  - apply (service_errors_by_operation "app123" "main" "1" "ThrottlingException"
             "slow down" Example3.throttled_world);
      [reflexivity | discriminate | reflexivity].
  - destruct (service_errors_by_operation "app123" "feature-x" "1" "ThrottlingException"
                "slow down"
                (asked (snd (branch_exists "app123" "feature-x" Example3.refused_world))
                   ["Branch 'feature-x' does not exist in Amplify app.";
                    "Do you want to create 'feature-x' branch in Amplify? (y/n): "] [])
                (snd (Amplify.create_branch "app123" "feature-x"
                        (asked (snd (branch_exists "app123" "feature-x"
                                       Example3.refused_world))
                           ["Branch 'feature-x' does not exist in Amplify app.";
                            "Do you want to create 'feature-x' branch in Amplify? (y/n): "]
                           []))))
      as (_ & _ & _ & _ & H & _).
    destruct (H eq_refl) as [_ H2].
    apply (H2 Example3.refused_world
              (snd (branch_exists "app123" "feature-x" Example3.refused_world))
              "y" []); reflexivity.
Defined.

(** ** The steps of [deploy] *)

Lemma validate_html_directory_cases directory w :
  validate_html_directory directory w = (Ret tt, w) \/
  exists e, validate_html_directory directory w = (Raise e, w).
Proof.
  rewrite validate_html_directory_eq.
  destruct (directory_at w directory) as [es|]; [|right; eauto].
  destruct (html_entries es); [right; eauto | now left].
Qed.

Lemma packed_refl w : packed w w.
Proof. now split. Qed.

Lemma packed_trans w1 w2 w3 : packed w1 w2 -> packed w2 w3 -> packed w1 w3.
Proof. intros [H1 H2] [G1 G2]. split; [congruence | auto]. Qed.

Lemma packed_zip_write p arcname : stable packed (zip_write "artifacts.zip" p arcname).
Proof.
  intros w. unfold zip_write.
  destruct (file_at _ p); simpl; [|apply packed_refl].
  split; [reflexivity|]. intros _. unfold artifact_on_disk. simpl.
  now rewrite dict_get_set_same.
Qed.

(** Packing makes no remote call and leaves the archive file on disk. *)
Lemma zip_directory_packed directory w :
  calls (snd (zip_directory directory "artifacts.zip" w)) = calls w /\
  artifact_on_disk (snd (zip_directory directory "artifacts.zip" w)).
Proof.
  unfold zip_directory. unfold bind at 1. unfold zip_open at 1.
  set (w0 := set_zips w (dict_set (zips w) "artifacts.zip" [])).
  assert (H0 : artifact_on_disk w0).
  { unfold artifact_on_disk, w0. simpl. now rewrite dict_get_set_same. }
  match goal with
  | |- context [for_each ?l ?f w0] =>
      assert (HP : packed w0 (snd (for_each l f w0)))
  end.
  { apply (stable_for_each _ packed_refl packed_trans).
    intros [[root dirs] files].
    apply (stable_for_each _ packed_refl packed_trans).
    intros file. apply packed_zip_write. }
  destruct HP as [HP1 HP2]. split; [now rewrite HP1 | now apply HP2].
Qed.

Lemma never_exits_bind {A B} (m : M A) (k : A -> M B) :
  never_exits m -> (forall a, never_exits (k a)) -> never_exits (bind m k).
Proof.
  intros Hm Hk w s. unfold bind. specialize (Hm w).
  destruct (m w) as [[a | s0 | e] w1]; simpl in *.
  - apply Hk.
  - now elim (Hm s0).
  - discriminate.
Qed.

Lemma never_exits_for_each {A} (l : list A) (body : A -> M unit) :
  (forall a, never_exits (body a)) -> never_exits (for_each l body).
Proof.
  intros Hb. induction l as [|x l IH]; simpl.
  - intros w s. discriminate.
  - apply never_exits_bind; [apply Hb | intros _; exact IH].
Qed.

Lemma never_exits_zip_directory directory zip_path :
  never_exits (zip_directory directory zip_path).
Proof.
  unfold zip_directory.
  apply never_exits_bind; [intros w s; discriminate | intros _ w].
  apply never_exits_for_each. intros [[root dirs] files].
  apply never_exits_for_each. intros file w0 s. unfold zip_write.
  destruct (file_at _ _); discriminate.
Qed.

(** One client call either answers or raises; either way the record
    grows by the call and the archive files stay. *)
Lemma call_cases {A} c (serve : World -> (A + exn) * World) w :
  (forall w0, calls (snd (serve w0)) = calls w0 /\ zips (snd (serve w0)) = zips w0) ->
  exists o w',
    Amplify.call c serve w = (o, w') /\ zips w' = zips w /\
    ((exists a, o = Ret a /\ calls w' = (calls w ++ [(c, None)])%list) \/
     (exists e, o = Raise e /\ calls w' = (calls w ++ [(c, Some e)])%list)).
Proof.
  intros Hs. unfold Amplify.call.
  destruct (Amplify.next_fault w) as [e|].
  - eexists _, _. split; [reflexivity|]. split; [reflexivity|]. right. now exists e.
  - destruct (Hs (Amplify.consume_fault w)) as [H1 H2].
    destruct (serve _) as [[a | e] w2]; simpl in *;
      eexists _, _; (split; [reflexivity|]); (split; [exact H2|]).
    + left. exists a. split; [reflexivity|]. simpl. now rewrite H1.
    + right. exists e. split; [reflexivity|]. simpl. now rewrite H1.
Qed.

(** The outcome of a wrapper that prints and exits on a [ClientError]. *)
Lemma exiting_wrapper_cases {A} c (serve : World -> (A + exn) * World) line w :
  (forall x, PyStr.startswith (line ++ x) "Error" = true) ->
  (forall w0, calls (snd (serve w0)) = calls w0 /\ zips (snd (serve w0)) = zips w0) ->
  exists o w',
    try_except (Amplify.call c serve) is_ClientError
      (fun e => bind (print (line ++ exn_str e)) (fun _ => sys_exit 1)) w = (o, w') /\
    zips w' = zips w /\
    ((exists a, o = Ret a /\ calls w' = (calls w ++ [(c, None)])%list) \/
     (exists e, ((o = Exit 1 /\ error_shown w') \/ o = Raise e) /\
                calls w' = (calls w ++ [(c, Some e)])%list)).
Proof.
  intros Hline Hs. destruct (call_cases c serve w Hs) as (o & w' & HC & HZ & HO).
  unfold try_except. rewrite HC.
  destruct HO as [(a & -> & HL) | (e & -> & HL)].
  - eexists _, _. split; [reflexivity|]. split; [exact HZ|]. left. now exists a.
  - destruct (is_ClientError e).
    + eexists _, _. split; [reflexivity|]. split; [exact HZ|]. right.
      exists e. split; [left | exact HL]. split; [reflexivity|].
      exists (stdout w'), (line ++ exn_str e)%string. split; [reflexivity | apply Hline].
    + eexists _, _. split; [reflexivity|]. split; [exact HZ|]. right.
      exists e. split; [now right | exact HL].
Qed.

Lemma create_deployment_cases app_id name w :
  exists o w',
    create_deployment app_id name w = (o, w') /\ zips w' = zips w /\
    ((exists d, o = Ret d /\
                calls w' = (calls w ++ [(CreateDeployment app_id name, None)])%list) \/
     (exists e, ((o = Exit 1 /\ error_shown w') \/ o = Raise e) /\
                calls w' = (calls w ++ [(CreateDeployment app_id name, Some e)])%list)).
Proof.
  apply exiting_wrapper_cases; [intros x; reflexivity|]. intros w0.
  now destruct (Amplify.has_branch w0 app_id name).
Qed.

Lemma start_deployment_cases app_id name job_id w :
  exists o w',
    start_deployment app_id name job_id w = (o, w') /\ zips w' = zips w /\
    ((exists d, o = Ret d /\
                calls w' = (calls w ++ [(StartDeployment app_id name job_id, None)])%list) \/
     (exists e, ((o = Exit 1 /\ error_shown w') \/ o = Raise e) /\
                calls w' =
                  (calls w ++ [(StartDeployment app_id name job_id, Some e)])%list)).
Proof.
  apply exiting_wrapper_cases; [intros x; reflexivity|]. intros w0. now split.
Qed.

(** The upload, the archive file being there: one [PUT], recorded with
    the reply it got; a transport failure and a 4xx or 5xx reply end the
    process, any other reply lets the script go on. *)
Lemma upload_file_to_url_cases url w :
  artifact_on_disk w ->
  exists o w' reply res,
    upload_file_to_url "artifacts.zip" url w = (o, w') /\ zips w' = zips w /\
    calls w' = (calls w ++ [(HttpPut url reply, res)])%list /\
    ((call_failed (HttpPut url reply, res) = true /\ o = Exit 1 /\ error_shown w') \/
     (call_failed (HttpPut url reply, res) = false /\ res = None /\
      exists code, o = Ret code)).
Proof.
  unfold artifact_on_disk. intros HA.
  unfold upload_file_to_url, try_except, bind, open_zip.
  destruct (dict_get (zips w) "artifacts.zip") as [a|]; [clear HA | now elim HA].
  unfold Requests.put.
  destruct (put_replies w) as [|[code | msg] rest]; simpl.
  - eexists _, _, (Status 200), None. repeat split. right. repeat split. now exists 200%Z.
  - unfold Requests.raise_for_status.
    destruct ((400 <=? code)%Z && (code <? 600)%Z) eqn:E; simpl.
    + eexists _, _, (Status code), None.
      split; [reflexivity|]. split; [reflexivity|]. split; [reflexivity|].
      left. split; [simpl; now rewrite E|]. split; [reflexivity|].
      eexists _, _. split; reflexivity.
    + eexists _, _, (Status code), None. repeat split. right. simpl. rewrite E.
      repeat split. now exists code.
  - eexists _, _, (TransportFailure msg), (Some (RequestException msg)).
    split; [reflexivity|]. split; [reflexivity|]. split; [reflexivity|].
    left. split; [reflexivity|]. split; [reflexivity|].
    eexists _, _. split; reflexivity.
Qed.

Lemma dict_get_removed {V} (d : dict V) k :
  dict_get (filter (fun z => negb (fst z =? k)) d) k = None.
Proof.
  induction d as [|[k' v'] d IH]; simpl; [reflexivity|].
  destruct (k' =? k) eqn:E; simpl; [exact IH | now rewrite E].
Qed.

Lemma os_remove_cases w :
  artifact_on_disk w ->
  exists w', os_remove "artifacts.zip" w = (Ret tt, w') /\ calls w' = calls w /\
             dict_get (zips w') "artifacts.zip" = None.
Proof.
  unfold artifact_on_disk, os_remove. intros HA.
  destruct (dict_get (zips w) "artifacts.zip"); [|now elim HA].
  eexists. split; [reflexivity|]. split; [reflexivity|]. simpl.
  apply dict_get_removed.
Qed.

(** ** [deploy] *)

Lemma app_one_assoc {A} (l : list A) x y : ((l ++ [x]) ++ [y] = l ++ [x; y])%list.
Proof. now rewrite <- app_assoc. Qed.

(** The runs of [deploy].  When validation fails nothing is packed and no
    remote call is made.  Otherwise the archive file is written and the
    remote steps follow [deploy_steps]; the run returns only when all of
    them succeeded, and then the archive file is gone; in every other case
    it exits with status 1, the archive file is still there and the last
    line printed is the diagnostic. *)
Lemma deploy_runs app_id branch_id directory w :
  exists o w',
    deploy app_id branch_id directory w = (o, w') /\
    ((validate_html_directory directory w <> (Ret tt, w) /\
      o = Exit 1 /\ new_calls w w' = [] /\ zips w' = zips w /\ error_shown w')
     \/
     (validate_html_directory directory w = (Ret tt, w) /\
      exists done,
        deploy_steps app_id branch_id (new_calls w w') done /\
        if done
        then o = Ret tt /\ dict_get (zips w') "artifacts.zip" = None /\
             exists d reply w2,
               Amplify.create_deployment app_id branch_id
                 (before_create_deployment app_id branch_id directory w) = (Ret d, w2) /\
               new_calls w w' =
                 [(CreateDeployment app_id branch_id, None);
                  (HttpPut (snd d) reply, None);
                  (StartDeployment app_id branch_id (fst d), None)]
        else o = Exit 1 /\ artifact_on_disk w' /\ error_shown w')).
Proof.
  assert (HE : forall w0 (e : exn),
             error_shown (set_stdout w0 (stdout w0 ++
                            [("Error during deployment: " ++ exn_str e)%string])%list)).
  { intros w0 e. eexists _, _. split; reflexivity. }
  unfold deploy, try_except.
  destruct (validate_html_directory_cases directory w) as [HV | [e HV]].
  2: { rewrite (bind_raise _ _ _ _ _ HV). simpl. eexists _, _.
       split; [reflexivity|]. left.
       split; [rewrite HV; discriminate|]. split; [reflexivity|].
       split; [apply new_calls_app; now rewrite app_nil_r|].
       split; [reflexivity | apply HE]. }
  rewrite (bind_ret_l _ _ _ _ _ HV). cbv zeta.
  destruct (zip_directory_packed directory w) as [HZ1 HZ2].
  pose proof (never_exits_zip_directory directory "artifacts.zip" w) as HZ3.
  destruct (zip_directory directory "artifacts.zip" w) as [[[] | s | e] wz] eqn:HZ;
    simpl in HZ1, HZ2, HZ3.
  2: { now elim (HZ3 s). }
  2: { rewrite (bind_raise _ _ _ _ _ HZ). eexists _, _. split; [reflexivity|].
       right. split; [exact HV|]. exists false. simpl. split.
       - rewrite (new_calls_app w _ []); [constructor | simpl; now rewrite app_nil_r].
       - split; [reflexivity | split; [exact HZ2 | apply HE]]. }
  rewrite (bind_ret_l _ _ _ _ _ HZ).
  unfold bind at 1. rewrite print_eq.
  set (wp := set_stdout wz _).
  destruct (create_deployment_cases app_id branch_id wp)
    as (o & w2 & HC & HCZ & [(d & -> & HCL) | (e & HCO & HCL)]).
  2: { assert (HA2 : artifact_on_disk w2)
         by (unfold artifact_on_disk; now rewrite HCZ).
       assert (HN : new_calls w w2 = [(CreateDeployment app_id branch_id, Some e)])
         by (apply new_calls_app; rewrite HCL; simpl; now rewrite HZ1).
       destruct HCO as [[-> HS] | ->].
       - rewrite (bind_exit _ _ _ _ _ HC). eexists _, _. split; [reflexivity|].
         right. split; [exact HV|]. exists false. rewrite HN.
         split; [constructor | now repeat split].
       - rewrite (bind_raise _ _ _ _ _ HC). eexists _, _. split; [reflexivity|].
         right. split; [exact HV|]. exists false. simpl.
         change (new_calls w (set_stdout w2 _)) with (new_calls w w2). rewrite HN.
         split; [constructor | split; [reflexivity | split; [exact HA2 | apply HE]]]. }
  rewrite (bind_ret_l _ _ _ _ _ HC). cbv zeta.
  unfold bind at 1. rewrite print_eq. unfold bind at 1. rewrite print_eq.
  rewrite set_stdout_twice.
  set (w3 := set_stdout w2 _).
  assert (HA3 : artifact_on_disk w3)
    by (unfold artifact_on_disk; simpl; now rewrite HCZ).
  assert (HL3 : calls w3 = (calls w ++ [(CreateDeployment app_id branch_id, None)])%list)
    by (simpl; rewrite HCL; simpl; now rewrite HZ1).
  destruct (upload_file_to_url_cases (snd d) w3 HA3)
    as (o & w4 & reply & res & HU & HUZ & HUL & HUO).
  assert (HA4 : artifact_on_disk w4)
    by (unfold artifact_on_disk; now rewrite HUZ).
  assert (HL4 : calls w4 = (calls w ++ [(CreateDeployment app_id branch_id, None);
                                        (HttpPut (snd d) reply, res)])%list)
    by (rewrite HUL, HL3; apply app_one_assoc).
  destruct HUO as [(HF & -> & HS4) | (HF & -> & code & ->)].
  { rewrite (bind_exit _ _ _ _ _ HU). eexists _, _. split; [reflexivity|].
    right. split; [exact HV|]. exists false.
    rewrite (new_calls_app _ _ _ HL4). split; [now constructor | now repeat split]. }
  rewrite (bind_ret_l _ _ _ _ _ HU).
  unfold bind at 1. rewrite print_eq.
  set (w5 := set_stdout w4 _).
  destruct (start_deployment_cases app_id branch_id (fst d) w5)
    as (o & w6 & HS & HSZ & [(u & -> & HSL) | (e & HSO & HSL)]).
  2: { assert (HA6 : artifact_on_disk w6)
         by (unfold artifact_on_disk; now rewrite HSZ).
       assert (HN : new_calls w w6 =
                    [(CreateDeployment app_id branch_id, None);
                     (HttpPut (snd d) reply, None);
                     (StartDeployment app_id branch_id (fst d), Some e)]).
       { apply new_calls_app. rewrite HSL. simpl. rewrite HL4.
         now rewrite <- app_assoc. }
       destruct HSO as [[-> HS6] | ->].
       - rewrite (bind_exit _ _ _ _ _ HS). eexists _, _. split; [reflexivity|].
         right. split; [exact HV|]. exists false. rewrite HN.
         split; [now constructor | now repeat split].
       - rewrite (bind_raise _ _ _ _ _ HS). eexists _, _. split; [reflexivity|].
         right. split; [exact HV|]. exists false. simpl.
         change (new_calls w (set_stdout w6 _)) with (new_calls w w6). rewrite HN.
         split; [now constructor
                | split; [reflexivity | split; [exact HA6 | apply HE]]]. }
  rewrite (bind_ret_l _ _ _ _ _ HS).
  unfold bind at 1. rewrite print_eq.
  set (w7 := set_stdout w6 _).
  assert (HA7 : artifact_on_disk w7)
    by (unfold artifact_on_disk; simpl; now rewrite HSZ).
  destruct (os_remove_cases w7 HA7) as (w8 & HR & HRL & HRZ).
  rewrite (bind_ret_l _ _ _ _ _ HR). rewrite print_eq.
  eexists _, _. split; [reflexivity|].
  right. split; [exact HV|]. exists true.
  assert (HN : new_calls w (set_stdout w8
                              (stdout w8 ++
                               [("Deployment process completed for job: " ++ fst d)%string]))
               = [(CreateDeployment app_id branch_id, None);
                  (HttpPut (snd d) reply, None);
                  (StartDeployment app_id branch_id (fst d), None)]).
  { apply new_calls_app. simpl. rewrite HRL. simpl. rewrite HSL. simpl.
    rewrite HL4. now rewrite <- app_assoc. }
  split.
  - rewrite HN. now constructor.
  - split; [reflexivity|]. split; [exact HRZ|].
    exists d, reply, w2. split; [|exact HN].
    replace (before_create_deployment app_id branch_id directory w) with wp
      by (unfold before_create_deployment;
          now rewrite (bind_ret_l _ _ _ _ _ HZ)).
    unfold create_deployment in HC.
    apply try_except_inv_ret in HC as [HC | (e & w0 & _ & _ & HC)]; [exact HC|].
    discriminate HC.
Qed.

Lemma deploy_steps_failed_last app_id branch_id l done earlier c later :
  deploy_steps app_id branch_id l done ->
  l = (earlier ++ c :: later)%list ->
  call_failed c = true ->
  later = [] /\ done = false.
Proof.
  intros H E HF.
  destruct H; destruct earlier as [|x1 [|x2 [|x3 [|x4 rest]]]];
    simpl in E; inversion E; subst; simpl in *; try discriminate; try congruence;
    auto.
Qed.

Lemma deploy_steps_upload_failed app_id branch_id l done url reply res :
  deploy_steps app_id branch_id l done ->
  In (HttpPut url reply, res) l ->
  call_failed (HttpPut url reply, res) = true ->
  done = false /\ forall c, In c l -> is_StartDeployment (fst c) = false.
Proof.
  intros H HI HF.
  destruct H; simpl in HI;
    repeat match goal with
           | H : _ \/ _ |- _ => destruct H
           | H : False |- _ => elim H
           | H : (_, _) = (_, _) |- _ => inversion H; clear H; subst
           end; try congruence.
  split; [reflexivity|]. intros c [<- | [<- | []]]; reflexivity.
Qed.

(** C2, as stated, fails on an upload answered outside 200-299 but not
    with an error status: on a 304 reply [deploy] goes on, calls
    [startDeployment], deletes the archive file and returns. *)
Lemma upload_not_modified_goes_on :
  let r := deploy "app123" "main" "dist" Example3.not_modified_world in
  let put := (HttpPut "https://upload/app123/1" (Status 304), None) in
  calls (snd r) = [(CreateDeployment "app123" "main", None); put;
                   (StartDeployment "app123" "main" "1", None)] /\
  upload_not_2xx put = true /\
  fst r = Ret tt /\
  exit_status (fst r) = 0%Z /\
  dict_get (zips (snd r)) "artifacts.zip" = None.
Proof. vm_compute. repeat split; reflexivity. Qed.

(** C2, amended.  In [deploy] a failed step ends the run: no later step
    is made and the process exits with status 1.  When validation fails,
    nothing is packed and no remote call is made.  A remote step that
    fails (a call that raises, or an upload answered with a 4xx or 5xx
    status) is the last remote step of the run, and the archive file stays
    on disk.  In particular after such an upload [startDeployment] is not
    called. *)
Theorem deploy_aborts_at_first_failure
        (app_id branch_id directory : string) (w : World) :
  let r := deploy app_id branch_id directory w in
  let new := new_calls w (snd r) in
  (validate_html_directory directory w <> (Ret tt, w) ->
     fst r = Exit 1 /\ new = [] /\ zips (snd r) = zips w) /\
  (forall earlier c later,
      new = (earlier ++ c :: later)%list -> call_failed c = true ->
      later = [] /\ fst r = Exit 1 /\ artifact_on_disk (snd r)) /\
  (forall url reply res,
      In (HttpPut url reply, res) new ->
      call_failed (HttpPut url reply, res) = true ->
      fst r = Exit 1 /\
      (forall c, In c new -> is_StartDeployment (fst c) = false) /\
      artifact_on_disk (snd r)) /\
  (fst r = Ret tt \/ fst r = Exit 1).
Proof.
  cbv zeta.
  destruct (deploy_runs app_id branch_id directory w)
    as (o & w' & -> & [(HV & -> & HN & HZ & _) | (HV & done & HS & HD)]); simpl.
  - rewrite HN. split; [auto|]. split; [|split; [|now right]].
    + intros earlier c later E. now destruct earlier.
    + intros url reply res [].
  - split; [intros H; now elim H|]. split; [|split].
    + intros earlier c later E HF.
      destruct (deploy_steps_failed_last _ _ _ _ _ _ _ HS E HF) as [-> ->].
      now destruct HD as (? & ? & ?).
    + intros url reply res HI HF.
      destruct (deploy_steps_upload_failed _ _ _ _ _ _ _ HS HI HF) as [-> HN].
      destruct HD as (? & ? & ?). auto.
    + destruct done; [destruct HD as (? & _) | destruct HD as (? & _)]; auto.
Qed.

Lemma deploy_aborts_at_first_failure_witness :
  let r := deploy "app123" "main" "dist" Example3.forbidden_world in
  fst r = Exit 1 /\
  (forall c, In c (new_calls Example3.forbidden_world (snd r)) ->
             is_StartDeployment (fst c) = false) /\
  artifact_on_disk (snd r).
Proof.
  cbv zeta.
  destruct (deploy_aborts_at_first_failure "app123" "main" "dist"
              Example3.forbidden_world) as (_ & _ & H & _).
  apply (H "https://upload/app123/1" (Status 403) None).
  - vm_compute. right. now left.
  - reflexivity.
Defined.

Local Open Scope list_scope.
(** ** Trees *)






(** ** The files below a directory *)






(** ** Packing *)












(** ** Member names *)








(** ** Extraction *)















(** The example directory, packed and unpacked. *)
Example pack_unpack_example :
  let a := [("index.html", Example.index_html); ("css/site.css", Example.site_css)] in
  dict_get (zips (snd (zip_directory "dist" "artifacts.zip" Example.world)))
           "artifacts.zip" = Some a /\
  unpack a = Example.dist.
Proof. split; reflexivity. Qed.

(** C6, the failing input.  Run from inside the build directory with [.]
    as the directory to pack, [zip_directory] opens [artifacts.zip] in
    that very directory before it walks it: the walk meets the archive
    file and packs it into itself.  Unpacking then gives a file
    [artifacts.zip] that the directory did not hold, whatever a reader
    finds in an archive file that is being written: the round trip does
    not give the directory back. *)
Theorem zip_directory_packs_its_own_archive (image : archive -> bytes) :
  let w := Example4.inside_world image in
  directory_at w "." =
    Some [("index.html", File Example.index_html);
          ("css", Dir [("site.css", File Example.site_css)])] /\
  exists w' a,
    zip_directory "." "artifacts.zip" w = (Ret tt, w') /\
    dict_get (zips w') "artifacts.zip" = Some a /\
    file_at Example.dist ["artifacts.zip"] = None /\
    (exists content, file_at (unpack a) ["artifacts.zip"] = Some content) /\
    ~ (forall (relative : path) (content : bytes),
         file_at Example.dist relative = Some content <->
         file_at (unpack a) relative = Some content).
Proof.
  cbv zeta. split; [reflexivity|].
  eexists _, _. split; [reflexivity|]. split; [reflexivity|].
  split; [reflexivity|]. split; [eexists; reflexivity|].
  intros H. specialize (H ["artifacts.zip"] (image [("index.html", Example.index_html)])).
  destruct H as [_ H]. discriminate H. reflexivity.
Qed.

(** ** Whole runs *)

(** Alice deploys from her project: the configured branch [main] exists,
    the directory is packed, the slot is requested, the archive is
    uploaded, the deployment is started and the archive file is removed. *)
Example deploy_run_completes :
  let r := main Example.deploy_args Example.world in
  fst r = Ret tt /\
  exit_status (fst r) = 0%Z /\
  calls (snd r) =
    [(GetBranch "app123" "main", None);
     (CreateDeployment "app123" "main", None);
     (HttpPut "https://upload/app123/1" (Status 200), None);
     (StartDeployment "app123" "main" "1", None)] /\
  zips (snd r) = [] /\
  dict_get (environ (snd r)) "AWS_PROFILE" = Some "alice-profile".
Proof. vm_compute. repeat split; reflexivity. Qed.

(** The upload is answered 403: the process exits with status 1 before
    [startDeployment], and the archive file is still there. *)
Example deploy_run_upload_forbidden :
  let r := main Example.deploy_args Example3.forbidden_world in
  fst r = Exit 1 /\
  calls (snd r) =
    [(GetBranch "app123" "main", None);
     (CreateDeployment "app123" "main", None);
     (HttpPut "https://upload/app123/1" (Status 403), None)] /\
  dict_get (zips (snd r)) "artifacts.zip" =
    Some [("index.html", Example.index_html); ("css/site.css", Example.site_css)].
Proof. vm_compute. repeat split; reflexivity. Qed.

(** * Further properties of the script *)

(** ** [get_username] *)

Lemma first_username_valid (methods : list (M (option string))) :
  Forall reads_only methods ->
  forall w, exists u,
    first_username methods w = (Ret u, w) /\
    PyStr.truthy u = true /\ u <> "root".
Proof.
  induction 1 as [|m ms Hm _ IH]; intros w; simpl.
  - exists "default_user". repeat split. discriminate.
  - specialize (Hm w). destruct (m w) as [o w'] eqn:E. simpl in Hm. subst w'.
    destruct o as [[u|] | s | e]; try apply IH.
    destruct (PyStr.truthy u && negb (u =? "root")) eqn:EV; [|apply IH].
    exists u. apply andb_prop in EV as [HT HR]. repeat split; [exact HT|].
    apply negb_true_iff in HR. now apply String.eqb_neq.
Qed.

Lemma probes_read_only :
  Forall reads_only
    [ os_getenv "USER"; os_getenv "USERNAME"; getpass_getuser; pwd_name;
      ret (Some "default_user") ].
Proof.
  repeat constructor; intros w0; try reflexivity.
  - unfold getpass_getuser.
    repeat match goal with
           | |- context [if ?b then _ else _] => destruct b
           end; try reflexivity.
    now destruct (passwd_name (host w0)).
  - unfold pwd_name. now destruct (passwd_name (host w0)).
Qed.

(** X1.  [get_username] always answers, changes nothing, and the name it
    gives is never empty and never [root]. *)
Theorem get_username_never_root (w : World) :
  exists u, get_username w = (Ret u, w) /\ u <> "" /\ u <> "root".
Proof.
  destruct (first_username_valid _ probes_read_only w) as (u & HU & HT & HR).
  exists u. split; [exact HU|]. split; [|exact HR].
  intros ->. discriminate HT.
Qed.

Lemma valid_user_some o :
  valid_user o = true ->
  exists u, o = Some u /\ PyStr.truthy u && negb (u =? "root") = true.
Proof. destruct o as [u|]; [|discriminate]. intros H. now exists u. Qed.

(** X2.  The probes are tried in order: a usable [USER] decides, whatever
    the other sources say; failing that, a usable [USERNAME] decides. *)
Theorem get_username_priority (w : World) (u : string) :
  (dict_get (environ w) "USER" = Some u ->
   valid_user (Some u) = true ->
   get_username w = (Ret u, w)) /\
  (valid_user (dict_get (environ w) "USER") = false ->
   dict_get (environ w) "USERNAME" = Some u ->
   valid_user (Some u) = true ->
   get_username w = (Ret u, w)).
Proof.
  split.
  - intros HU HV. unfold get_username. simpl. try unfold os_getenv.
    rewrite HU. simpl in HV. now rewrite HV.
  - intros HN HU HV. unfold get_username. simpl. try unfold os_getenv.
    assert (HS : first_username
                   [os_getenv "USERNAME"; getpass_getuser; pwd_name;
                    ret (Some "default_user")] w = (Ret u, w)).
    { simpl. try unfold os_getenv. rewrite HU. simpl in HV. now rewrite HV. }
    destruct (dict_get (environ w) "USER") as [x|]; [|exact HS].
    simpl in HN. rewrite HN. exact HS.
Qed.

Lemma get_username_priority_witness :
  get_username Example.world = (Ret "alice", Example.world) /\
  get_username (set_environ Example.world [("USER", "root"); ("USERNAME", "bob")])
    = (Ret "bob", set_environ Example.world [("USER", "root"); ("USERNAME", "bob")]).
Proof.
  split.
  - apply (proj1 (get_username_priority Example.world "alice")); reflexivity.
  - apply (proj2 (get_username_priority
                    (set_environ Example.world [("USER", "root"); ("USERNAME", "bob")])
                    "bob")); reflexivity.
Defined.

Lemma first_username_skip m rest w o :
  m w = (Ret o, w) -> valid_user o = false ->
  first_username (m :: rest) w = first_username rest w.
Proof.
  intros HM HV. simpl. rewrite HM. destruct o as [u|]; [|reflexivity].
  simpl in HV. now rewrite HV.
Qed.

Lemma first_username_skip_raise m rest w e :
  m w = (Raise e, w) -> first_username (m :: rest) w = first_username rest w.
Proof. intros HM. simpl. now rewrite HM. Qed.

(** X3.  When every source (the four environment variables and the
    password database) is missing, empty or [root], the name is the
    literal [default_user]. *)
Theorem get_username_default (w : World) :
  valid_user (dict_get (environ w) "LOGNAME") = false ->
  valid_user (dict_get (environ w) "USER") = false ->
  valid_user (dict_get (environ w) "LNAME") = false ->
  valid_user (dict_get (environ w) "USERNAME") = false ->
  valid_user (passwd_name (host w)) = false ->
  get_username w = (Ret "default_user", w).
Proof.
  intros H1 H2 H3 H4 H5.
  assert (HP : (exists o, pwd_name w = (Ret o, w) /\ valid_user o = false) \/
               (exists e, pwd_name w = (Raise e, w))).
  { unfold pwd_name. destruct (passwd_name (host w)) as [p|]; [left | right; eauto].
    now exists (Some p). }
  assert (HG : (exists o, getpass_getuser w = (Ret o, w) /\ valid_user o = false) \/
               (exists e, getpass_getuser w = (Raise e, w))).
  { unfold getpass_getuser.
    destruct (PyStr.truthy_opt (dict_get (environ w) "LOGNAME")); [left; eauto|].
    destruct (PyStr.truthy_opt (dict_get (environ w) "USER")); [left; eauto|].
    destruct (PyStr.truthy_opt (dict_get (environ w) "LNAME")); [left; eauto|].
    destruct (PyStr.truthy_opt (dict_get (environ w) "USERNAME")); [left; eauto|].
    destruct (passwd_name (host w)) as [p|]; [left | right; eauto].
    now exists (Some p). }
  unfold get_username.
  rewrite (first_username_skip (os_getenv "USER") _ w _ eq_refl H2).
  rewrite (first_username_skip (os_getenv "USERNAME") _ w _ eq_refl H4).
  destruct HG as [(o & HG & HV) | (e & HG)];
    [rewrite (first_username_skip _ _ w o HG HV)
    | rewrite (first_username_skip_raise _ _ w e HG)];
    (destruct HP as [(o' & HP & HV') | (e' & HP)];
     [rewrite (first_username_skip _ _ w o' HP HV')
     | rewrite (first_username_skip_raise _ _ w e' HP)]);
    reflexivity.
Qed.

Lemma get_username_default_witness :
  get_username Example4.root_world = (Ret "default_user", Example4.root_world).
Proof. apply (get_username_default Example4.root_world); reflexivity. Defined.

(** ** [load_config] without a usable file *)

(** X4.  With no configuration file at the given path and none beside
    the script, [load_config] says where it looked and returns the empty
    configuration; the process goes on. *)
Theorem load_config_missing_everywhere (w : World) (config_file : string) :
  let beside := OsPath.join (script_dir (host w)) config_file in
  open_yaml config_file w = (Raise (FileNotFoundError config_file), w) ->
  open_yaml beside w = (Raise (FileNotFoundError beside), w) ->
  load_config config_file w =
    (Ret empty_config,
     set_stdout w
       (stdout w ++
        ["Config file not found in current directory or script directory.";
         ("Looked in: " ++ cwd (host w) ++ " and " ++ script_dir (host w))%string])%list).
Proof.
  cbv zeta. intros H1 H2. unfold load_config.
  rewrite (try_except_raise _ _ _ _ w (FileNotFoundError config_file));
    [|now apply bind_raise].
  simpl.
  rewrite (try_except_raise _ _ _ _ w
             (FileNotFoundError (OsPath.join (script_dir (host w)) config_file)));
    [|now apply bind_raise].
  simpl. unfold bind, print, os_getcwd, ret. simpl.
  now rewrite <- app_assoc.
Qed.

Lemma load_config_missing_everywhere_witness :
  load_config "config.yaml" Example4.no_config_world =
    (Ret empty_config,
     set_stdout Example4.no_config_world
       ["Config file not found in current directory or script directory.";
        "Looked in: /home/alice/site and /opt/tool"]).
Proof.
  apply (load_config_missing_everywhere Example4.no_config_world "config.yaml");
    reflexivity.
Defined.

(** X5.  A configuration file at the given path that is not valid YAML
    ends the process: the parse error is printed and the script leaves
    with status 1, without looking beside the script. *)
Theorem load_config_malformed_exits (w : World) (config_file msg : string) :
  open_yaml config_file w = (Raise (YAMLError msg), w) ->
  load_config config_file w =
    (Exit 1, set_stdout w (stdout w ++ [("Error parsing config file: " ++ msg)%string])%list).
Proof.
  intros H. unfold load_config.
  rewrite (try_except_raise _ _ _ _ w (YAMLError msg)); [|now apply bind_raise].
  reflexivity.
Qed.

Lemma load_config_malformed_exits_witness :
  load_config "config.yaml" Example4.malformed_world =
    (Exit 1, set_stdout Example4.malformed_world
               ["Error parsing config file: mapping values are not allowed here"]).
Proof.
  apply (load_config_malformed_exits Example4.malformed_world "config.yaml"
           "mapping values are not allowed here").
  reflexivity.
Defined.

(** X6.  The file beside the script is read inside the handler of the
    first [FileNotFoundError], where the [except yaml.YAMLError] clause
    does not reach: when that file is not valid YAML the parse error
    leaves [load_config] as an exception, with nothing printed. *)
Theorem load_config_malformed_beside_script_raises
        (w : World) (config_file msg : string) :
  let beside := OsPath.join (script_dir (host w)) config_file in
  open_yaml config_file w = (Raise (FileNotFoundError config_file), w) ->
  open_yaml beside w = (Raise (YAMLError msg), w) ->
  load_config config_file w = (Raise (YAMLError msg), w).
Proof.
  cbv zeta. intros H1 H2. unfold load_config.
  rewrite (try_except_raise _ _ _ _ w (FileNotFoundError config_file));
    [|now apply bind_raise].
  simpl.
  rewrite (try_except_raise _ _ _ _ w (YAMLError msg)); [|now apply bind_raise].
  reflexivity.
Qed.

Lemma load_config_malformed_beside_script_raises_witness :
  load_config "config.yaml" Example4.malformed_beside_script_world =
    (Raise (YAMLError "mapping values are not allowed here"),
     Example4.malformed_beside_script_world).
Proof.
  apply (load_config_malformed_beside_script_raises
           Example4.malformed_beside_script_world "config.yaml"
           "mapping values are not allowed here"); reflexivity.
Defined.

(** ** [set_aws_profile] *)

(** X7.  With a profile in the configuration, [set_aws_profile] makes it
    the value of [AWS_PROFILE] in the process environment and leaves every
    other variable as it was; without one (absent or empty) the
    environment is untouched and a warning is printed.  Nothing else but
    the console changes. *)
Theorem set_aws_profile_environment (config : Config) (w : World) :
  let r := set_aws_profile config w in
  fst r = Ret tt /\
  local_only w (snd r) /\
  (forall p, AWS_PROFILE config = Some p -> p <> "" ->
     dict_get (environ (snd r)) "AWS_PROFILE" = Some p /\
     (forall name, name <> "AWS_PROFILE" ->
        dict_get (environ (snd r)) name = dict_get (environ w) name) /\
     stdout (snd r) = (stdout w ++ [("Set AWS_PROFILE to: " ++ p)%string])%list) /\
  (PyStr.truthy_opt (AWS_PROFILE config) = false ->
     environ (snd r) = environ w /\
     stdout (snd r) =
       (stdout w ++
        ["Warning: AWS_PROFILE not found in config. Using default AWS credentials."])%list).
Proof.
  cbv zeta. unfold set_aws_profile.
  destruct (AWS_PROFILE config) as [p|] eqn:EP; simpl.
  - destruct (PyStr.truthy p) eqn:ET; simpl.
    + split; [reflexivity|]. split; [reflexivity|]. split; [|discriminate].
      intros p' HP _. injection HP as <-.
      split; [apply dict_get_set_same|]. split; [|reflexivity].
      intros name HN. apply dict_get_set_other.
      apply String.eqb_neq. congruence.
    + split; [reflexivity|]. split; [destruct w; reflexivity|]. split.
      * intros p' HP HN. injection HP as <-. exfalso.
        unfold PyStr.truthy in ET. apply negb_false_iff, String.eqb_eq in ET.
        contradiction.
      * intros _. now split.
  - split; [reflexivity|]. split; [destruct w; reflexivity|]. split.
    + intros p HP. discriminate HP.
    + intros _. now split.
Qed.

Lemma set_aws_profile_environment_witness :
  let r := set_aws_profile Example.alice Example.world in
  dict_get (environ (snd r)) "AWS_PROFILE" = Some "alice-profile" /\
  (forall name, name <> "AWS_PROFILE" ->
     dict_get (environ (snd r)) name = dict_get (environ Example.world) name) /\
  stdout (snd r) = (stdout Example.world ++ ["Set AWS_PROFILE to: alice-profile"])%list.
Proof.
  cbv zeta.
  destruct (set_aws_profile_environment Example.alice Example.world) as (_ & _ & H & _).
  apply (H "alice-profile"); [reflexivity | discriminate].
Defined.

(** ** [zip_directory] *)





(** ** [upload_file_to_url] *)



(** ** [deploy] *)

(** X11.  No exception leaves [deploy]: it returns or exits with status
    1, and whenever it exits the last line it printed is an error
    diagnostic. *)
Theorem deploy_exit_shows_error (app_id branch_id directory : string) (w : World) :
  let r := deploy app_id branch_id directory w in
  (fst r = Ret tt \/ fst r = Exit 1) /\
  (fst r <> Ret tt -> error_shown (snd r)).
Proof.
  cbv zeta.
  destruct (deploy_runs app_id branch_id directory w)
    as (o & w' & -> & [(HV & -> & _ & _ & HS) | (HV & [|] & _ & HD)]); simpl.
  - split; [now right | intros _; exact HS].
  - destruct HD as (-> & _). split; [now left | intros H; now elim H].
  - destruct HD as (-> & _ & HS). split; [now right | intros _; exact HS].
Qed.

Lemma deploy_exit_shows_error_witness :
  error_shown (snd (deploy "app123" "main" "dist" Example3.forbidden_world)).
Proof.
  apply (deploy_exit_shows_error "app123" "main" "dist" Example3.forbidden_world).
  discriminate.
Defined.

(** X12.  When [deploy] returns, it made exactly three remote calls, in
    this order: the [createDeployment] of this run, made once the archive
    is packed, the [PUT] of the archive to the upload URL that call
    answered, and the [startDeployment] of the job that call answered;
    and the archive file is removed. *)
Theorem deploy_success_flow (app_id branch_id directory : string) (w : World) :
  let r := deploy app_id branch_id directory w in
  fst r = Ret tt ->
  dict_get (zips (snd r)) "artifacts.zip" = None /\
  exists job_and_url reply w2,
    Amplify.create_deployment app_id branch_id
      (before_create_deployment app_id branch_id directory w) = (Ret job_and_url, w2) /\
    new_calls w (snd r) =
      [(CreateDeployment app_id branch_id, None);
       (HttpPut (snd job_and_url) reply, None);
       (StartDeployment app_id branch_id (fst job_and_url), None)].
Proof.
  cbv zeta.
  destruct (deploy_runs app_id branch_id directory w)
    as (o & w' & -> & [(HV & -> & _) | (HV & [|] & _ & HD)]); simpl.
  - discriminate.
  - intros _. destruct HD as (_ & HZ & HX). split; [exact HZ | exact HX].
  - destruct HD as (-> & _). discriminate.
Qed.

Lemma deploy_success_flow_witness :
  let r := deploy "app123" "main" "dist" Example.world in
  dict_get (zips (snd r)) "artifacts.zip" = None /\
  exists job_and_url reply w2,
    Amplify.create_deployment "app123" "main"
      (before_create_deployment "app123" "main" "dist" Example.world) =
      (Ret job_and_url, w2) /\
    new_calls Example.world (snd r) =
      [(CreateDeployment "app123" "main", None);
       (HttpPut (snd job_and_url) reply, None);
       (StartDeployment "app123" "main" (fst job_and_url), None)].
Proof.
  apply (deploy_success_flow "app123" "main" "dist" Example.world). reflexivity.
Defined.

(** ** [get_deployment_branch] and the operator's consent *)

Lemma nothing_created_refl w : nothing_created w w.
Proof. split; [reflexivity|]. exists []. now rewrite app_nil_r. Qed.

Lemma nothing_created_trans w1 w2 w3 :
  nothing_created w1 w2 -> nothing_created w2 w3 -> nothing_created w1 w3.
Proof.
  intros (H1 & n1 & H2 & H3) (G1 & n2 & G2 & G3). split; [congruence|].
  exists (n1 ++ n2). split; [now rewrite G2, H2, app_assoc|].
  now rewrite forallb_app, H3, G3.
Qed.

Lemma unconsented_refl w : unconsented w w.
Proof. intros H. split; [exact H | apply nothing_created_refl]. Qed.

Lemma unconsented_trans w1 w2 w3 :
  unconsented w1 w2 -> unconsented w2 w3 -> unconsented w1 w3.
Proof.
  intros H G F. destruct (H F) as [F2 N1]. destruct (G F2) as [F3 N2].
  split; [exact F3 | eapply nothing_created_trans; eassumption].
Qed.

Lemma unconsented_of_frames {A} (m : M A) :
  stable same_stdin m -> stable nothing_created m -> stable unconsented m.
Proof.
  intros HS HN w F. split; [|apply HN].
  specialize (HS w). unfold same_stdin in HS. now rewrite HS.
Qed.

Lemma nothing_created_call {A} c (serve : World -> (A + exn) * World) :
  is_CreateBranch c = false ->
  (forall w, remote_branches (snd (serve w)) = remote_branches w /\
             calls (snd (serve w)) = calls w) ->
  stable nothing_created (Amplify.call c serve).
Proof.
  intros Hc Hs w. unfold Amplify.call.
  destruct (Amplify.next_fault w) as [e|]; simpl.
  - split; [reflexivity|]. exists [(c, Some e)]. split; [reflexivity|].
    simpl. now rewrite Hc.
  - destruct (Hs (Amplify.consume_fault w)) as [H1 H2].
    destruct (serve _) as [[a | e] w2]; simpl in *;
      (split; [exact H1|]); eexists [(c, _)];
      (split; [simpl; now rewrite H2|]); simpl; now rewrite Hc.
Qed.

Lemma unconsented_print line : stable unconsented (print line).
Proof.
  apply unconsented_of_frames; intros w; [reflexivity | apply (nothing_created_refl w)].
Qed.

Lemma unconsented_branch_exists app_id name : stable unconsented (branch_exists app_id name).
Proof.
  apply unconsented_of_frames; [apply same_stdin_branch_exists|].
  unfold branch_exists. frame_steps nothing_created_refl nothing_created_trans.
  apply nothing_created_call; [reflexivity|].
  intros w. now destruct (Amplify.has_branch _ _ _).
Qed.

Lemma unconsented_list_branches app_id : stable unconsented (list_branches app_id).
Proof.
  apply unconsented_of_frames; unfold list_branches.
  - frame_steps same_stdin_refl same_stdin_trans.
    + apply same_stdin_call. intros w. reflexivity.
    + intros w. reflexivity.
  - frame_steps nothing_created_refl nothing_created_trans.
    + apply nothing_created_call; [reflexivity|]. intros w. now split.
    + intros w. apply (nothing_created_refl w).
Qed.

(** Reading a line and going on: what follows may rely on the line not
    being a yes. *)
Lemma unconsented_input_then {A} prompt (k : string -> M A) :
  (forall line, not_yes line -> stable unconsented (k line)) ->
  stable unconsented (bind (input prompt) k).
Proof.
  intros Hk w F. unfold bind, input. simpl.
  destruct (stdin w) as [|line rest] eqn:ES; simpl.
  - split; [simpl; rewrite ES; constructor | apply (nothing_created_refl w)].
  - inversion F as [|? ? HL HR]; subst.
    set (w1 := set_stdin _ rest).
    destruct (Hk line HL w1 HR) as [F2 N2].
    split; [exact F2|].
    eapply nothing_created_trans; [|exact N2]. apply (nothing_created_refl w).
Qed.

Lemma unconsented_operator_choice fuel app_id :
  stable unconsented (operator_choice fuel app_id).
Proof.
  induction fuel as [|fuel IH]; simpl.
  - apply (stable_raise _ unconsented_refl).
  - apply unconsented_input_then. intros line _.
    apply (stable_bind _ unconsented_trans); [apply unconsented_branch_exists|].
    intros [|]; [apply (stable_ret _ unconsented_refl)|].
    apply unconsented_input_then. intros answer HA.
    unfold not_yes in HA. rewrite HA. exact IH.
Qed.

Lemma unconsented_get_deployment_branch app_id config_branch git_branch :
  stable unconsented (get_deployment_branch app_id config_branch git_branch).
Proof.
  unfold get_deployment_branch.
  apply (stable_bind _ unconsented_trans).
  { unfold try_configured. destruct config_branch as [c|];
      [|apply (stable_ret _ unconsented_refl)].
    destruct (PyStr.truthy c); [|apply (stable_ret _ unconsented_refl)].
    apply (stable_bind _ unconsented_trans); [apply unconsented_branch_exists|].
    intros [|]; [apply (stable_ret _ unconsented_refl)|].
    apply (stable_bind _ unconsented_trans); [apply unconsented_print | intros _].
    apply (stable_ret _ unconsented_refl). }
  intros [b|]; [apply (stable_ret _ unconsented_refl)|].
  apply (stable_bind _ unconsented_trans).
  { unfold try_version_control. destruct git_branch as [g|];
      [|apply (stable_ret _ unconsented_refl)].
    destruct (PyStr.truthy g); [|apply (stable_ret _ unconsented_refl)].
    apply (stable_bind _ unconsented_trans); [apply unconsented_branch_exists|].
    intros [|]; [apply (stable_ret _ unconsented_refl)|].
    apply (stable_bind _ unconsented_trans); [apply unconsented_print | intros _].
    apply unconsented_input_then. intros answer HA.
    unfold not_yes in HA. rewrite HA. apply (stable_ret _ unconsented_refl). }
  intros [b|]; [apply (stable_ret _ unconsented_refl)|].
  unfold try_operator_choice.
  apply (stable_bind _ unconsented_trans); [apply unconsented_print | intros _].
  apply (stable_bind _ unconsented_trans); [apply unconsented_list_branches | intros bs].
  apply (stable_bind _ unconsented_trans).
  { apply (stable_for_each _ unconsented_refl unconsented_trans).
    intros b. apply unconsented_print. }
  intros _ w. apply unconsented_operator_choice.
Qed.

(** X13.  [get_deployment_branch] creates no branch the operator did not
    ask for: when no line of the input reads [y] (after trimming, in
    either case), the remote branches stay as they were and no
    [createBranch] call is made, whatever the configured branch and the
    branch git reports. *)
Theorem no_branch_without_consent
        (app_id : string) (config_branch git_branch : option string) (w : World) :
  Forall not_yes (stdin w) ->
  let r := get_deployment_branch app_id config_branch git_branch w in
  remote_branches (snd r) = remote_branches w /\
  forall c, In c (new_calls w (snd r)) -> is_CreateBranch (fst c) = false.
Proof.
  intros F. cbv zeta.
  destruct (unconsented_get_deployment_branch app_id config_branch git_branch w F)
    as (_ & HR & new & HC & HN).
  split; [exact HR|]. rewrite (new_calls_app _ _ _ HC).
  intros c HI. rewrite forallb_forall in HN. specialize (HN c HI).
  now apply negb_true_iff in HN.
Qed.

Lemma no_branch_without_consent_witness :
  let w := set_stdin (set_remote_branches Example.world []) ["n"; "staging"; "no"] in
  let r := get_deployment_branch "app123" (Some "main") (Some "feature-x") w in
  remote_branches (snd r) = remote_branches w /\
  forall c, In c (new_calls w (snd r)) -> is_CreateBranch (fst c) = false.
Proof.
  apply (no_branch_without_consent "app123" (Some "main") (Some "feature-x")
           (set_stdin (set_remote_branches Example.world []) ["n"; "staging"; "no"])).
  repeat constructor.
Defined.

(** ** The stages of [get_deployment_branch] *)

Lemma branch_exists_missing app_id name w :
  Amplify.has_branch w app_id name = false ->
  Amplify.next_fault w = None ->
  branch_exists app_id name w = (Ret false, after_branch_missing app_id name w).
Proof.
  intros HB HF. unfold branch_exists, try_except, bind.
  rewrite get_branch_eq, HF, HB. reflexivity.
Qed.

Lemma branch_exists_found app_id name w :
  Amplify.has_branch w app_id name = true ->
  Amplify.next_fault w = None ->
  branch_exists app_id name w = (Ret true, after_get_branch app_id name w).
Proof.
  intros HB HF. unfold branch_exists, try_except, bind.
  rewrite get_branch_eq, HF, HB. reflexivity.
Qed.

Lemma try_configured_no_name app_id config_branch w :
  no_name config_branch -> try_configured app_id config_branch w = (Ret None, w).
Proof.
  unfold no_name, try_configured. destruct config_branch as [c|]; [|reflexivity].
  simpl. now intros ->.
Qed.

Lemma try_version_control_no_name app_id git_branch w :
  no_name git_branch -> try_version_control app_id git_branch w = (Ret None, w).
Proof.
  unfold no_name, try_version_control. destruct git_branch as [g|]; [|reflexivity].
  simpl. now intros ->.
Qed.

(** X14.  A configured branch is a preference: when the service does not
    have it, [get_deployment_branch] prints a warning and goes on exactly
    as if no branch had been configured. *)
Theorem configured_branch_missing_falls_through
        (app_id c : string) (git_branch : option string) (w : World) :
  PyStr.truthy c = true ->
  Amplify.has_branch w app_id c = false ->
  Amplify.next_fault w = None ->
  get_deployment_branch app_id (Some c) git_branch w =
  get_deployment_branch app_id None git_branch
    (asked (after_branch_missing app_id c w)
       [("Warning: Configured branch '" ++ c ++ "' does not exist in Amplify app.")%string]
       (stdin w)).
Proof.
  intros HT HB HF.
  assert (H1 : try_configured app_id (Some c) w =
               (Ret None,
                asked (after_branch_missing app_id c w)
                  [("Warning: Configured branch '" ++ c ++
                    "' does not exist in Amplify app.")%string] (stdin w))).
  { unfold try_configured. rewrite HT.
    rewrite (bind_ret_l _ _ _ _ _ (branch_exists_missing _ _ _ HB HF)).
    unfold bind, print, ret, asked. simpl. reflexivity. }
  unfold get_deployment_branch.
  rewrite (bind_ret_l _ _ _ _ _ H1).
  now rewrite (bind_ret_l _ _ _ _ _ (try_configured_no_name app_id None _ eq_refl)).
Qed.

Lemma configured_branch_missing_falls_through_witness :
  get_deployment_branch "app123" (Some "staging") (Some "main") Example.world =
  get_deployment_branch "app123" None (Some "main")
    (asked (after_branch_missing "app123" "staging" Example.world)
       ["Warning: Configured branch 'staging' does not exist in Amplify app."]
       (stdin Example.world)).
Proof.
  apply (configured_branch_missing_falls_through "app123" "staging" (Some "main")
           Example.world); reflexivity.
Defined.

(** X15.  Without a configured branch, when the branch git reports is not
    remote and the operator's answer is anything but a yes, no branch is
    created and [get_deployment_branch] goes on to the operator's choice
    with the rest of the input. *)
Theorem declined_creation_falls_through
        (app_id g answer : string) (config_branch : option string)
        (rest : list string) (w : World) :
  no_name config_branch ->
  PyStr.truthy g = true ->
  Amplify.has_branch w app_id g = false ->
  Amplify.next_fault w = None ->
  stdin w = answer :: rest ->
  not_yes answer ->
  get_deployment_branch app_id config_branch (Some g) w =
  try_operator_choice app_id
    (asked (after_branch_missing app_id g w)
       [("Branch '" ++ g ++ "' does not exist in Amplify app.")%string;
        ("Do you want to create '" ++ g ++ "' branch in Amplify? (y/n): ")%string]
       rest).
Proof.
  intros HC HT HB HF HS HN. unfold get_deployment_branch.
  rewrite (bind_ret_l _ _ _ _ _ (try_configured_no_name app_id config_branch w HC)).
  unfold try_version_control. rewrite HT.
  unfold bind at 1. unfold bind at 1.
  rewrite (branch_exists_missing _ _ _ HB HF).
  unfold bind at 1. rewrite print_eq.
  unfold bind at 1. unfold input. simpl stdin. rewrite HS.
  unfold not_yes in HN. rewrite HN. unfold ret at 1.
  unfold asked. simpl. rewrite <- app_assoc. reflexivity.
Qed.

Lemma declined_creation_falls_through_witness :
  let w := set_stdin Example.world ["n"; "main"] in
  get_deployment_branch "app123" None (Some "feature-x") w =
  try_operator_choice "app123"
    (asked (after_branch_missing "app123" "feature-x" w)
       ["Branch 'feature-x' does not exist in Amplify app.";
        "Do you want to create 'feature-x' branch in Amplify? (y/n): "]
       ["main"]).
Proof.
  apply (declined_creation_falls_through "app123" "feature-x" "n" None ["main"]
           (set_stdin Example.world ["n"; "main"])); reflexivity.
Defined.

(** X16.  Without a configured branch, a branch git reports that the
    service has is returned at once: one [getBranch], no prompt, no line
    of input read. *)
Theorem version_control_branch_found
        (app_id g : string) (config_branch : option string) (w : World) :
  no_name config_branch ->
  PyStr.truthy g = true ->
  Amplify.has_branch w app_id g = true ->
  Amplify.next_fault w = None ->
  get_deployment_branch app_id config_branch (Some g) w =
    (Ret g, after_get_branch app_id g w).
Proof.
  intros HC HT HB HF. unfold get_deployment_branch.
  rewrite (bind_ret_l _ _ _ _ _ (try_configured_no_name app_id config_branch w HC)).
  unfold try_version_control. rewrite HT.
  unfold bind at 1. unfold bind at 1.
  rewrite (branch_exists_found _ _ _ HB HF). reflexivity.
Qed.

Lemma version_control_branch_found_witness :
  get_deployment_branch "app123" (Some "") (Some "main") Example.world =
    (Ret "main", after_get_branch "app123" "main" Example.world).
Proof.
  apply (version_control_branch_found "app123" "main" (Some "") Example.world);
    reflexivity.
Defined.

Lemma for_each_print {A} (l : list A) (f : A -> string) w :
  for_each l (fun a => print (f a)) w =
    (Ret tt, set_stdout w (stdout w ++ map f l)).
Proof.
  revert w. induction l as [|x l IH]; intros w; simpl.
  - rewrite app_nil_r. now destruct w.
  - unfold bind. rewrite print_eq, IH. simpl. now rewrite <- app_assoc.
Qed.

(** X17.  The operator's loop ends with the input: with neither a
    configured branch nor a branch from git and no line to read,
    [get_deployment_branch] lists the remote branches, prompts once and
    ends with [EOFError]; it makes the one [listBranches] call and creates
    nothing. *)
Theorem operator_choice_without_input
        (app_id : string) (config_branch git_branch : option string) (w : World) :
  no_name config_branch ->
  no_name git_branch ->
  Amplify.next_fault w = None ->
  stdin w = [] ->
  get_deployment_branch app_id config_branch git_branch w =
    (Raise EOFError,
     set_stdout (record_call (ListBranches app_id) None (Amplify.consume_fault w))
       (stdout w ++
        "No valid branch found. Available branches:" ::
        map (fun b => ("- " ++ b)%string) (Amplify.branches_of w app_id) ++
        ["Enter the name of the branch you want to deploy to: "])).
Proof.
  intros HC HG HF HS. unfold get_deployment_branch.
  rewrite (bind_ret_l _ _ _ _ _ (try_configured_no_name app_id config_branch w HC)).
  rewrite (bind_ret_l _ _ _ _ _ (try_version_control_no_name app_id git_branch w HG)).
  unfold try_operator_choice.
  unfold bind at 1. rewrite print_eq.
  unfold bind at 1. unfold list_branches, try_except, Amplify.list_branches, Amplify.call.
  change (Amplify.next_fault (set_stdout w _)) with (Amplify.next_fault w). rewrite HF.
  cbv beta iota zeta.
  unfold bind at 1. rewrite for_each_print.
  simpl stdin. rewrite HS. simpl operator_choice.
  unfold bind, input. simpl. rewrite HS. simpl.
  rewrite <- !app_assoc. reflexivity.
Qed.

Lemma operator_choice_without_input_witness :
  get_deployment_branch "app123" None (Some "") Example.world =
    (Raise EOFError,
     set_stdout (record_call (ListBranches "app123") None
                   (Amplify.consume_fault Example.world))
       ["No valid branch found. Available branches:"; "- main";
        "Enter the name of the branch you want to deploy to: "]).
Proof.
  apply (operator_choice_without_input "app123" None (Some "") Example.world);
    reflexivity.
Defined.

(** ** [get_app_info] *)

(** X18.  An app named on the command line is looked up by that name and
    nothing else: the working directory plays no part.  The lookup
    succeeds exactly when the mapping has a non-empty entry under the
    name; a missing name and a name with an empty entry alike end the
    process with the not-found diagnostic and status 1. *)
Theorem get_app_info_by_name (config : Config) (name : string) (w : World) :
  PyStr.truthy name = true ->
  (forall info, dict_get (config_apps config) name = Some info -> info <> [] ->
     get_app_info config (Some name) w = (Ret (name, info), w)) /\
  (dict_get (config_apps config) name = None \/
   dict_get (config_apps config) name = Some [] ->
     get_app_info config (Some name) w =
       (Exit 1,
        set_stdout w (stdout w ++ [("Error: App '" ++ name ++ "' not found in config.")%string]))).
Proof.
  intros HT. rewrite (get_app_info_explicit config name w HT). split.
  - intros info -> HN. destruct info; [now elim HN | reflexivity].
  - intros [-> | ->]; reflexivity.
Qed.

Lemma get_app_info_by_name_witness :
  get_app_info Example.alice (Some "site") (Example.with_cwd Example.world "/tmp")
    = (Ret ("site", Example.site_info), Example.with_cwd Example.world "/tmp") /\
  get_app_info Example.alice (Some "blog") Example.world
    = (Exit 1, set_stdout Example.world ["Error: App 'blog' not found in config."]).
Proof.
  split.
  - apply (proj1 (get_app_info_by_name Example.alice "site"
                    (Example.with_cwd Example.world "/tmp") eq_refl));
      [reflexivity | discriminate].
  - apply (proj2 (get_app_info_by_name Example.alice "blog" Example.world eq_refl)).
    left. reflexivity.
Defined.

(** X19.  An empty app name is no app name: [--app ''] selects by the
    working directory exactly as a run without [--app] does. *)
Theorem get_app_info_empty_name (config : Config) (w : World) :
  get_app_info config (Some "") w = get_app_info config None w.
Proof.
  unfold get_app_info, bind, os_getcwd. simpl.
  now destruct (find_app (cwd (host w)) (config_apps config)).
Qed.

(** X20.  Without an app name, [get_app_info] returns an app exactly when
    its name is not empty and it is the first entry of the mapping whose
    [repo_root] is not empty and is a prefix of the text of the working
    directory.  In every other case the process ends with status 1. *)
Theorem get_app_info_by_directory
        (config : Config) (w : World) (name : string) (info : AppInfo) :
  distinct (dict_keys (config_apps config)) = true ->
  (get_app_info config None w = (Ret (name, info), w) <->
   PyStr.truthy name = true /\
   exists before after,
     config_apps config = before ++ (name, info) :: after /\
     app_matches (cwd (host w)) info = true /\
     Forall (fun e => app_matches (cwd (host w)) (snd e) = false) before) /\
  ((exists selected, fst (get_app_info config None w) = Ret selected) \/
   fst (get_app_info config None w) = Exit 1).
Proof.
  intros HD. split; [split|].
  - intros H.
    destruct (find_app (cwd (host w)) (config_apps config)) as [n|] eqn:EF.
    2: { rewrite (get_app_info_no_match _ _ EF) in H. discriminate H. }
    destruct (find_app_first _ _ _ EF) as (before & i & after & HA & HM & HB).
    assert (HG : dict_get (config_apps config) n = Some i).
    { apply distinct_get; [exact HD|]. rewrite HA. apply in_or_app. right. now left. }
    unfold get_app_info, bind, os_getcwd in H. simpl in H. rewrite EF, HG in H.
    destruct (PyStr.truthy n) eqn:ET; simpl in H; [|discriminate H].
    destruct i as [|e i]; [discriminate H|]. injection H as <- <-.
    split; [exact ET|]. now exists before, after.
  - intros (HT & before & after & HA & HM & HB).
    now apply (get_app_info_scanned config w before name info after).
  - unfold get_app_info, bind, os_getcwd. simpl.
    destruct (find_app (cwd (host w)) (config_apps config)) as [n|]; [|now right].
    destruct (PyStr.truthy n); simpl; [|now right].
    destruct (dict_get (config_apps config) n) as [[|e i]|]; simpl;
      [now right | left; eauto | now right].
Qed.

Lemma get_app_info_by_directory_witness :
  get_app_info Example.alice None Example.world
    = (Ret ("site", Example.site_info), Example.world).
Proof.
  apply (proj1 (get_app_info_by_directory Example.alice Example.world "site"
                  Example.site_info eq_refl)).
  split; [reflexivity|]. exists [], []. repeat split. constructor.
Defined.

(** ** [main] *)

Lemma console_only_refl w : console_only w w.
Proof. unfold console_only. now destruct w. Qed.

Lemma console_only_trans w1 w2 w3 :
  console_only w1 w2 -> console_only w2 w3 -> console_only w1 w3.
Proof. unfold console_only. intros H G. rewrite G. rewrite H at 1. reflexivity. Qed.

Lemma console_only_print line : stable console_only (print line).
Proof. intros w. reflexivity. Qed.

Lemma console_only_reads {A} (m : M A) : reads_only m -> stable console_only m.
Proof. intros H w. rewrite H. apply console_only_refl. Qed.

Lemma reads_only_get_username : reads_only get_username.
Proof. intros w. destruct (get_username_total w) as [u H]. now rewrite H. Qed.

Lemma reads_only_open_yaml file : reads_only (open_yaml file).
Proof.
  intros w. unfold open_yaml. destruct (find _ _) as [[p [msg | d]]|]; reflexivity.
Qed.

Lemma console_only_select_user_config all_config shown :
  stable console_only (select_user_config all_config shown).
Proof.
  unfold select_user_config.
  apply (stable_bind _ console_only_trans);
    [apply console_only_reads, reads_only_get_username | intros username].
  apply (stable_bind _ console_only_trans); [apply console_only_print | intros _].
  apply (stable_bind _ console_only_trans); [apply console_only_print | intros _].
  apply (stable_bind _ console_only_trans).
  { destruct (negb _); [|apply (stable_ret _ console_only_refl)].
    apply (stable_bind _ console_only_trans); [apply console_only_print | intros _].
    apply (stable_ret _ console_only_refl). }
  intros c.
  apply (stable_bind _ console_only_trans); [apply console_only_print | intros _].
  apply (stable_ret _ console_only_refl).
Qed.

(** [load_config] only reads and prints. *)
Lemma console_only_load_config config_file : stable console_only (load_config config_file).
Proof.
  unfold load_config. apply (stable_try_except _ console_only_trans).
  - apply (stable_bind _ console_only_trans);
      [apply console_only_reads, reads_only_open_yaml | intros all_config].
    apply (stable_bind _ console_only_trans);
      [apply console_only_reads; intros w; reflexivity | intros current_dir].
    apply console_only_select_user_config.
  - intros e. destruct (is_FileNotFoundError e).
    + intros w. apply (stable_try_except _ console_only_trans).
      * apply (stable_bind _ console_only_trans);
          [apply console_only_reads, reads_only_open_yaml | intros all_config].
        apply console_only_select_user_config.
      * intros _.
        apply (stable_bind _ console_only_trans); [apply console_only_print | intros _].
        apply (stable_bind _ console_only_trans);
          [apply console_only_reads; intros w0; reflexivity | intros current_dir].
        apply (stable_bind _ console_only_trans); [apply console_only_print | intros _].
        apply (stable_ret _ console_only_refl).
    + apply (stable_bind _ console_only_trans); [apply console_only_print | intros _].
      apply (stable_sys_exit _ console_only_refl).
Qed.

Lemma set_aws_profile_ret config w :
  set_aws_profile config w = (Ret tt, snd (set_aws_profile config w)).
Proof. unfold set_aws_profile. now destruct (PyStr.truthy_opt _). Qed.

(** [main], once the configuration is loaded: the two lines and
    [set_aws_profile], then the action. *)
Lemma main_after_config args w cfg w1 :
  load_config (config args) w = (Ret cfg, w1) ->
  main args w =
    match action args with
    | ActListApps =>
        bind (print "Available apps:")
          (fun _ =>
             for_each (config_apps cfg)
               (fun '(app_name, app_info) =>
                  bind (print ("- " ++ app_name))
                    (fun _ =>
                       bind (print ("  Repo root: " ++
                                    or_default (dict_get app_info "repo_root")
                                               "Not specified"))
                         (fun _ =>
                            print ("  Build directory: " ++
                                   or_default (dict_get app_info "build_directory")
                                              "Not specified")))))
    | act =>
        bind (get_app_info cfg (app args))
          (fun selected =>
             match dict_get (snd selected) "app_id" with
             | None => raise (KeyError "app_id")
             | Some app_id =>
                 bind (print ("Selected app: " ++ fst selected ++
                              " (ID: " ++ app_id ++ ")"))
                   (fun _ =>
                      bind (print ("Repo root: " ++
                                   show_opt (dict_get (snd selected) "repo_root")))
                        (fun _ =>
                           bind (print ("Build directory: " ++
                                        show_opt (dict_get (snd selected)
                                                           "build_directory")))
                             (fun _ =>
                                match act with
                                | ActListBranches =>
                                    bind (list_branches app_id)
                                      (fun branches =>
                                         bind (print ("Available branches for " ++
                                                      fst selected ++ ":"))
                                           (fun _ =>
                                              for_each branches
                                                (fun b => print ("- " ++ b))))
                                | _ => deploy_action args (fst selected) app_id
                                                     (snd selected)
                                end)))
             end)
    end%string (after_banner cfg w1).
Proof.
  intros HL. unfold main. rewrite (bind_ret_l _ _ _ _ _ HL).
  unfold after_banner, bind, os_getcwd, print. simpl.
  rewrite (set_aws_profile_ret cfg). simpl.
  now destruct (action args).
Qed.

Lemma local_only_refl w : local_only w w.
Proof. unfold local_only. now destruct w. Qed.

Lemma local_only_trans w1 w2 w3 :
  local_only w1 w2 -> local_only w2 w3 -> local_only w1 w3.
Proof. unfold local_only. intros H G. rewrite G. rewrite H at 1. reflexivity. Qed.

Lemma local_only_console w w' : console_only w w' -> local_only w w'.
Proof. unfold console_only, local_only. intros H. rewrite H at 1 3. now destruct w. Qed.

Lemma local_only_set_aws_profile cfg : stable local_only (set_aws_profile cfg).
Proof.
  intros w. unfold set_aws_profile.
  destruct (PyStr.truthy_opt (AWS_PROFILE cfg)); [reflexivity|].
  apply local_only_console. reflexivity.
Qed.

Lemma local_only_after_banner cfg w : local_only w (after_banner cfg w).
Proof.
  unfold after_banner.
  apply (stable_bind _ local_only_trans);
    [intros w0; apply local_only_console; reflexivity | intros _].
  apply (stable_bind _ local_only_trans);
    [intros w0; apply local_only_console; reflexivity | intros _].
  apply local_only_set_aws_profile.
Qed.

Lemma for_each_app_lines (l : dict AppInfo) w :
  for_each l
    (fun '(app_name, app_info) =>
       bind (print ("- " ++ app_name)%string)
         (fun _ =>
            bind (print ("  Repo root: " ++
                         or_default (dict_get app_info "repo_root") "Not specified")%string)
              (fun _ =>
                 print ("  Build directory: " ++
                        or_default (dict_get app_info "build_directory")
                                   "Not specified")%string))) w
  = (Ret tt, set_stdout w (stdout w ++ flat_map app_lines l)).
Proof.
  revert w. induction l as [|[n i] l IH]; intros w; simpl.
  - rewrite app_nil_r. now destruct w.
  - unfold bind at 1. unfold bind at 1. rewrite print_eq.
    unfold bind at 1. rewrite print_eq. rewrite print_eq.
    rewrite IH. simpl. unfold app_lines. simpl.
    now rewrite <- !app_assoc.
Qed.

(** X21.  The [list-apps] action needs no app and no service: once the
    configuration is loaded it returns normally, changing nothing but the
    console and the process environment (no remote call, no input read, no
    file written), and the last lines printed are the heading and, for
    every app in the order of the mapping, its name, [repo_root] and
    [build_directory] ([Not specified] for a missing one). *)
Theorem main_list_apps (args : Args) (w w1 : World) (cfg : Config) :
  action args = ActListApps ->
  load_config (config args) w = (Ret cfg, w1) ->
  let r := main args w in
  fst r = Ret tt /\
  local_only w (snd r) /\
  exists earlier,
    stdout (snd r) =
      earlier ++ "Available apps:" :: flat_map app_lines (config_apps cfg).
Proof.
  intros HA HL. cbv zeta.
  assert (HM : main args w =
               (Ret tt,
                set_stdout (after_banner cfg w1)
                  (stdout (after_banner cfg w1) ++
                   "Available apps:" :: flat_map app_lines (config_apps cfg)))).
  { rewrite (main_after_config _ _ _ _ HL), HA.
    unfold bind at 1. rewrite print_eq. rewrite for_each_app_lines. simpl.
    now rewrite <- app_assoc. }
  rewrite HM. simpl. split; [reflexivity|]. split.
  - eapply local_only_trans.
    + apply local_only_console.
      pose proof (console_only_load_config (config args) w) as HC.
      rewrite HL in HC. exact HC.
    + eapply local_only_trans; [apply local_only_after_banner|].
      apply local_only_console. reflexivity.
  - now exists (stdout (after_banner cfg w1)).
Qed.

Lemma main_list_apps_witness :
  let r := main Example4.list_apps_args Example.world in
  fst r = Ret tt /\
  local_only Example.world (snd r) /\
  exists earlier,
    stdout (snd r) =
      earlier ++ ["Available apps:"; "- site"; "  Repo root: /home/alice/site";
                  "  Build directory: dist"].
Proof.
  apply (main_list_apps Example4.list_apps_args Example.world
           (snd (load_config "config.yaml" Example.world)) Example.alice);
    reflexivity.
Defined.

Lemma console_only_get_app_info cfg app_name :
  stable console_only (get_app_info cfg app_name).
Proof.
  unfold get_app_info.
  apply (stable_bind _ console_only_trans);
    [apply console_only_reads; intros w; reflexivity | intros current_dir].
  assert (HX : forall line, stable console_only
                              (bind (print line) (fun _ => @sys_exit (string * AppInfo) 1))).
  { intros line.
    apply (stable_bind _ console_only_trans); [apply console_only_print | intros _].
    apply (stable_sys_exit _ console_only_refl). }
  destruct (if negb (PyStr.truthy_opt app_name)
            then match find_app current_dir (config_apps cfg) with
                 | Some name => Some name
                 | None => app_name
                 end
            else app_name) as [name|]; [|apply HX].
  destruct (negb (PyStr.truthy name)); [apply HX|].
  destruct (dict_get (config_apps cfg) name) as [[|e i]|];
    [apply HX | apply (stable_ret _ console_only_refl) | apply HX].
Qed.

(** X22.  The [app_id] of the selected app is read with a subscript: for
    every action but [list-apps], an app entry without [app_id] ends the
    process with an uncaught [KeyError] before anything is asked of the
    service; only the console and the process environment have changed. *)
Theorem main_missing_app_id
        (args : Args) (w w1 w2 : World) (cfg : Config)
        (name : string) (info : AppInfo) :
  action args <> ActListApps ->
  load_config (config args) w = (Ret cfg, w1) ->
  get_app_info cfg (app args) (after_banner cfg w1) = (Ret (name, info), w2) ->
  dict_get info "app_id" = None ->
  main args w = (Raise (KeyError "app_id"), w2) /\
  exit_status (fst (main args w)) = 1%Z /\
  local_only w w2.
Proof.
  intros HA HL HG HI.
  assert (HM : main args w = (Raise (KeyError "app_id"), w2)).
  { rewrite (main_after_config _ _ _ _ HL).
    destruct (action args); [| |now elim HA];
      rewrite (bind_ret_l _ _ _ _ _ HG); simpl; now rewrite HI. }
  split; [exact HM|]. split; [now rewrite HM|].
  eapply local_only_trans.
  - apply local_only_console.
    pose proof (console_only_load_config (config args) w) as HC.
    rewrite HL in HC. exact HC.
  - eapply local_only_trans; [apply local_only_after_banner|].
    apply local_only_console.
    pose proof (console_only_get_app_info cfg (app args) (after_banner cfg w1)) as HC.
    rewrite HG in HC. exact HC.
Qed.

Lemma main_missing_app_id_witness :
  main Example.deploy_args Example4.anonymous_world =
    (Raise (KeyError "app_id"),
     after_banner Example4.anonymous_config
       (snd (load_config "config.yaml" Example4.anonymous_world))) /\
  exit_status (fst (main Example.deploy_args Example4.anonymous_world)) = 1%Z /\
  local_only Example4.anonymous_world
    (after_banner Example4.anonymous_config
       (snd (load_config "config.yaml" Example4.anonymous_world))).
Proof.
  apply (main_missing_app_id Example.deploy_args Example4.anonymous_world
           (snd (load_config "config.yaml" Example4.anonymous_world))
           _ Example4.anonymous_config "site" Example4.anonymous_info);
    [discriminate | reflexivity | reflexivity | reflexivity].
Defined.

Lemma exits_with_1_get_username : exits_with_1 get_username.
Proof.
  intros w s. destruct (get_username_total w) as [u H]. rewrite H. discriminate.
Qed.

Lemma exits_with_1_open_yaml file : exits_with_1 (open_yaml file).
Proof.
  intros w s. unfold open_yaml.
  destruct (find _ _) as [[p [msg | d]]|]; discriminate.
Qed.

Lemma exits_with_1_select_user_config all_config shown :
  exits_with_1 (select_user_config all_config shown).
Proof.
  unfold select_user_config.
  apply exits_with_1_bind; [apply exits_with_1_get_username | intros username].
  apply exits_with_1_bind; [apply exits_with_1_print | intros _].
  apply exits_with_1_bind; [apply exits_with_1_print | intros _].
  apply exits_with_1_bind.
  { destruct (negb _); [|apply exits_with_1_ret].
    apply exits_with_1_bind; [apply exits_with_1_print | intros _; apply exits_with_1_ret]. }
  intros c.
  apply exits_with_1_bind; [apply exits_with_1_print | intros _; apply exits_with_1_ret].
Qed.

Lemma exits_with_1_load_config config_file : exits_with_1 (load_config config_file).
Proof.
  unfold load_config. apply exits_with_1_try_except.
  - apply exits_with_1_bind; [apply exits_with_1_open_yaml | intros all_config].
    apply exits_with_1_bind; [intros w s H; discriminate H | intros current_dir].
    apply exits_with_1_select_user_config.
  - intros e. destruct (is_FileNotFoundError e).
    + intros w. apply exits_with_1_try_except.
      * apply exits_with_1_bind; [apply exits_with_1_open_yaml | intros all_config].
        apply exits_with_1_select_user_config.
      * intros _.
        apply exits_with_1_bind; [apply exits_with_1_print | intros _].
        apply exits_with_1_bind; [intros w0 s H; discriminate H | intros current_dir].
        apply exits_with_1_bind; [apply exits_with_1_print | intros _].
        apply exits_with_1_ret.
    + apply exits_with_1_bind; [apply exits_with_1_print | intros _].
      apply exits_with_1_sys_exit.
Qed.

Lemma exits_with_1_get_app_info cfg app_name : exits_with_1 (get_app_info cfg app_name).
Proof.
  unfold get_app_info.
  apply exits_with_1_bind; [intros w s H; discriminate H | intros current_dir].
  assert (HX : forall line, exits_with_1
                              (bind (print line) (fun _ => @sys_exit (string * AppInfo) 1))).
  { intros line. apply exits_with_1_bind; [apply exits_with_1_print | intros _].
    apply exits_with_1_sys_exit. }
  destruct (if negb (PyStr.truthy_opt app_name)
            then match find_app current_dir (config_apps cfg) with
                 | Some name => Some name
                 | None => app_name
                 end
            else app_name) as [name|]; [|apply HX].
  destruct (negb (PyStr.truthy name)); [apply HX|].
  destruct (dict_get (config_apps cfg) name) as [[|e i]|];
    [apply HX | apply exits_with_1_ret | apply HX].
Qed.

Lemma exits_with_1_list_branches app_id : exits_with_1 (list_branches app_id).
Proof.
  unfold list_branches. apply exits_with_1_try_except; [apply exits_with_1_call|].
  intros e. apply exits_with_1_bind; [apply exits_with_1_print | intros _].
  apply exits_with_1_sys_exit.
Qed.

Lemma exits_with_1_deploy app_id branch_id directory :
  exits_with_1 (deploy app_id branch_id directory).
Proof.
  intros w s.
  destruct (deploy_runs app_id branch_id directory w)
    as (o & w' & -> & [(_ & -> & _) | (_ & [|] & _ & HD)]); simpl.
  - intros H. now injection H as <-.
  - destruct HD as (-> & _). discriminate.
  - destruct HD as (-> & _). intros H. now injection H as <-.
Qed.

Lemma exits_with_1_deploy_action args app_name app_id app_info :
  exits_with_1 (deploy_action args app_name app_id app_info).
Proof.
  unfold deploy_action.
  apply exits_with_1_bind; [apply exits_with_1_get_current_git_branch | intros g].
  apply exits_with_1_bind; [apply exits_with_1_get_deployment_branch | intros b].
  destruct (_ || _).
  - apply exits_with_1_bind; [apply exits_with_1_print | intros _].
    apply exits_with_1_sys_exit.
  - apply exits_with_1_bind; [apply exits_with_1_print | intros _].
    apply exits_with_1_bind; [apply exits_with_1_deploy | intros _].
    apply exits_with_1_print.
Qed.

Lemma exits_with_1_main args : exits_with_1 (main args).
Proof.
  unfold main.
  apply exits_with_1_bind; [apply exits_with_1_load_config | intros cfg].
  apply exits_with_1_bind; [intros w s H; discriminate H | intros current_dir].
  apply exits_with_1_bind; [apply exits_with_1_print | intros _].
  apply exits_with_1_bind; [intros w s H; discriminate H | intros _].
  apply exits_with_1_bind.
  { intros w s. rewrite set_aws_profile_ret. discriminate. }
  intros _.
  assert (HS : exits_with_1
                 (bind (get_app_info cfg (app args))
                    (fun selected =>
                       match dict_get (snd selected) "app_id" with
                       | None => raise (KeyError "app_id")
                       | Some app_id =>
                           bind (print ("Selected app: " ++ fst selected ++
                                        " (ID: " ++ app_id ++ ")")%string)
                             (fun _ =>
                                bind (print ("Repo root: " ++
                                             show_opt (dict_get (snd selected)
                                                                "repo_root"))%string)
                                  (fun _ =>
                                     bind (print ("Build directory: " ++
                                                  show_opt (dict_get (snd selected)
                                                              "build_directory"))%string)
                                       (fun _ =>
                                          match action args with
                                          | ActListBranches =>
                                              bind (list_branches app_id)
                                                (fun branches =>
                                                   bind (print ("Available branches for " ++
                                                                fst selected ++ ":")%string)
                                                     (fun _ =>
                                                        for_each branches
                                                          (fun b => print ("- " ++ b)%string)))
                                          | _ => deploy_action args (fst selected) app_id
                                                               (snd selected)
                                          end)))
                       end))).
  { apply exits_with_1_bind; [apply exits_with_1_get_app_info | intros selected].
    destruct (dict_get (snd selected) "app_id") as [app_id|];
      [|intros w s H; discriminate H].
    apply exits_with_1_bind; [apply exits_with_1_print | intros _].
    apply exits_with_1_bind; [apply exits_with_1_print | intros _].
    apply exits_with_1_bind; [apply exits_with_1_print | intros _].
    destruct (action args); try apply exits_with_1_deploy_action.
    apply exits_with_1_bind; [apply exits_with_1_list_branches | intros branches].
    apply exits_with_1_bind; [apply exits_with_1_print | intros _].
    apply exits_with_1_for_each. intros b. apply exits_with_1_print. }
  destruct (action args) eqn:EA; try exact HS.
  apply exits_with_1_bind; [apply exits_with_1_print | intros _].
  apply exits_with_1_for_each. intros [n i].
  apply exits_with_1_bind; [apply exits_with_1_print | intros _].
  apply exits_with_1_bind; [apply exits_with_1_print | intros _].
  apply exits_with_1_print.
Qed.

(** X23.  Every [sys.exit] of the script carries status 1: once the
    command line is parsed, a run that ends through [sys.exit], in [main]
    or in any function it calls, ends with status 1. *)
Theorem main_sys_exit_status (args : Args) (w : World) (status : Z) :
  fst (main args w) = Exit status -> status = 1%Z.
Proof. apply exits_with_1_main. Qed.

Lemma main_sys_exit_status_witness :
  exists status,
    fst (main Example.deploy_args Example4.no_config_world) = Exit status /\
    status = 1%Z.
Proof.
  exists 1%Z. split; [reflexivity|].
  apply (main_sys_exit_status Example.deploy_args Example4.no_config_world 1%Z).
  reflexivity.
Defined.

Lemma list_branches_cases app_id w :
  exists o w',
    list_branches app_id w = (o, w') /\ zips w' = zips w /\
    ((exists names, o = Ret names /\
                    calls w' = calls w ++ [(ListBranches app_id, None)]) \/
     (exists e, ((o = Exit 1 /\ error_shown w') \/ o = Raise e) /\
                calls w' = calls w ++ [(ListBranches app_id, Some e)])).
Proof. apply exiting_wrapper_cases; [intros x; reflexivity|]. intros w0. now split. Qed.

Lemma main_list_branches_run
      (args : Args) (w w1 w2 : World) (cfg : Config)
      (name app_id : string) (info : AppInfo) :
  action args = ActListBranches ->
  load_config (config args) w = (Ret cfg, w1) ->
  get_app_info cfg (app args) (after_banner cfg w1) = (Ret (name, info), w2) ->
  dict_get info "app_id" = Some app_id ->
  exists o w', main args w = (o, w') /\
    zips w' = zips w /\
    exists result,
      new_calls w w' = [(ListBranches app_id, result)] /\
      (result = None -> o = Ret tt) /\
      (forall code msg, result = Some (ClientError code msg) -> o = Exit 1).
Proof.
  intros HA HL HG HI.
  assert (HW : local_only w w2).
  { eapply local_only_trans.
    - apply local_only_console.
      pose proof (console_only_load_config (config args) w) as HC.
      rewrite HL in HC. exact HC.
    - eapply local_only_trans; [apply local_only_after_banner|].
      apply local_only_console.
      pose proof (console_only_get_app_info cfg (app args) (after_banner cfg w1)) as HC.
      rewrite HG in HC. exact HC. }
  assert (HZ : zips w2 = zips w) by (rewrite HW; reflexivity).
  assert (HC : calls w2 = calls w) by (rewrite HW; reflexivity).
  rewrite (main_after_config _ _ _ _ HL), HA.
  rewrite (bind_ret_l _ _ _ _ _ HG). cbv beta. cbn [snd fst]. rewrite HI.
  unfold bind at 1. rewrite print_eq. unfold bind at 1. rewrite print_eq.
  unfold bind at 1. rewrite print_eq.
  rewrite !set_stdout_twice.
  set (w3 := set_stdout w2 _).
  assert (HZ3 : zips w3 = zips w) by exact HZ.
  assert (HC3 : calls w3 = calls w) by exact HC.
  clearbody w3.
  destruct (list_branches_cases app_id w3)
    as (o & w4 & HLB & HZ4 & [(names & -> & HC4) | (e & HO & HC4)]).
  - rewrite (bind_ret_l _ _ _ _ _ HLB).
    unfold bind at 1. rewrite print_eq. rewrite for_each_print.
    eexists _, _. split; [reflexivity|]. simpl.
    split; [now rewrite HZ4|]. exists None. split.
    + apply new_calls_app. simpl. now rewrite HC4, HC3.
    + split; [reflexivity | discriminate].
  - assert (HN : new_calls w w4 = [(ListBranches app_id, Some e)])
      by (apply new_calls_app; now rewrite HC4, HC3).
    destruct HO as [[-> _] | ->].
    + rewrite (bind_exit _ _ _ _ _ HLB).
      eexists _, _. split; [reflexivity|].
      split; [now rewrite HZ4|]. exists (Some e). split; [exact HN|].
      split; [discriminate | reflexivity].
    + rewrite (bind_raise _ _ _ _ _ HLB).
      eexists _, _. split; [reflexivity|].
      split; [now rewrite HZ4|]. exists (Some e). split; [exact HN|].
      split; [discriminate|].
      intros code msg HE. injection HE as ->. exfalso.
      unfold list_branches, try_except in HLB.
      destruct (Amplify.list_branches app_id w3) as [[a | s | e0] w5];
        try discriminate HLB.
      destruct (is_ClientError e0) eqn:EC; [discriminate HLB|].
      injection HLB as -> _. discriminate EC.
Qed.

(** X24.  The [list-branches] action asks the service once: with the
    configuration loaded and an app with an [app_id] selected, the run
    makes the one [listBranches] call for that [app_id] and no other
    remote call, and writes no archive file; a refusal of the call with a
    [ClientError] ends the process with status 1. *)
Theorem main_list_branches
        (args : Args) (w w1 w2 : World) (cfg : Config)
        (name app_id : string) (info : AppInfo) :
  action args = ActListBranches ->
  load_config (config args) w = (Ret cfg, w1) ->
  get_app_info cfg (app args) (after_banner cfg w1) = (Ret (name, info), w2) ->
  dict_get info "app_id" = Some app_id ->
  let r := main args w in
  zips (snd r) = zips w /\
  exists result,
    new_calls w (snd r) = [(ListBranches app_id, result)] /\
    (result = None -> fst r = Ret tt) /\
    (forall code msg, result = Some (ClientError code msg) -> fst r = Exit 1).
Proof.
  intros HA HL HG HI. cbv zeta.
  destruct (main_list_branches_run args w w1 w2 cfg name app_id info HA HL HG HI)
    as (o & w' & -> & HZ & result & HN & HR & HE).
  simpl. split; [exact HZ|]. exists result. auto.
Qed.

Lemma main_list_branches_witness :
  let r := main Example4.list_branches_args Example.world in
  zips (snd r) = zips Example.world /\
  exists result,
    new_calls Example.world (snd r) = [(ListBranches "app123", result)] /\
    (result = None -> fst r = Ret tt) /\
    (forall code msg, result = Some (ClientError code msg) -> fst r = Exit 1).
Proof.
  apply (main_list_branches Example4.list_branches_args Example.world
           (snd (load_config "config.yaml" Example.world))
           (after_banner Example.alice (snd (load_config "config.yaml" Example.world)))
           Example.alice "site" "app123" Example.site_info); reflexivity.
Defined.

(** X25.  [get_current_git_branch] handles a directory that is no
    repository, not a checkout without a branch: for the [deploy] action
    with the head detached, the [TypeError] of [active_branch] is caught
    nowhere and ends the process with status 1 before anything is asked
    of the service; no warning is printed and only the console and the
    process environment have changed. *)
Theorem main_deploy_detached_head
        (args : Args) (w w1 w2 : World) (cfg : Config)
        (name app_id : string) (info : AppInfo) :
  action args = ActDeploy ->
  load_config (config args) w = (Ret cfg, w1) ->
  get_app_info cfg (app args) (after_banner cfg w1) = (Ret (name, info), w2) ->
  dict_get info "app_id" = Some app_id ->
  git (host w) = DetachedHead ->
  exists msg w',
    main args w = (Raise (TypeError msg), w') /\
    local_only w w' /\
    exists earlier,
      stdout w' =
        earlier ++ [("Build directory: " ++ show_opt (dict_get info "build_directory"))%string].
Proof.
  intros HA HL HG HI HD.
  assert (HW : local_only w w2).
  { eapply local_only_trans.
    - apply local_only_console.
      pose proof (console_only_load_config (config args) w) as HC.
      rewrite HL in HC. exact HC.
    - eapply local_only_trans; [apply local_only_after_banner|].
      apply local_only_console.
      pose proof (console_only_get_app_info cfg (app args) (after_banner cfg w1)) as HC.
      rewrite HG in HC. exact HC. }
  rewrite (main_after_config _ _ _ _ HL), HA.
  rewrite (bind_ret_l _ _ _ _ _ HG). cbv beta. cbn [snd fst]. rewrite HI.
  unfold bind at 1. rewrite print_eq. unfold bind at 1. rewrite print_eq.
  unfold bind at 1. rewrite print_eq.
  rewrite !set_stdout_twice.
  set (w3 := set_stdout w2 _).
  assert (HH : git (host w3) = DetachedHead).
  { unfold w3. simpl. rewrite HW. simpl. exact HD. }
  unfold deploy_action.
  assert (HB : get_current_git_branch w3 =
               (Raise (TypeError "HEAD is a detached symbolic reference"), w3)).
  { unfold get_current_git_branch, try_except. now rewrite HH. }
  rewrite (bind_raise _ _ _ _ _ HB).
  eexists _, w3. split; [reflexivity|]. split.
  - eapply local_only_trans; [exact HW|]. apply local_only_console.
    unfold w3, console_only. reflexivity.
  - unfold w3. cbn [stdout set_stdout]. eexists. reflexivity.
Qed.

Lemma main_deploy_detached_head_witness :
  exists msg w',
    main Example.deploy_args Example4.detached_world = (Raise (TypeError msg), w') /\
    local_only Example4.detached_world w' /\
    exists earlier,
      stdout w' =
        earlier ++
        [("Build directory: " ++ show_opt (dict_get Example.site_info "build_directory"))%string].
Proof.
  apply (main_deploy_detached_head Example.deploy_args Example4.detached_world
           (snd (load_config "config.yaml" Example4.detached_world))
           (after_banner Example.alice
              (snd (load_config "config.yaml" Example4.detached_world)))
           Example.alice "site" "app123" Example.site_info); reflexivity.
Defined.
